(** * dav1d_jni.cc: the JNI bridge between the dav1d decoder and ExoPlayer

    A shallow embedding of [extensions/dav1d/src/main/jni/dav1d_jni.cc]:
    the reference-counted frame-buffer pool ([JniBufferManager]), the
    conversion of a decoded picture into a frame buffer ([SetFrameData]),
    the copies into the output byte buffer and onto the native window, and
    the JNI entry points that use them.

    C++ [int] values are modelled as [Z]; signed overflow and out-of-bounds
    array accesses are undefined behaviour and are modelled as the absence
    of a result ([None]). *)

From Stdlib Require Import ZArith Lia List String.
Import ListNotations.
From stdpp Require Import base numbers option list gmap.
Local Open Scope Z_scope.

(** ** C integers *)

Definition INT_MIN : Z := - 2 ^ 31.
Definition INT_MAX : Z := 2 ^ 31 - 1.

Definition in_int (z : Z) : Prop := INT_MIN <= z <= INT_MAX.
Definition in_intb (z : Z) : bool := (INT_MIN <=? z) && (z <=? INT_MAX).

(** Conversion of a wider integer ([size_t], [ptrdiff_t]) to [int]: the value
    modulo 2^32, read as a signed number. *)
Definition to_int (z : Z) : Z := (z + 2 ^ 31) mod 2 ^ 32 - 2 ^ 31.

(** Conversion of an [int] to [jbyte] (the store [data[j] = ...]): the low
    eight bits, kept here as the unsigned byte 0..255. *)
Definition to_byte (z : Z) : Z := z mod 256.

(** ** Constants of the file *)

Definition kPlaneY : Z := 0.
Definition kPlaneU : Z := 1.
Definition kPlaneV : Z := 2.
Definition kMaxPlanes : Z := 3.

Definition kOutputModeYuv : Z := 0.
Definition kOutputModeSurfaceYuv : Z := 1.
Definition kColorSpaceUnknown : Z := 0.

Definition kStatusError : Z := 0.
Definition kStatusOk : Z := 1.
Definition kStatusDecodeOnly : Z := 2.

Definition kMaxFrames : Z := 32.

Inductive JniStatusCode : Set :=
| kJniStatusOk
| kJniStatusOutOfMemory
| kJniStatusBufferAlreadyReleased
| kJniStatusInvalidNumOfPlanes
| kJniStatusBitDepth12NotSupportedWithYuv
| kJniStatusHighBitDepthNotSupportedWithSurfaceYuv
| kJniStatusANativeWindowError
| kJniStatusBufferResizeError
| kJniStatusNeonNotSupported.

Definition JniStatusCode_value (c : JniStatusCode) : Z :=
  match c with
  | kJniStatusOk => 0
  | kJniStatusOutOfMemory => -1
  | kJniStatusBufferAlreadyReleased => -2
  | kJniStatusInvalidNumOfPlanes => -3
  | kJniStatusBitDepth12NotSupportedWithYuv => -4
  | kJniStatusHighBitDepthNotSupportedWithSurfaceYuv => -5
  | kJniStatusANativeWindowError => -6
  | kJniStatusBufferResizeError => -7
  | kJniStatusNeonNotSupported => -8
  end.

Definition JniStatusCode_eqb (a b : JniStatusCode) : bool :=
  JniStatusCode_value a =? JniStatusCode_value b.

(** ** Arrays indexed by a C [int] *)

(** [a[i]] for reading: defined inside the bounds only. *)
Definition array_get {A} (a : list A) (i : Z) : option A :=
  if 0 <=? i then a !! Z.to_nat i else None.

(** [a[i] = x]: defined inside the bounds only. *)
Definition array_set {A} (a : list A) (i : Z) (x : A) : option (list A) :=
  if (0 <=? i) && (i <? Z.of_nat (length a)) then Some (<[Z.to_nat i := x]> a)
  else None.

(** The member arrays [T x[2]] and [T x[kMaxPlanes]]. *)
Record array2 (A : Type) : Type := mk_array2 { elt2_0 : A; elt2_1 : A }.
Record array3 (A : Type) : Type :=
  mk_array3 { elt3_0 : A; elt3_1 : A; elt3_2 : A }.
Arguments mk_array2 {A} _ _.
Arguments elt2_0 {A} _.
Arguments elt2_1 {A} _.
Arguments mk_array3 {A} _ _ _.
Arguments elt3_0 {A} _.
Arguments elt3_1 {A} _.
Arguments elt3_2 {A} _.

Definition get2 {A} (a : array2 A) (i : Z) : option A :=
  if i =? 0 then Some (elt2_0 a)
  else if i =? 1 then Some (elt2_1 a)
  else None.

Definition get3 {A} (a : array3 A) (i : Z) : option A :=
  if i =? 0 then Some (elt3_0 a)
  else if i =? 1 then Some (elt3_1 a)
  else if i =? 2 then Some (elt3_2 a)
  else None.

Definition set3 {A} (a : array3 A) (i : Z) (x : A) : option (array3 A) :=
  if i =? 0 then Some (mk_array3 x (elt3_1 a) (elt3_2 a))
  else if i =? 1 then Some (mk_array3 (elt3_0 a) x (elt3_2 a))
  else if i =? 2 then Some (mk_array3 (elt3_0 a) (elt3_1 a) x)
  else None.

(** [for (int i = first; i < first + n; i++) body], over a state; the body
    may be undefined. *)
Fixpoint for_loop {St} (n : nat) (i : Z) (body : Z -> St -> option St) (s : St)
  : option St :=
  match n with
  | O => Some s
  | S n' => match body i s with
            | Some s' => for_loop n' (i + 1) body s'
            | None => None
            end
  end.

(** ** Dav1dPicture *)

(** The decoder's picture. The struct is declared in [include/dav1d.h], the
    header of the decoder library, and is modelled here by the members this
    file reads: [data], the addresses of the three planes; [stride], the two
    strides (luma and chroma, which is why [SetFrameData] reads [stride[1]]
    for plane 2), of type [ptrdiff_t]; and [p], the [int] parameters. *)
Module DAV1D_API.

Record Dav1dPictureParameters : Type := mkDav1dPictureParameters {
  w : Z;
  h : Z;
  bpc : Z
}.

Record Dav1dPicture : Type := mkDav1dPicture {
  data : array3 Z;
  stride : array2 Z;
  p : Dav1dPictureParameters
}.

End DAV1D_API.

Abbreviation Dav1dPicture := DAV1D_API.Dav1dPicture.

(** ** JniFrameBuffer *)

(** [raw_buffer_] records, for each plane, whether the pointer is non-null.
    The arrays that the constructor leaves uninitialised start at zero. *)
Record JniFrameBuffer : Type := mkJniFrameBuffer {
  stride_ : array3 Z;
  plane_ : array3 Z;
  displayed_width_ : array3 Z;
  displayed_height_ : array3 Z;
  id_ : Z;
  reference_count_ : Z;
  raw_buffer_ : array3 bool;
  raw_buffer_size_ : array3 Z
}.

(** [explicit JniFrameBuffer(int id) : id_(id), reference_count_(0) {}] *)
Definition new_JniFrameBuffer (id : Z) : JniFrameBuffer :=
  {| stride_ := mk_array3 0 0 0;
     plane_ := mk_array3 0 0 0;
     displayed_width_ := mk_array3 0 0 0;
     displayed_height_ := mk_array3 0 0 0;
     id_ := id;
     reference_count_ := 0;
     raw_buffer_ := mk_array3 false false false;
     raw_buffer_size_ := mk_array3 0 0 0 |}.

Definition set_reference_count (b : JniFrameBuffer) (n : Z) : JniFrameBuffer :=
  {| stride_ := stride_ b;
     plane_ := plane_ b;
     displayed_width_ := displayed_width_ b;
     displayed_height_ := displayed_height_ b;
     id_ := id_ b;
     reference_count_ := n;
     raw_buffer_ := raw_buffer_ b;
     raw_buffer_size_ := raw_buffer_size_ b |}.

Definition set_raw_buffer (b : JniFrameBuffer) (r : array3 bool)
    (s : array3 Z) : JniFrameBuffer :=
  {| stride_ := stride_ b;
     plane_ := plane_ b;
     displayed_width_ := displayed_width_ b;
     displayed_height_ := displayed_height_ b;
     id_ := id_ b;
     reference_count_ := reference_count_ b;
     raw_buffer_ := r;
     raw_buffer_size_ := s |}.

(** One iteration of the loop of [SetFrameData]. The strides are narrowed
    from [ptrdiff_t] to the [int] elements of [stride_]; [/] on [int]
    truncates toward zero. *)
Definition SetFrameData_plane (decoder_buffer : Dav1dPicture)
    (plane_index : Z) (b : JniFrameBuffer) : option JniFrameBuffer :=
  s ← (if (plane_index =? 0) || (plane_index =? 1)
       then get2 (DAV1D_API.stride decoder_buffer) plane_index
       else get2 (DAV1D_API.stride decoder_buffer) 1);
  stride' ← set3 (stride_ b) plane_index (to_int s);
  d ← get3 (DAV1D_API.data decoder_buffer) plane_index;
  plane' ← set3 (plane_ b) plane_index d;
  width' ← set3 (displayed_width_ b) plane_index
             (if plane_index =? 0
              then DAV1D_API.w (DAV1D_API.p decoder_buffer)
              else DAV1D_API.w (DAV1D_API.p decoder_buffer) ÷ 2);
  height' ← set3 (displayed_height_ b) plane_index
              (if plane_index =? 0
               then DAV1D_API.h (DAV1D_API.p decoder_buffer)
               else DAV1D_API.h (DAV1D_API.p decoder_buffer) ÷ 2);
  Some {| stride_ := stride';
          plane_ := plane';
          displayed_width_ := width';
          displayed_height_ := height';
          id_ := id_ b;
          reference_count_ := reference_count_ b;
          raw_buffer_ := raw_buffer_ b;
          raw_buffer_size_ := raw_buffer_size_ b |}.

(** [void SetFrameData(const DAV1D_API::Dav1dPicture &decoder_buffer)] *)
Definition SetFrameData (decoder_buffer : Dav1dPicture) (b : JniFrameBuffer)
  : option JniFrameBuffer :=
  for_loop 3 kPlaneY (SetFrameData_plane decoder_buffer) b.

(** [void AddReference() { ++reference_count_; }]; overflow of the [int]
    is undefined. *)
Definition AddReference (b : JniFrameBuffer) : option JniFrameBuffer :=
  if reference_count_ b <? INT_MAX
  then Some (set_reference_count b (reference_count_ b + 1))
  else None.

(** [void RemoveReference() { reference_count_--; }] *)
Definition RemoveReference (b : JniFrameBuffer) : option JniFrameBuffer :=
  if INT_MIN <? reference_count_ b
  then Some (set_reference_count b (reference_count_ b - 1))
  else None.

(** [bool InUse() const { return reference_count_ != 0; }] *)
Definition InUse (b : JniFrameBuffer) : bool :=
  negb (reference_count_ b =? 0).

(** [int *BufferPrivateData() const]: the address of [id_]; the callers
    only read through it. *)
Definition BufferPrivateData (b : JniFrameBuffer) : Z := id_ b.

Definition Stride (b : JniFrameBuffer) (plane_index : Z) : option Z :=
  get3 (stride_ b) plane_index.

Definition Plane (b : JniFrameBuffer) (plane_index : Z) : option Z :=
  get3 (plane_ b) plane_index.

Definition DisplayedWidth (b : JniFrameBuffer) (plane_index : Z) : option Z :=
  get3 (displayed_width_ b) plane_index.

Definition DisplayedHeight (b : JniFrameBuffer) (plane_index : Z)
  : option Z :=
  get3 (displayed_height_ b) plane_index.

(** ** JniBufferManager *)

(** A [JniFrameBuffer *]: the address of an object in the heap of frame
    buffers. *)
Definition ptr : Set := nat.

(** [all_buffers_] and [free_buffers_] are arrays of [kMaxFrames] pointers;
    a slot that was never written holds [None]. *)
Record JniBufferManager : Type := mkJniBufferManager {
  all_buffers_ : list (option ptr);
  all_buffer_count_ : Z;
  free_buffers_ : list (option ptr);
  free_buffer_count_ : Z
}.

Definition new_JniBufferManager : JniBufferManager :=
  {| all_buffers_ := replicate (Z.to_nat kMaxFrames) None;
     all_buffer_count_ := 0;
     free_buffers_ := replicate (Z.to_nat kMaxFrames) None;
     free_buffer_count_ := 0 |}.

(** What a thread does to the manager, in program order: taking and
    dropping [mutex_], and reading or writing a member. *)
Inductive Member : Set :=
| m_all_buffers
| m_all_buffer_count
| m_free_buffers
| m_free_buffer_count.

Inductive Event : Set :=
| Lock
| Unlock
| Read (m : Member)
| Write (m : Member).

(** The part of the process the manager's methods act on: the manager, the
    heap of frame buffers its pointers refer to, the outcomes of the coming
    [new (std::nothrow)] calls ([true]: memory was available; once the list
    is used up every allocation succeeds), and the events so far. *)
Record World : Type := mkWorld {
  manager : JniBufferManager;
  heap : list JniFrameBuffer;
  allocator : list bool;
  events : list Event
}.

Definition new_World (allocator : list bool) : World :=
  {| manager := new_JniBufferManager;
     heap := [];
     allocator := allocator;
     events := [] |}.

(** Computations over the world; [None] is undefined behaviour. *)
Definition M (A : Type) : Type := World -> option (A * World).

Definition ret {A} (a : A) : M A := fun w => Some (a, w).

Definition bind {A B} (m : M A) (k : A -> M B) : M B :=
  fun w => match m w with
           | Some (a, w') => k a w'
           | None => None
           end.

Definition undefined {A} : M A := fun _ => None.

Declare Scope M_scope.
Delimit Scope M_scope with M.
Notation "'let*' x ':=' m 'in' k" := (bind m (fun x => k))
  (at level 10, x name, m at level 100, k at level 200) : M_scope.
Local Open Scope M_scope.

Definition emit (e : Event) : M unit :=
  fun w => Some (tt, {| manager := manager w; heap := heap w;
                        allocator := allocator w;
                        events := events w ++ [e] |}).

Definition get_manager : M JniBufferManager :=
  fun w => Some (manager w, w).

Definition put_manager (m : JniBufferManager) : M unit :=
  fun w => Some (tt, {| manager := m; heap := heap w;
                        allocator := allocator w; events := events w |}).

Definition of_option {A} (o : option A) : M A :=
  match o with
  | Some a => ret a
  | None => undefined
  end.

(** Member accesses. *)
Definition read_all_buffer_count : M Z :=
  let* _ := emit (Read m_all_buffer_count) in
  let* m := get_manager in
  ret (all_buffer_count_ m).

Definition write_all_buffer_count (n : Z) : M unit :=
  let* _ := emit (Write m_all_buffer_count) in
  let* m := get_manager in
  put_manager {| all_buffers_ := all_buffers_ m; all_buffer_count_ := n;
                 free_buffers_ := free_buffers_ m;
                 free_buffer_count_ := free_buffer_count_ m |}.

Definition read_free_buffer_count : M Z :=
  let* _ := emit (Read m_free_buffer_count) in
  let* m := get_manager in
  ret (free_buffer_count_ m).

Definition write_free_buffer_count (n : Z) : M unit :=
  let* _ := emit (Write m_free_buffer_count) in
  let* m := get_manager in
  put_manager {| all_buffers_ := all_buffers_ m;
                 all_buffer_count_ := all_buffer_count_ m;
                 free_buffers_ := free_buffers_ m;
                 free_buffer_count_ := n |}.

(** Reading a pointer that was never stored gives an indeterminate value;
    every reader below dereferences or publishes it, so that is undefined. *)
Definition read_all_buffers (i : Z) : M ptr :=
  let* _ := emit (Read m_all_buffers) in
  let* m := get_manager in
  let* s := of_option (array_get (all_buffers_ m) i) in
  of_option s.

Definition write_all_buffers (i : Z) (p : ptr) : M unit :=
  let* _ := emit (Write m_all_buffers) in
  let* m := get_manager in
  let* a := of_option (array_set (all_buffers_ m) i (Some p)) in
  put_manager {| all_buffers_ := a;
                 all_buffer_count_ := all_buffer_count_ m;
                 free_buffers_ := free_buffers_ m;
                 free_buffer_count_ := free_buffer_count_ m |}.

Definition read_free_buffers (i : Z) : M ptr :=
  let* _ := emit (Read m_free_buffers) in
  let* m := get_manager in
  let* s := of_option (array_get (free_buffers_ m) i) in
  of_option s.

Definition write_free_buffers (i : Z) (p : ptr) : M unit :=
  let* _ := emit (Write m_free_buffers) in
  let* m := get_manager in
  let* a := of_option (array_set (free_buffers_ m) i (Some p)) in
  put_manager {| all_buffers_ := all_buffers_ m;
                 all_buffer_count_ := all_buffer_count_ m;
                 free_buffers_ := a;
                 free_buffer_count_ := free_buffer_count_ m |}.

(** The heap of frame buffers. *)
Definition deref (p : ptr) : M JniFrameBuffer :=
  fun w => match heap w !! p with
           | Some b => Some (b, w)
           | None => None
           end.

Definition store (p : ptr) (b : JniFrameBuffer) : M unit :=
  fun w => match heap w !! p with
           | Some _ => Some (tt, {| manager := manager w;
                                    heap := <[p := b]> (heap w);
                                    allocator := allocator w;
                                    events := events w |})
           | None => None
           end.

(** One [new (std::nothrow)]: whether memory was available. *)
Definition nothrow_new : M bool :=
  fun w => match allocator w with
           | [] => Some (true, w)
           | ok :: rest => Some (ok, {| manager := manager w; heap := heap w;
                                        allocator := rest;
                                        events := events w |})
           end.

(** [new (std::nothrow) JniFrameBuffer(id)]: a null pointer, or the address
    of a fresh object. *)
Definition alloc_JniFrameBuffer (id : Z) : M (option ptr) :=
  let* ok := nothrow_new in
  if ok : bool then
    fun w => Some (Some (length (heap w)),
                   {| manager := manager w;
                      heap := heap w ++ [new_JniFrameBuffer id];
                      allocator := allocator w;
                      events := events w |})
  else ret None.

(** [std::lock_guard<std::mutex> lock(mutex_);] at the head of a method body:
    the mutex is taken before the body and dropped on every way out. *)
Definition lock_guard {A} (body : M A) : M A :=
  let* _ := emit Lock in
  let* r := body in
  let* _ := emit Unlock in
  ret r.

(** [raw_buffer_size_[plane_index] >= min_size]: [min_size] is an [int]
    converted to [size_t] for the comparison, so a negative one exceeds
    every size stored here (stored sizes are sizes of successful
    allocations, or zero). *)
Definition size_ge (size min_size : Z) : bool :=
  (0 <=? min_size) && (min_size <=? size).

(** [new (std::nothrow) uint8_t[min_size]]: null for a negative size,
    otherwise as the allocator decides. *)
Definition alloc_plane (min_size : Z) : M bool :=
  if min_size <? 0 then ret false else nothrow_new.

(** One iteration of the loop of [MaybeReallocateGav1DataPlanes]; the
    result is [false] where the C++ returns [false] from the method. *)
Definition reallocate_plane (p : ptr) (plane_index : Z) (min_size : Z)
  : M bool :=
  let* b := deref p in
  let* size := of_option (get3 (raw_buffer_size_ b) plane_index) in
  if size_ge size min_size then ret true
  else
    let* ok := alloc_plane min_size in
    let* r := of_option (set3 (raw_buffer_ b) plane_index ok) in
    let* s := of_option (set3 (raw_buffer_size_ b) plane_index
                              (if ok then min_size else 0)) in
    let* _ := store p (set_raw_buffer b r s) in
    ret ok.

Definition MaybeReallocateGav1DataPlanes (p : ptr)
    (y_plane_min_size uv_plane_min_size : Z) : M bool :=
  let* ok := reallocate_plane p kPlaneY y_plane_min_size in
  if negb ok then ret false else
  let* ok := reallocate_plane p kPlaneU uv_plane_min_size in
  if negb ok then ret false else
  let* ok := reallocate_plane p kPlaneV uv_plane_min_size in
  if negb ok then ret false else
  ret true.

(** The tail of [GetBuffer] that its two branches share, from the call of
    [MaybeReallocateGav1DataPlanes] on. *)
Definition GetBuffer_finish (output_buffer : ptr)
    (y_plane_min_size uv_plane_min_size : Z)
  : M (JniStatusCode * option ptr) :=
  let* ok := MaybeReallocateGav1DataPlanes output_buffer
               (to_int y_plane_min_size) (to_int uv_plane_min_size) in
  if negb ok then ret (kJniStatusOutOfMemory, None)
  else
    let* b := deref output_buffer in
    let* b' := of_option (AddReference b) in
    let* _ := store output_buffer b' in
    ret (kJniStatusOk, Some output_buffer).

(** [JniStatusCode GetBuffer(size_t y_plane_min_size,
    size_t uv_plane_min_size, JniFrameBuffer **jni_buffer)]: the status and
    what was stored through [jni_buffer], if anything. *)
Definition GetBuffer (y_plane_min_size uv_plane_min_size : Z)
  : M (JniStatusCode * option ptr) :=
  lock_guard (
    let* free_count := read_free_buffer_count in
    if negb (free_count =? 0) then
      (* output_buffer = free_buffers_[--free_buffer_count_]; *)
      let* free_count := read_free_buffer_count in
      let* _ := write_free_buffer_count (free_count - 1) in
      let* output_buffer := read_free_buffers (free_count - 1) in
      GetBuffer_finish output_buffer y_plane_min_size uv_plane_min_size
    else
      let* all_count := read_all_buffer_count in
      if all_count <? kMaxFrames then
        let* id := read_all_buffer_count in
        let* o := alloc_JniFrameBuffer id in
        match o with
        | None => ret (kJniStatusOutOfMemory, None)
        | Some output_buffer =>
            (* all_buffers_[all_buffer_count_++] = output_buffer; *)
            let* all_count := read_all_buffer_count in
            let* _ := write_all_buffer_count (all_count + 1) in
            let* _ := write_all_buffers all_count output_buffer in
            GetBuffer_finish output_buffer y_plane_min_size uv_plane_min_size
        end
      else
        ret (kJniStatusOutOfMemory, None)).

(** [JniFrameBuffer *GetBuffer(int id) const { return all_buffers_[id]; }] *)
Definition GetBuffer_id (id : Z) : M ptr :=
  read_all_buffers id.

(** [void AddBufferReference(int id)] *)
Definition AddBufferReference (id : Z) : M unit :=
  lock_guard (
    let* p := read_all_buffers id in
    let* b := deref p in
    let* b' := of_option (AddReference b) in
    store p b').

(** [JniStatusCode ReleaseBuffer(int id)] *)
Definition ReleaseBuffer (id : Z) : M JniStatusCode :=
  lock_guard (
    let* buffer := read_all_buffers id in
    let* b := deref buffer in
    if negb (InUse b) then ret kJniStatusBufferAlreadyReleased
    else
      let* b' := of_option (RemoveReference b) in
      let* _ := store buffer b' in
      let* b'' := deref buffer in
      let* _ := (if negb (InUse b'') then
                   (* free_buffers_[free_buffer_count_++] = buffer; *)
                   let* free_count := read_free_buffer_count in
                   let* _ := write_free_buffer_count (free_count + 1) in
                   write_free_buffers free_count buffer
                 else ret tt) in
      ret kJniStatusOk).

(** ** Process memory and the copies *)

(** The bytes of the address space, by address; a byte that was never
    written reads as zero. *)
Abbreviation Memory := (gmap Z Z).

Definition read8 (mem : Memory) (a : Z) : Z :=
  match mem !! a with
  | Some v => v
  | None => 0
  end.

Definition write8 (mem : Memory) (a : Z) (v : Z) : Memory := <[a := v]> mem.

(** A [uint16_t] load; every Android ABI is little-endian. *)
Definition read16 (mem : Memory) (a : Z) : Z :=
  read8 mem a + 256 * read8 mem (a + 1).

(** [n] bytes of [from], starting at [source], written into [mem] from
    [destination] on. *)
Fixpoint copy_bytes (n : nat) (destination source : Z) (from mem : Memory)
  : Memory :=
  match n with
  | O => mem
  | S n' =>
      write8 (copy_bytes n' (destination + 1) (source + 1) from mem)
        destination (read8 from source)
  end.

(** [memcpy(destination, source, n)] with [n] converted from an [int] to
    [size_t]: a negative [n] asks for more than the address space holds, and
    overlapping ranges are undefined. *)
Definition memcpy (destination source n : Z) (mem : Memory)
  : option Memory :=
  if (n <? 0) || ((0 <? n) && (Z.abs (destination - source) <? n)) then None
  else Some (copy_bytes (Z.to_nat n) destination source mem mem).

(** [constexpr int AlignTo16(int value) { return (value + 15) & (~15); }] *)
Definition AlignTo16 (value : Z) : Z := Z.land (value + 15) (Z.lnot 15).

(** The iterations of the loop of [CopyPlane]. *)
Fixpoint CopyPlane_rows (rows : nat)
    (source source_stride destination destination_stride width : Z)
    (mem : Memory) : option Memory :=
  match rows with
  | O => Some mem
  | S rows' =>
      match memcpy destination source width mem with
      | Some mem' =>
          CopyPlane_rows rows' (source + source_stride) source_stride
            (destination + destination_stride) destination_stride width mem'
      | None => None
      end
  end.

(** [void CopyPlane(const uint8_t *source, int source_stride,
    uint8_t *destination, int destination_stride, int width, int height)]:
    [while (height--)] runs [height] times for a non-negative [height] and
    runs off the end of [int] for a negative one. *)
Definition CopyPlane (source source_stride destination destination_stride
    width height : Z) (mem : Memory) : option Memory :=
  if height <? 0 then None
  else CopyPlane_rows (Z.to_nat height) source source_stride
         destination destination_stride width mem.

(** ** Logging *)

Inductive LogArg : Type :=
| IntArg (z : Z)
| StrArg (s : string).

(** One call of [LOGE] or [LOGI]: the format and its arguments. *)
Inductive LogLine : Type :=
| LOGE (format : string) (args : list LogArg)
| LOGI (format : string) (args : list LogArg).

Definition GetJniErrorMessage (error_code : JniStatusCode) : string :=
  match error_code with
  | kJniStatusOutOfMemory => "Out of memory."
  | kJniStatusBufferAlreadyReleased => "JNI buffer already released."
  | kJniStatusBitDepth12NotSupportedWithYuv =>
      "Bit depth 12 is not supported with YUV."
  | kJniStatusHighBitDepthNotSupportedWithSurfaceYuv =>
      "High bit depth (10 or 12 bits per pixel) output format is not supported with YUV surface."
  | kJniStatusInvalidNumOfPlanes =>
      "Libgav1 decoded buffer has invalid number of planes."
  | kJniStatusANativeWindowError => "ANativeWindow error."
  | kJniStatusBufferResizeError => "Buffer resize failed."
  | kJniStatusNeonNotSupported => "Neon is not supported."
  | kJniStatusOk => "Unrecognized error code."
  end.

(** ** Copies into the output byte buffer *)

(** What the two copy loops carry from one iteration to the next: the
    cursor [data], the memory and the log. *)
Record Cursor : Type := mkCursor {
  cursor_data : Z;
  cursor_memory : Memory;
  cursor_log : list LogLine
}.

(** One iteration of the loop of [CopyFrameToDataBuffer]; [sizeof_pointer]
    is [sizeof decoder_buffer->data[plane_index]], the size of a [void *]
    (8 on the 64-bit ABIs, 4 on the 32-bit ones). *)
Definition CopyFrameToDataBuffer_plane (sizeof_pointer : Z)
    (decoder_buffer : Dav1dPicture) (plane_index : Z) (c : Cursor)
  : option Cursor :=
  let length := sizeof_pointer in
  let log := cursor_log c ++ [LOGI "CopyFrameToDataBuffer %lu" [IntArg length]] in
  source ← get3 (DAV1D_API.data decoder_buffer) plane_index;
  mem ← memcpy (cursor_data c) source length (cursor_memory c);
  Some {| cursor_data := cursor_data c + length;
          cursor_memory := mem;
          cursor_log := log |}.

(** [void CopyFrameToDataBuffer(const DAV1D_API::Dav1dPicture
    *decoder_buffer, jbyte *data)] *)
Definition CopyFrameToDataBuffer (sizeof_pointer : Z)
    (decoder_buffer : Dav1dPicture) (data : Z) (mem : Memory)
    (log : list LogLine) : option (Memory * list LogLine) :=
  c ← for_loop 3 kPlaneY
        (CopyFrameToDataBuffer_plane sizeof_pointer decoder_buffer)
        {| cursor_data := data; cursor_memory := mem; cursor_log := log |};
  Some (cursor_memory c, cursor_log c).

(** The body of the innermost loop of [Convert10BitFrameTo8BitDataBuffer]
    on the carried [sample] and the 16-bit source value: the byte stored in
    [data[j]] and the new [sample]. *)
Definition dither (sample source_16_j : Z) : Z * Z :=
  let sample := sample + source_16_j in
  (to_byte (Z.shiftr sample 2), Z.land sample 3).

(** The inner loop, [for (int j = 0; j < decoder_buffer->p.w; j++)]. *)
Fixpoint Convert10Bit_pixels (n : nat) (j : Z) (source data : Z)
    (sample : Z) (mem : Memory) : Z * Memory :=
  match n with
  | O => (sample, mem)
  | S n' =>
      let '(byte, sample') := dither sample (read16 mem (source + 2 * j)) in
      Convert10Bit_pixels n' (j + 1) source data sample'
        (write8 mem (data + j) byte)
  end.

(** The row loop, [for (int i = 0; i < decoder_buffer->p.h; i++)], for one
    plane; it carries [source], [data], [sample] and the memory. *)
Fixpoint Convert10Bit_rows (n : nat) (decoder_buffer : Dav1dPicture)
    (plane_index : Z) (source data sample : Z) (mem : Memory)
  : option (Z * Z * Memory) :=
  match n with
  | O => Some (data, sample, mem)
  | S n' =>
      let '(sample', mem') :=
        Convert10Bit_pixels
          (Z.to_nat (DAV1D_API.w (DAV1D_API.p decoder_buffer))) 0
          source data sample mem in
      match get2 (DAV1D_API.stride decoder_buffer) plane_index with
      | Some s =>
          Convert10Bit_rows n' decoder_buffer plane_index
            (source + s) (data + s) sample' mem'
      | None => None
      end
  end.

(** One iteration of the plane loop: [sample] starts at zero, [data] goes
    on from where the plane before left it. *)
Definition Convert10Bit_plane (decoder_buffer : Dav1dPicture)
    (plane_index : Z) (c : Z * Memory) : option (Z * Memory) :=
  let '(data, mem) := c in
  source ← get3 (DAV1D_API.data decoder_buffer) plane_index;
  r ← Convert10Bit_rows
        (Z.to_nat (DAV1D_API.h (DAV1D_API.p decoder_buffer)))
        decoder_buffer plane_index source data 0 mem;
  Some (r.1.1, r.2).

(** [void Convert10BitFrameTo8BitDataBuffer(const DAV1D_API::Dav1dPicture
    *decoder_buffer, jbyte *data)] *)
Definition Convert10BitFrameTo8BitDataBuffer (decoder_buffer : Dav1dPicture)
    (data : Z) (mem : Memory) (log : list LogLine)
  : option (Memory * list LogLine) :=
  c ← for_loop 3 kPlaneY (Convert10Bit_plane decoder_buffer) (data, mem);
  Some (c.2, log ++ [LOGI "Convert10BitFrameTo8BitDataBuffer" []]).

(** ** The JNI entry points *)

(** [struct JniContext]. [pool] is the [buffer_manager] member together with
    the frame buffers its pointers refer to; [native_window] and [surface]
    are handles, zero for [nullptr]; the field and method IDs are fixed by
    [gav1Init] and name the members of [OutputBuffer] below. *)
Record JniContext : Type := mkJniContext {
  pool : World;
  native_window : Z;
  surface : Z;
  native_window_width : Z;
  native_window_height : Z;
  avid_status_code : Z;
  jni_status_code : JniStatusCode
}.

(** The Java object [VideoDecoderOutputBuffer] as the native code sees it:
    the [int] fields [decoderPrivate] and [mode], and the address of the
    direct [ByteBuffer] in [data]. *)
Record OutputBuffer : Type := mkOutputBuffer {
  decoderPrivate : Z;
  mode : Z;
  data_address : Z
}.

(** [ANativeWindow_Buffer], from [android/native_window.h]. *)
Record ANativeWindow_Buffer : Type := mkANativeWindow_Buffer {
  nwb_width : Z;
  nwb_height : Z;
  nwb_stride : Z;
  nwb_format : Z;
  bits : Z
}.

(** A call into Java: whether an exception is pending afterwards, the
    value returned, and the object after the call. *)
Record JavaCall (R : Type) : Type := mkJavaCall {
  thrown : bool;
  returned : R;
  after : OutputBuffer
}.
Arguments mkJavaCall {R} _ _ _.
Arguments thrown {R} _.
Arguments returned {R} _.
Arguments after {R} _.

(** What the decoder, the Java side and the window system answer during one
    call of an entry point, and the size of a pointer on the ABI. *)
Record Env : Type := mkEnv {
  sizeof_pointer : Z;
  dav1d_get_picture : Z * Dav1dPicture;
  initForYuvFrame : OutputBuffer -> Z -> Z -> Z -> Z -> Z -> JavaCall bool;
  initForPrivateFrame : OutputBuffer -> Z -> Z -> JavaCall unit;
  ANativeWindow_fromSurface : Z -> Z;
  ANativeWindow_setBuffersGeometry : Z -> Z -> Z -> Z -> Z;
  ANativeWindow_lock : Z -> Z * ANativeWindow_Buffer;
  ANativeWindow_unlockAndPost : Z -> Z
}.

(** The state the entry points share. *)
Record Process : Type := mkProcess {
  context : JniContext;
  memory : Memory;
  logcat : list LogLine
}.

Definition kImageFormatYV12 : Z := 0x32315659.

Definition set_pool (c : JniContext) (x : World) : JniContext :=
  {| pool := x;
     native_window := native_window c;
     surface := surface c;
     native_window_width := native_window_width c;
     native_window_height := native_window_height c;
     avid_status_code := avid_status_code c;
     jni_status_code := jni_status_code c |}.

Definition set_avid_status_code (c : JniContext) (x : Z) : JniContext :=
  {| pool := pool c;
     native_window := native_window c;
     surface := surface c;
     native_window_width := native_window_width c;
     native_window_height := native_window_height c;
     avid_status_code := x;
     jni_status_code := jni_status_code c |}.

Definition set_jni_status_code (c : JniContext) (x : JniStatusCode)
  : JniContext :=
  {| pool := pool c;
     native_window := native_window c;
     surface := surface c;
     native_window_width := native_window_width c;
     native_window_height := native_window_height c;
     avid_status_code := avid_status_code c;
     jni_status_code := x |}.

Definition set_window (c : JniContext) (window surface_ width height : Z)
  : JniContext :=
  {| pool := pool c;
     native_window := window;
     surface := surface_;
     native_window_width := width;
     native_window_height := height;
     avid_status_code := avid_status_code c;
     jni_status_code := jni_status_code c |}.

Definition set_decoderPrivate (o : OutputBuffer) (x : Z) : OutputBuffer :=
  {| decoderPrivate := x; mode := mode o; data_address := data_address o |}.

(** [bool MaybeAcquireNativeWindow(JNIEnv *env, jobject new_surface)] *)
Definition MaybeAcquireNativeWindow (env : Env) (new_surface : Z)
    (c : JniContext) : bool * JniContext :=
  if surface c =? new_surface then (true, c)
  else
    let window := ANativeWindow_fromSurface env new_surface in
    if window =? 0 then
      (false,
       set_jni_status_code (set_window c window 0 0 0)
         kJniStatusANativeWindowError)
    else (true, set_window c window new_surface 0 0).

(** An [int] product; overflow is undefined. *)
Definition int_mul (a b : Z) : option Z :=
  if in_intb (a * b) then Some (a * b) else None.

(** The three [CopyPlane] calls of [gav1RenderFrame] and the arithmetic
    between them, on the locked window buffer. *)
Definition render_planes (jni_buffer : JniFrameBuffer)
    (native_window_buffer : ANativeWindow_Buffer) (mem : Memory)
  : option Memory :=
  (* Y plane *)
  source_y ← Plane jni_buffer kPlaneY;
  stride_y ← Stride jni_buffer kPlaneY;
  width_y ← DisplayedWidth jni_buffer kPlaneY;
  height_y ← DisplayedHeight jni_buffer kPlaneY;
  mem ← CopyPlane source_y stride_y (bits native_window_buffer)
          (nwb_stride native_window_buffer) width_y height_y mem;
  y_plane_size ← int_mul (nwb_stride native_window_buffer)
                   (nwb_height native_window_buffer);
  let native_window_buffer_uv_height :=
    (nwb_height native_window_buffer + 1) ÷ 2 in
  let native_window_buffer_uv_stride :=
    AlignTo16 (nwb_stride native_window_buffer ÷ 2) in
  (* V plane *)
  height_v ← DisplayedHeight jni_buffer kPlaneV;
  let v_plane_height := Z.min native_window_buffer_uv_height height_v in
  source_v ← Plane jni_buffer kPlaneV;
  stride_v ← Stride jni_buffer kPlaneV;
  width_v ← DisplayedWidth jni_buffer kPlaneV;
  mem ← CopyPlane source_v stride_v
          (bits native_window_buffer + y_plane_size)
          native_window_buffer_uv_stride width_v v_plane_height mem;
  v_plane_size ← int_mul v_plane_height native_window_buffer_uv_stride;
  (* U plane *)
  source_u ← Plane jni_buffer kPlaneU;
  stride_u ← Stride jni_buffer kPlaneU;
  width_u ← DisplayedWidth jni_buffer kPlaneU;
  height_u ← DisplayedHeight jni_buffer kPlaneU;
  CopyPlane source_u stride_u
    (bits native_window_buffer + y_plane_size + v_plane_size)
    native_window_buffer_uv_stride width_u
    (Z.min native_window_buffer_uv_height height_u) mem.

Definition set_context (pr : Process) (c : JniContext) : Process :=
  {| context := c; memory := memory pr; logcat := logcat pr |}.

Definition log (pr : Process) (l : LogLine) : Process :=
  {| context := context pr; memory := memory pr;
     logcat := logcat pr ++ [l] |}.

(** [gav1GetFrame]: the [jint] it returns, the process and the Java object
    afterwards. The strides go to [GetBuffer] as [size_t] and are narrowed to
    [int] there; [jni_buffer] is what [GetBuffer] stored through its third
    argument. *)
Definition gav1GetFrame (env : Env) (pr : Process)
    (jOutputBuffer : OutputBuffer) (decodeOnly : bool)
  : option (Z * Process * OutputBuffer) :=
  let '(status, pic) := dav1d_get_picture env in
  let c := set_avid_status_code (context pr) status in
  if negb (status =? 0) then
    Some (kStatusError,
          log (set_context pr c) (LOGI "dav1d_get_picture %d" [IntArg status]),
          jOutputBuffer)
  else if decodeOnly then
    Some (kStatusDecodeOnly, set_context pr c, jOutputBuffer)
  else
    '(r, pool') ← GetBuffer (elt2_0 (DAV1D_API.stride pic))
                            (elt2_1 (DAV1D_API.stride pic)) (pool c);
    let c := set_jni_status_code (set_pool c pool') r.1 in
    if negb (JniStatusCode_eqb r.1 kJniStatusOk) then
      Some (kStatusError,
            log (set_context pr c)
              (LOGE "GetBuffer %s" [StrArg (GetJniErrorMessage r.1)]),
            jOutputBuffer)
    else
        jni_buffer ← r.2;
        let output_mode := mode jOutputBuffer in
        if output_mode =? kOutputModeYuv then
          let call :=
            initForYuvFrame env jOutputBuffer
              (DAV1D_API.w (DAV1D_API.p pic)) (DAV1D_API.h (DAV1D_API.p pic))
              (to_int (elt2_0 (DAV1D_API.stride pic)))
              (to_int (elt2_1 (DAV1D_API.stride pic)))
              kColorSpaceUnknown in
          if thrown call then
            Some (kStatusError, set_context pr c, after call)
          else if negb (returned call) then
            Some (kStatusError,
                  set_context pr
                    (set_jni_status_code c kJniStatusBufferResizeError),
                  after call)
          else
            let data := data_address (after call) in
            if DAV1D_API.bpc (DAV1D_API.p pic) =? 8 then
              '(mem, lg) ← CopyFrameToDataBuffer (sizeof_pointer env) pic data
                             (memory pr) (logcat pr);
              Some (kStatusOk,
                    {| context := c; memory := mem; logcat := lg |},
                    after call)
            else if DAV1D_API.bpc (DAV1D_API.p pic) =? 10 then
              '(mem, lg) ← Convert10BitFrameTo8BitDataBuffer pic data
                             (memory pr) (logcat pr);
              Some (kStatusOk,
                    {| context := c; memory := mem; logcat := lg |},
                    after call)
            else
              Some (kStatusError,
                    set_context pr
                      (set_jni_status_code c
                         kJniStatusBitDepth12NotSupportedWithYuv),
                    after call)
        else if output_mode =? kOutputModeSurfaceYuv then
          if negb (DAV1D_API.bpc (DAV1D_API.p pic) =? 8) then
            Some (kStatusError,
                  set_context pr
                    (set_jni_status_code c
                       kJniStatusHighBitDepthNotSupportedWithSurfaceYuv),
                  jOutputBuffer)
          else
            '(b, pool1) ← deref jni_buffer (pool c);
            b' ← SetFrameData pic b;
            '(_, pool2) ← store jni_buffer b' pool1;
            let c := set_pool c pool2 in
            let call :=
              initForPrivateFrame env jOutputBuffer
                (DAV1D_API.w (DAV1D_API.p pic))
                (DAV1D_API.h (DAV1D_API.p pic)) in
            if thrown call then
              Some (kStatusError, set_context pr c, after call)
            else
              Some (kStatusOk, set_context pr c,
                    set_decoderPrivate (after call) (BufferPrivateData b'))
        else
          Some (kStatusOk, set_context pr c, jOutputBuffer).

(** [gav1RenderFrame] *)
Definition gav1RenderFrame (env : Env) (pr : Process) (jSurface : Z)
    (jOutputBuffer : OutputBuffer) : option (Z * Process) :=
  let buffer_id := decoderPrivate jOutputBuffer in
  '(jni_buffer, pool') ← GetBuffer_id buffer_id (pool (context pr));
  let c := set_pool (context pr) pool' in
  let '(acquired, c) := MaybeAcquireNativeWindow env jSurface c in
  if negb acquired then Some (kStatusError, set_context pr c)
  else
    '(b, _) ← deref jni_buffer pool';
    width_y ← DisplayedWidth b kPlaneY;
    height_y ← DisplayedHeight b kPlaneY;
    let geometry :=
      if negb (native_window_width c =? width_y)
         || negb (native_window_height c =? height_y)
      then
        if negb (ANativeWindow_setBuffersGeometry env (native_window c)
                   width_y height_y kImageFormatYV12 =? 0)
        then inl (set_jni_status_code c kJniStatusANativeWindowError)
        else inr (set_window c (native_window c) (surface c)
                    width_y height_y)
      else inr c in
    match geometry with
    | inl c => Some (kStatusError, set_context pr c)
    | inr c =>
        let '(lock_result, native_window_buffer) :=
          ANativeWindow_lock env (native_window c) in
        if negb (lock_result =? 0) || (bits native_window_buffer =? 0) then
          Some (kStatusError,
                set_context pr
                  (set_jni_status_code c kJniStatusANativeWindowError))
        else
          mem ← render_planes b native_window_buffer (memory pr);
          let pr := {| context := c; memory := mem; logcat := logcat pr |} in
          if negb (ANativeWindow_unlockAndPost env (native_window c) =? 0)
          then
            Some (kStatusError,
                  set_context pr
                    (set_jni_status_code c kJniStatusANativeWindowError))
          else Some (kStatusOk, pr)
    end.

(** [gav1ReleaseFrame]: the process and the Java object afterwards. *)
Definition gav1ReleaseFrame (pr : Process) (jOutputBuffer : OutputBuffer)
  : option (Process * OutputBuffer) :=
  let buffer_id := decoderPrivate jOutputBuffer in
  let jOutputBuffer := set_decoderPrivate jOutputBuffer (-1) in
  if buffer_id <? 0 then Some (pr, jOutputBuffer)
  else
    '(code, pool') ← ReleaseBuffer buffer_id (pool (context pr));
    let pr :=
      set_context pr
        (set_jni_status_code (set_pool (context pr) pool') code) in
    if negb (JniStatusCode_eqb code kJniStatusOk) then
      Some (log pr (LOGE "%s" [StrArg (GetJniErrorMessage code)]),
            jOutputBuffer)
    else Some (pr, jOutputBuffer).

(** ** Vocabulary of the statements *)

(** A call of a public method of [JniBufferManager]. *)
Inductive Call : Type :=
| Call_GetBuffer (y_plane_min_size uv_plane_min_size : Z)
| Call_GetBuffer_id (id : Z)
| Call_AddBufferReference (id : Z)
| Call_ReleaseBuffer (id : Z).

Definition call (c : Call) : M unit :=
  match c with
  | Call_GetBuffer y uv => let* _ := GetBuffer y uv in ret tt
  | Call_GetBuffer_id id => let* _ := GetBuffer_id id in ret tt
  | Call_AddBufferReference id => AddBufferReference id
  | Call_ReleaseBuffer id => let* _ := ReleaseBuffer id in ret tt
  end.

Fixpoint calls (cs : list Call) : M unit :=
  match cs with
  | [] => ret tt
  | c :: cs' => let* _ := call c in calls cs'
  end.

(** The buffer that [all_buffers_[id]] points to. *)
Definition buffer_at (w : World) (id : Z) : option JniFrameBuffer :=
  match array_get (all_buffers_ (manager w)) id with
  | Some (Some p) => heap w !! p
  | _ => None
  end.

(** [id] is the id of a created buffer that is in use. *)
Definition in_use (w : World) (id : Z) : bool :=
  match buffer_at w id with
  | Some b => (0 <=? id) && (id <? all_buffer_count_ (manager w)) && InUse b
  | None => false
  end.

(** The callers add a reference only to a buffer they hold one of: every
    [AddBufferReference] in the sequence finds its buffer in use. *)
Fixpoint disciplined (cs : list Call) (w : World) : Prop :=
  match cs with
  | [] => True
  | c :: cs' =>
      match c with
      | Call_AddBufferReference id => in_use w id = true
      | _ => True
      end /\
      match call c w with
      | Some (_, w') => disciplined cs' w'
      | None => True
      end
  end.

(** The state invariant of the pool, in the words of the members. *)
Definition pool_ok (w : World) : Prop :=
  let m := manager w in
  0 <= free_buffer_count_ m <= all_buffer_count_ m /\
  all_buffer_count_ m <= kMaxFrames /\
  (forall j, 0 <= j < free_buffer_count_ m ->
     exists q b, array_get (free_buffers_ m) j = Some (Some q) /\
                 heap w !! q = Some b /\ reference_count_ b = 0) /\
  (forall i, 0 <= i < all_buffer_count_ m ->
     exists q b, GetBuffer_id i w
                 = Some (q, {| manager := manager w; heap := heap w;
                               allocator := allocator w;
                               events := events w ++ [Read m_all_buffers] |})
                 /\ heap w !! q = Some b /\ BufferPrivateData b = i).

(** The same with the bookkeeping that makes it inductive, for a pool
    with [n] buffers whose free list is [free]: the buffers are created in
    the order of their ids, so the pointer of buffer [i] is the [i]-th
    object of the heap, and the live part of [free_buffers_] lists distinct
    buffers. *)
Record pool_inv_at (n : nat) (free : list ptr) (m : JniBufferManager)
    (h : list JniFrameBuffer) : Prop := mk_pool_inv_at {
  inv_all_count : all_buffer_count_ m = Z.of_nat n;
  inv_cap : (n <= Z.to_nat kMaxFrames)%nat;
  inv_heap_length : length h = n;
  inv_all_length : length (all_buffers_ m) = Z.to_nat kMaxFrames;
  inv_all : take n (all_buffers_ m) = Some <$> seq 0 n;
  inv_ids : forall i b, h !! i = Some b ->
              id_ b = Z.of_nat i /\ 0 <= reference_count_ b;
  inv_free_count : free_buffer_count_ m = Z.of_nat (length free);
  inv_free_length : length (free_buffers_ m) = Z.to_nat kMaxFrames;
  inv_free : take (length free) (free_buffers_ m) = Some <$> free;
  inv_free_nodup : NoDup free;
  inv_free_refs : forall q, q ∈ free ->
                    exists b, h !! q = Some b /\ reference_count_ b = 0
}.

Definition pool_inv (w : World) : Prop :=
  exists n free, pool_inv_at n free (manager w) (heap w).

(** The lock discipline of a trace, from a state in which [mutex_] is
    held or not: [Some] of whether it is held at the end when every access
    happens with the mutex held, the mutex is never taken twice and never
    dropped when it is not held; [None] otherwise. *)
Fixpoint mutex_discipline (held : bool) (t : list Event) : option bool :=
  match t with
  | [] => Some held
  | Lock :: t' => if held then None else mutex_discipline true t'
  | Unlock :: t' => if held then mutex_discipline false t' else None
  | Read _ :: t' | Write _ :: t' =>
      if held then mutex_discipline held t' else None
  end.

(** What the reallocation of the planes may change in a frame buffer: the
    raw planes and their sizes. *)
Definition same_but_raw (b b' : JniFrameBuffer) : Prop :=
  b' = set_raw_buffer b (raw_buffer_ b') (raw_buffer_size_ b').

(** A step that rewrites the buffer at [q] according to [R] and leaves the
    manager, the events and the other buffers alone. *)
Definition updates_at (q : ptr) (w w' : World)
    (R : JniFrameBuffer -> JniFrameBuffer -> Prop) : Prop :=
  manager w' = manager w /\ events w' = events w /\
  exists b b', heap w !! q = Some b /\ R b b' /\
               heap w' = <[q := b']> (heap w).

(** What the tail of [GetBuffer] does to the buffer it was given, by the
    result: the planes may be reallocated, and on success the reference
    count goes up by one. *)
Definition finished (r : JniStatusCode * option ptr) (q : ptr)
    (b b' : JniFrameBuffer) : Prop :=
  (r = (kJniStatusOutOfMemory, None) /\ same_but_raw b b') \/
  (r = (kJniStatusOk, Some q) /\ reference_count_ b < INT_MAX /\
   exists b1, same_but_raw b b1 /\
              b' = set_reference_count b1 (reference_count_ b + 1)).

(** [free_buffers_[free_buffer_count_++] = buffer;] on the manager. *)
Definition push_free (m : JniBufferManager) (q : ptr) : JniBufferManager :=
  {| all_buffers_ := all_buffers_ m;
     all_buffer_count_ := all_buffer_count_ m;
     free_buffers_ := <[Z.to_nat (free_buffer_count_ m) := Some q]>
                        (free_buffers_ m);
     free_buffer_count_ := free_buffer_count_ m + 1 |}.

(** A pool with one buffer, in use once: the empty pool after one
    [GetBuffer]. *)
Definition one_buffer_world : World :=
  match GetBuffer 64 32 (new_World []) with
  | Some (_, w) => w
  | None => new_World []
  end.

(** The empty pool after [n] calls of [GetBuffer] that nobody released. *)
Definition busy_world (n : nat) : World :=
  match calls (replicate n (Call_GetBuffer 64 32)) (new_World []) with
  | Some (_, w) => w
  | None => new_World []
  end.

(** [one_buffer_world] after its buffer is released, and after it is handed
    out again. *)
Definition released_world : World :=
  match ReleaseBuffer 0 one_buffer_world with
  | Some (_, w) => w
  | None => one_buffer_world
  end.

Definition reused_world : World :=
  match GetBuffer 16 8 released_world with
  | Some (_, w) => w
  | None => released_world
  end.

(** A sequence of calls that adds a reference to a buffer nobody holds: the
    only buffer is released, referenced again while it is on the free list,
    and released once more. *)
Definition stray_reference : list Call :=
  [Call_GetBuffer 64 32; Call_ReleaseBuffer 0;
   Call_AddBufferReference 0; Call_ReleaseBuffer 0].

(** A sequence of calls in which every reference added is to a buffer in
    use, and the world it leads to. *)
Definition shared_buffers : list Call :=
  [Call_GetBuffer 64 32; Call_GetBuffer 64 32; Call_AddBufferReference 0;
   Call_ReleaseBuffer 0; Call_ReleaseBuffer 1; Call_GetBuffer_id 0;
   Call_ReleaseBuffer 0; Call_GetBuffer 128 64].

Definition world_after (cs : list Call) : World :=
  match calls cs (new_World []) with
  | Some (_, w) => w
  | None => new_World []
  end.

(** A process whose pool is [one_buffer_world], with no window yet, and an
    output buffer that carries the id of its buffer. *)
Definition one_buffer_process : Process :=
  {| context := {| pool := one_buffer_world;
                   native_window := 0;
                   surface := 0;
                   native_window_width := 0;
                   native_window_height := 0;
                   avid_status_code := 0;
                   jni_status_code := kJniStatusOk |};
     memory := ∅;
     logcat := [] |}.

Definition private_frame : OutputBuffer :=
  {| decoderPrivate := 0; mode := kOutputModeSurfaceYuv; data_address := 0 |}.

Definition released_frame : Process * OutputBuffer :=
  match gav1ReleaseFrame one_buffer_process private_frame with
  | Some r => r
  | None => (one_buffer_process, private_frame)
  end.

(** A decoded 8-bit picture of 16 by 4 pixels: luma at address 1000 with a
    stride of 16, chroma at 2000 and 3000 with a stride of 8. *)
Definition small_picture : Dav1dPicture :=
  {| DAV1D_API.data := mk_array3 1000 2000 3000;
     DAV1D_API.stride := mk_array2 16 8;
     DAV1D_API.p := {| DAV1D_API.w := 16; DAV1D_API.h := 4;
                       DAV1D_API.bpc := 8 |} |}.

(** A platform on which everything succeeds: the decoder hands out
    [small_picture], the Java side accepts every frame and keeps its byte
    buffer at address 5000, and the window, once locked, is 16 by 4 with a
    stride of 16 and its bits at address 9000. *)
Definition demo_env : Env :=
  {| sizeof_pointer := 8;
     dav1d_get_picture := (0, small_picture);
     initForYuvFrame := fun o _ _ _ _ _ =>
       mkJavaCall false true
         {| decoderPrivate := decoderPrivate o; mode := mode o;
            data_address := 5000 |};
     initForPrivateFrame := fun o _ _ => mkJavaCall false tt o;
     ANativeWindow_fromSurface := fun _ => 77;
     ANativeWindow_setBuffersGeometry := fun _ _ _ _ => 0;
     ANativeWindow_lock := fun _ =>
       (0, {| nwb_width := 16; nwb_height := 4; nwb_stride := 16;
              nwb_format := kImageFormatYV12; bits := 9000 |});
     ANativeWindow_unlockAndPost := fun _ => 0 |}.

(** A process right after [gav1Init], with a memory that holds the three
    planes of [small_picture], the byte at address [a] being [a mod 251]. *)
Definition fresh_process : Process :=
  {| context := {| pool := new_World [];
                   native_window := 0;
                   surface := 0;
                   native_window_width := 0;
                   native_window_height := 0;
                   avid_status_code := 0;
                   jni_status_code := kJniStatusOk |};
     memory := list_to_map
                 ((fun a => (a, a mod 251))
                    <$> (seqZ 1000 64 ++ seqZ 2000 16 ++ seqZ 3000 16));
     logcat := [] |}.

Definition surface_frame : OutputBuffer :=
  {| decoderPrivate := -1; mode := kOutputModeSurfaceYuv;
     data_address := 0 |}.

Definition yuv_frame : OutputBuffer :=
  {| decoderPrivate := -1; mode := kOutputModeYuv; data_address := 0 |}.

(** [gav1GetFrame] in surface mode on the fresh process, and
    [gav1RenderFrame] of the frame it delivered on surface 5. *)
Definition decoded_for_surface : Z * Process * OutputBuffer :=
  match gav1GetFrame demo_env fresh_process surface_frame false with
  | Some r => r
  | None => (kStatusError, fresh_process, surface_frame)
  end.

Definition rendered : Z * Process :=
  match gav1RenderFrame demo_env decoded_for_surface.1.2 5
          decoded_for_surface.2 with
  | Some r => r
  | None => (kStatusError, fresh_process)
  end.

(** [gav1GetFrame] in YUV mode on the fresh process. *)
Definition decoded_for_yuv : Z * Process * OutputBuffer :=
  match gav1GetFrame demo_env fresh_process yuv_frame false with
  | Some r => r
  | None => (kStatusError, fresh_process, yuv_frame)
  end.



(** ** The rest of the file *)

(** The loop of the destructor of [JniBufferManager],
    [while (all_buffer_count_--) { delete all_buffers_[all_buffer_count_]; }]:
    the pointers it hands to [delete], in order. The count is read and
    decremented by the test also when it is zero; [fuel] is the number of
    iterations left. *)
Fixpoint destructor_loop (fuel : nat) (deleted : list ptr) : M (list ptr) :=
  let* count := read_all_buffer_count in
  let* _ := write_all_buffer_count (count - 1) in
  if count =? 0 then ret deleted
  else
    match fuel with
    | O => undefined
    | S fuel' =>
        let* index := read_all_buffer_count in
        let* q := read_all_buffers index in
        destructor_loop fuel' (deleted ++ [q])
    end.

(** [~JniBufferManager()]. A non-negative count allows for that many
    iterations; a negative one indexes [all_buffers_] below zero at once. *)
Definition JniBufferManager_destructor : M (list ptr) :=
  lock_guard (
    let* m := get_manager in
    destructor_loop (Z.to_nat (all_buffer_count_ m)) []).

(** What the decoder answers during one [gav1Decode]: the results of
    [dav1d_data_wrap] and [dav1d_send_data], and the value of the macro
    [DAV1D_ERR(EAGAIN)] of the decoder's header. *)
Record DecodeEnv : Type := mkDecodeEnv {
  dav1d_data_wrap : Z;
  dav1d_send_data : Z;
  DAV1D_ERR_EAGAIN : Z
}.

(** [gav1Decode]. The decoder is given the address of the encoded data, the
    length and the field [ref] of the local [data], which nothing has set;
    what it answers is taken from [env]. *)
Definition gav1Decode (env : DecodeEnv) (pr : Process) : Z * Process :=
  let c := set_avid_status_code (context pr) (dav1d_data_wrap env) in
  if negb (avid_status_code c =? 0) then
    (kStatusError,
     log (set_context pr c)
       (LOGI "dav1d_data_wrap %d" [IntArg (avid_status_code c)]))
  else
    let c := set_avid_status_code c (dav1d_send_data env) in
    if negb (avid_status_code c =? 0)
       && negb (avid_status_code c =? DAV1D_ERR_EAGAIN env)
    then
      (kStatusError,
       log (set_context pr c)
         (LOGI "dav1d_send_data %d" [IntArg (avid_status_code c)]))
    else (kStatusOk, set_context pr c).

(** [gav1CheckError] *)
Definition gav1CheckError (pr : Process) : Z :=
  if negb (avid_status_code (context pr) =? 0)
     || negb (JniStatusCode_eqb (jni_status_code (context pr)) kJniStatusOk)
  then kStatusError
  else kStatusOk.

(** [gav1GetErrorMessage]; [jContext] is zero ([None]) or points to a
    context. With a decoder status other than zero the status itself is cast
    to [const char *] and handed to [NewStringUTF], which reads a string at
    that address: that is undefined. *)
Definition gav1GetErrorMessage (jContext : option Process) : option string :=
  match jContext with
  | None => Some "Failed to initialize JNI context."%string
  | Some pr =>
      if negb (avid_status_code (context pr) =? 0) then None
      else if negb (JniStatusCode_eqb (jni_status_code (context pr))
                      kJniStatusOk)
      then Some (GetJniErrorMessage (jni_status_code (context pr)))
      else Some "None."%string
  end.

(** ** More vocabulary *)

(** What the entry points do to the pool: they call the manager's methods,
    and [gav1GetFrame] sets the frame data of the buffer it was given. *)
Inductive Step : Type :=
| Step_call (c : Call)
| Step_SetFrameData (p : ptr) (decoder_buffer : Dav1dPicture).

Definition step (s : Step) : M unit :=
  match s with
  | Step_call c => call c
  | Step_SetFrameData p decoder_buffer =>
      let* b := deref p in
      let* b' := of_option (SetFrameData decoder_buffer b) in
      store p b'
  end.

Fixpoint steps (ss : list Step) : M unit :=
  match ss with
  | [] => ret tt
  | s :: ss' => let* _ := step s in steps ss'
  end.

(** Every [AddBufferReference] among the steps finds its buffer in use. *)
Fixpoint disciplined_steps (ss : list Step) (w : World) : Prop :=
  match ss with
  | [] => True
  | s :: ss' =>
      match s with
      | Step_call (Call_AddBufferReference id) => in_use w id = true
      | _ => True
      end /\
      match step s w with
      | Some (_, w') => disciplined_steps ss' w'
      | None => True
      end
  end.

(** A pool state reached from the empty pool by steps in which every
    [AddBufferReference] names a buffer that is in use. Steps that break
    this discipline lead to other pools: [stray_reference] is such a
    sequence. No entry point calls [AddBufferReference]. *)
Definition disciplined_pool (w : World) : Prop :=
  exists allocator ss,
    disciplined_steps ss (new_World allocator) /\
    steps ss (new_World allocator) = Some (tt, w).

(** The number of buffers [GetBuffer] can still hand out: those on the free
    list and those not created yet. *)
Definition available (m : JniBufferManager) : Z :=
  free_buffer_count_ m + (kMaxFrames - all_buffer_count_ m).

(** The sums of [n] source samples and of the [n] bytes written for them,
    for one row of the 10-bit conversion. *)
Fixpoint sum_samples (n : nat) (j : Z) (source : Z) (mem : Memory) : Z :=
  match n with
  | O => 0
  | S n' => read16 mem (source + 2 * j) + sum_samples n' (j + 1) source mem
  end.

Fixpoint sum_bytes (n : nat) (j : Z) (data : Z) (mem : Memory) : Z :=
  match n with
  | O => 0
  | S n' => read8 mem (data + j) + sum_bytes n' (j + 1) data mem
  end.

(** ** More concrete inputs *)

(** Two rows of three bytes, eight bytes apart, at address 100, and the
    memory after [CopyPlane] has moved them to address 200 with a stride of
    four. *)
Definition two_rows : Memory :=
  list_to_map [(100, 11); (101, 12); (102, 13); (103, 99);
               (108, 21); (109, 22); (110, 23)].

Definition copied_rows : Memory :=
  match CopyPlane 100 8 200 4 3 2 two_rows with
  | Some mem => mem
  | None => two_rows
  end.

(** The frame buffer that [decoded_for_surface] refers to, and the window
    buffer that [demo_env] hands out. *)
Definition rendered_buffer : JniFrameBuffer :=
  Eval vm_compute in
  match buffer_at (pool (context decoded_for_surface.1.2))
          (decoderPrivate decoded_for_surface.2) with
  | Some b => b
  | None => new_JniFrameBuffer 0
  end.

Definition demo_window : ANativeWindow_Buffer :=
  Eval vm_compute in (ANativeWindow_lock demo_env 77).2.

(** A heap with one fresh frame buffer, and the same after its planes were
    allocated for 64 and 32 bytes. *)
Definition fresh_buffer_world : World :=
  {| manager := new_JniBufferManager;
     heap := [new_JniFrameBuffer 0];
     allocator := [];
     events := [] |}.

Definition planes_world : World :=
  match MaybeReallocateGav1DataPlanes 0%nat 64 32 fresh_buffer_world with
  | Some (_, w) => w
  | None => fresh_buffer_world
  end.

(** A decoder that takes the data and has no room for more of it
    ([dav1d_send_data] answers [DAV1D_ERR(EAGAIN)], which is [-EAGAIN], -11
    on Linux), and [fresh_process] after [gav1Decode] with it. *)
Definition busy_decoder : DecodeEnv :=
  {| dav1d_data_wrap := 0; dav1d_send_data := -11; DAV1D_ERR_EAGAIN := -11 |}.

Definition after_decode : Z * Process := gav1Decode busy_decoder fresh_process.

(** A process whose only buffer was released already, while the output
    buffer still carries its id. *)
Definition released_process : Process :=
  {| context := {| pool := released_world;
                   native_window := 0;
                   surface := 0;
                   native_window_width := 0;
                   native_window_height := 0;
                   avid_status_code := 0;
                   jni_status_code := kJniStatusOk |};
     memory := ∅;
     logcat := [] |}.

(** One row of three 10-bit samples, 1001, 514 and 3, at address 1000. *)
Definition row_memory : Memory :=
  list_to_map [(1000, 233); (1001, 3); (1002, 2); (1003, 2); (1004, 3)].

(** [released_world] after a [GetBuffer] that asks for 2^31 bytes. *)
Definition oversized_world : World :=
  match GetBuffer (2 ^ 31) 32 released_world with
  | Some (_, w) => w
  | None => released_world
  end.

(** ** Traces and pictures for the amended statements *)

(** An event that touches a member of the manager. *)
Definition is_access (e : Event) : bool :=
  match e with
  | Read _ | Write _ => true
  | Lock | Unlock => false
  end.

(** The trace of a method that holds [mutex_] for the duration of its
    accesses: it starts by taking the mutex, ends by dropping it, and
    everything between is a read or a write (so the mutex is neither
    dropped nor taken again on the way). *)
Definition locked_throughout (t : list Event) : bool :=
  match t with
  | Lock :: rest =>
      match reverse rest with
      | Unlock :: accesses => forallb is_access accesses
      | _ => false
      end
  | _ => false
  end.

(** A picture whose strides do not fit an [int]: 2^31 and 2^32 + 7. *)
Definition wide_picture : Dav1dPicture :=
  {| DAV1D_API.data := mk_array3 1000 2000 3000;
     DAV1D_API.stride := mk_array2 (2 ^ 31) (2 ^ 32 + 7);
     DAV1D_API.p := {| DAV1D_API.w := 16; DAV1D_API.h := 4;
                       DAV1D_API.bpc := 8 |} |}.

(** * Proofs *)

(** ** Running the pool's computations *)

(** Unfold the monad and the member accesses, leaving the reads of arrays
    and of the heap as the only stuck matches. *)
Ltac mrun :=
  cbv beta iota delta
    [bind ret emit get_manager put_manager of_option undefined
     read_all_buffer_count write_all_buffer_count
     read_free_buffer_count write_free_buffer_count
     read_all_buffers write_all_buffers read_free_buffers write_free_buffers
     deref store lock_guard nothrow_new alloc_plane alloc_JniFrameBuffer];
  cbn [manager heap allocator events
       all_buffers_ all_buffer_count_ free_buffers_ free_buffer_count_].

Ltac mrun_in H :=
  cbv beta iota delta
    [bind ret emit get_manager put_manager of_option undefined
     read_all_buffer_count write_all_buffer_count
     read_free_buffer_count write_free_buffer_count
     read_all_buffers write_all_buffers read_free_buffers write_free_buffers
     deref store lock_guard nothrow_new alloc_plane alloc_JniFrameBuffer] in H;
  cbn [manager heap allocator events
       all_buffers_ all_buffer_count_ free_buffers_ free_buffer_count_] in H.

Lemma bind_Some {A B} (m : M A) (k : A -> M B) w r w' :
  bind m k w = Some (r, w') <->
  exists a w1, m w = Some (a, w1) /\ k a w1 = Some (r, w').
Proof.
  unfold bind. split.
  - destruct (m w) as [[a w1]|]; [eauto | discriminate].
  - intros (a & w1 & -> & H). exact H.
Qed.

Lemma same_but_raw_refl b : same_but_raw b b.
Proof. by destruct b. Qed.

Lemma same_but_raw_trans b1 b2 b3 :
  same_but_raw b1 b2 -> same_but_raw b2 b3 -> same_but_raw b1 b3.
Proof. unfold same_but_raw. intros -> ->. by destruct b1. Qed.

Lemma same_but_raw_set b r s : same_but_raw b (set_raw_buffer b r s).
Proof. by destruct b. Qed.

Lemma updates_at_trans q w1 w2 w3 (R : JniFrameBuffer -> JniFrameBuffer -> Prop) :
  (forall a b c, R a b -> R b c -> R a c) ->
  updates_at q w1 w2 R -> updates_at q w2 w3 R -> updates_at q w1 w3 R.
Proof.
  intros HR (Hm1 & He1 & b1 & b2 & Hb1 & HR1 & Hh1)
            (Hm2 & He2 & b2' & b3 & Hb2 & HR2 & Hh2).
  split; [congruence|]. split; [congruence|].
  rewrite Hh1 in Hb2.
  rewrite list_lookup_insert_eq in Hb2 by (by eapply lookup_lt_Some).
  injection Hb2 as <-.
  exists b1, b3. split; [done|]. split; [by eapply HR|].
  by rewrite Hh2, Hh1, list_insert_insert_eq.
Qed.

Lemma reallocate_plane_inv q i n w ok w' :
  reallocate_plane q i n w = Some (ok, w') ->
  updates_at q w w' same_but_raw.
Proof.
  unfold reallocate_plane, updates_at. intros H. mrun_in H.
  repeat case_match; simplify_eq; cbn; (split; [done|split; [done|]]).
  all: eexists _, _; split; [done|].
  all: split; [| first [done | symmetry; by apply list_insert_id]].
  all: first [apply same_but_raw_set | apply same_but_raw_refl].
Qed.

Lemma MaybeReallocateGav1DataPlanes_inv q y uv w ok w' :
  MaybeReallocateGav1DataPlanes q y uv w = Some (ok, w') ->
  updates_at q w w' same_but_raw.
Proof.
  unfold MaybeReallocateGav1DataPlanes. intros H.
  apply bind_Some in H as (ok1 & w1 & H1 & H).
  apply reallocate_plane_inv in H1.
  destruct ok1; cbn [negb] in H; [|unfold ret in H; by simplify_eq].
  apply bind_Some in H as (ok2 & w2 & H2 & H).
  apply reallocate_plane_inv in H2.
  pose proof (updates_at_trans _ _ _ _ _ same_but_raw_trans H1 H2) as H12.
  destruct ok2; cbn [negb] in H; [|unfold ret in H; by simplify_eq].
  apply bind_Some in H as (ok3 & w3 & H3 & H).
  apply reallocate_plane_inv in H3.
  pose proof (updates_at_trans _ _ _ _ _ same_but_raw_trans H12 H3) as H123.
  destruct ok3; cbn [negb] in H; unfold ret in H; by simplify_eq.
Qed.

Lemma updates_at_weaken q w w' (R R' : JniFrameBuffer -> JniFrameBuffer -> Prop) :
  (forall b b', R b b' -> R' b b') -> updates_at q w w' R -> updates_at q w w' R'.
Proof.
  intros HR (Hm & He & b & b' & Hb & Hbb & Hh).
  split; [done|]. split; [done|]. exists b, b'. eauto.
Qed.

Lemma GetBuffer_finish_inv q y uv w r w' :
  GetBuffer_finish q y uv w = Some (r, w') ->
  updates_at q w w' (finished r q).
Proof.
  unfold GetBuffer_finish. intros H.
  apply bind_Some in H as (ok & w1 & H1 & H).
  apply MaybeReallocateGav1DataPlanes_inv in H1.
  destruct ok; cbn [negb] in H.
  - destruct H1 as (Hm & He & b & b1 & Hb & Hbb & Hh).
    destruct w1 as [m1 h1 a1 e1]. cbn [manager heap events] in Hm, He, Hh.
    subst m1 h1 e1. mrun_in H.
    rewrite list_lookup_insert_eq in H by (by eapply lookup_lt_Some).
    unfold AddReference in H.
    destruct (Z.ltb_spec (reference_count_ b1) INT_MAX) as [Hlt|]; [|done].
    cbn [heap] in H.
    rewrite list_lookup_insert_eq in H by (by eapply lookup_lt_Some).
    simplify_eq. cbn.
    assert (reference_count_ b1 = reference_count_ b) as Hrc
      by (rewrite Hbb; by destruct b).
    split; [done|]. split; [done|].
    eexists b, _. split; [done|]. split.
    + right. split; [done|]. split; [lia|]. exists b1. rewrite <- Hrc. done.
    + by rewrite list_insert_insert_eq.
  - unfold ret in H. simplify_eq.
    eapply updates_at_weaken; [|done]. intros b b' Hbb. by left.
Qed.

(** ** What each method does, read off a run that returned *)

Lemma GetBuffer_inv y uv w r w' :
  GetBuffer y uv w = Some (r, w') ->
  let m := manager w in
  (* a buffer is taken from the free list *)
  (free_buffer_count_ m <> 0 /\
   exists q b b',
     array_get (free_buffers_ m) (free_buffer_count_ m - 1) = Some (Some q) /\
     heap w !! q = Some b /\ finished r q b b' /\
     manager w' = {| all_buffers_ := all_buffers_ m;
                     all_buffer_count_ := all_buffer_count_ m;
                     free_buffers_ := free_buffers_ m;
                     free_buffer_count_ := free_buffer_count_ m - 1 |} /\
     heap w' = <[q := b']> (heap w) /\
     events w' = events w ++
       [Lock; Read m_free_buffer_count; Read m_free_buffer_count;
        Write m_free_buffer_count; Read m_free_buffers; Unlock]) \/
  (* a buffer is created *)
  (free_buffer_count_ m = 0 /\ all_buffer_count_ m < kMaxFrames /\
   exists a b',
     array_set (all_buffers_ m) (all_buffer_count_ m)
       (Some (length (heap w))) = Some a /\
     finished r (length (heap w))
       (new_JniFrameBuffer (all_buffer_count_ m)) b' /\
     manager w' = {| all_buffers_ := a;
                     all_buffer_count_ := all_buffer_count_ m + 1;
                     free_buffers_ := free_buffers_ m;
                     free_buffer_count_ := free_buffer_count_ m |} /\
     heap w' = heap w ++ [b'] /\
     events w' = events w ++
       [Lock; Read m_free_buffer_count; Read m_all_buffer_count;
        Read m_all_buffer_count; Read m_all_buffer_count;
        Write m_all_buffer_count; Write m_all_buffers; Unlock]) \/
  (* no memory for a new buffer, or the maximum number is in use *)
  (free_buffer_count_ m = 0 /\ r = (kJniStatusOutOfMemory, None) /\
   manager w' = m /\ heap w' = heap w /\
   ((all_buffer_count_ m < kMaxFrames /\
     events w' = events w ++
       [Lock; Read m_free_buffer_count; Read m_all_buffer_count;
        Read m_all_buffer_count; Unlock]) \/
    (kMaxFrames <= all_buffer_count_ m /\
     events w' = events w ++
       [Lock; Read m_free_buffer_count; Read m_all_buffer_count; Unlock]))).
Proof.
  intros H m. subst m. unfold GetBuffer in H. mrun_in H.
  repeat (case_match; simplify_eq;
          cbn [manager heap allocator events all_buffers_ all_buffer_count_
               free_buffers_ free_buffer_count_ negb] in * ).
  all: repeat match goal with
       | H : negb (_ =? _) = true |- _ => apply negb_true_iff, Z.eqb_neq in H
       | H : negb (_ =? _) = false |- _ => apply negb_false_iff, Z.eqb_eq in H
       | H : (_ <? _) = true |- _ => apply Z.ltb_lt in H
       | H : (_ <? _) = false |- _ => apply Z.ltb_ge in H
       | H : GetBuffer_finish _ _ _ _ = Some _ |- _ =>
           apply GetBuffer_finish_inv in H
               as (Hm & He & b & b' & Hb & Hfin & Hh);
           cbn [manager heap allocator events] in Hm, He, Hb, Hh
       end.
  - (* from the free list *)
    left. split; [done|]. eexists _, b, b'. split; [reflexivity|].
    rewrite Hm, Hh, He, <- !app_assoc. done.
  - (* created, the allocator's list used up *)
    right; left. split; [done|]. split; [done|].
    rewrite lookup_app_r, Nat.sub_diag in Hb by done. cbn in Hb. simplify_eq.
    eexists _, b'. split; [first [eassumption | reflexivity]|].
    rewrite Hm, Hh, He, <- !app_assoc.
    rewrite insert_app_r_alt, Nat.sub_diag by done. done.
  - (* created *)
    right; left. split; [done|]. split; [done|].
    rewrite lookup_app_r, Nat.sub_diag in Hb by done. cbn in Hb. simplify_eq.
    eexists _, b'. split; [first [eassumption | reflexivity]|].
    rewrite Hm, Hh, He, <- !app_assoc.
    rewrite insert_app_r_alt, Nat.sub_diag by done. done.
  - (* no memory *)
    right; right. rewrite <- !app_assoc. eauto 10.
  - (* the maximum number of buffers is in use *)
    right; right. rewrite <- !app_assoc. eauto 10.
Qed.

Ltac zify_tests :=
  repeat match goal with
  | H : negb (_ =? _) = true |- _ => apply negb_true_iff, Z.eqb_neq in H
  | H : negb (_ =? _) = false |- _ => apply negb_false_iff, Z.eqb_eq in H
  | H : negb (negb (_ =? _)) = true |- _ =>
      rewrite negb_involutive in H; apply Z.eqb_eq in H
  | H : negb (negb (_ =? _)) = false |- _ =>
      rewrite negb_involutive in H; apply Z.eqb_neq in H
  | H : (_ =? _) = true |- _ => apply Z.eqb_eq in H
  | H : (_ =? _) = false |- _ => apply Z.eqb_neq in H
  | H : (_ <? _) = true |- _ => apply Z.ltb_lt in H
  | H : (_ <? _) = false |- _ => apply Z.ltb_ge in H
  | H : (_ <=? _) = true |- _ => apply Z.leb_le in H
  | H : (_ <=? _) = false |- _ => apply Z.leb_gt in H
  end.

Ltac msimpl_in H :=
  cbn [manager heap allocator events all_buffers_ all_buffer_count_
       free_buffers_ free_buffer_count_ negb] in H.

Ltac msimpl :=
  cbn [manager heap allocator events all_buffers_ all_buffer_count_
       free_buffers_ free_buffer_count_ negb].

Ltac mcases :=
  repeat (case_match; simplify_eq;
          cbn [manager heap allocator events all_buffers_ all_buffer_count_
               free_buffers_ free_buffer_count_ negb] in * ).

Lemma ReleaseBuffer_inv id w r w' :
  ReleaseBuffer id w = Some (r, w') ->
  let m := manager w in
  exists q b,
    array_get (all_buffers_ m) id = Some (Some q) /\ heap w !! q = Some b /\
    ((reference_count_ b = 0 /\ r = kJniStatusBufferAlreadyReleased /\
      manager w' = m /\ heap w' = heap w /\
      events w' = events w ++ [Lock; Read m_all_buffers; Unlock]) \/
     (reference_count_ b <> 0 /\ reference_count_ b <> 1 /\
      INT_MIN < reference_count_ b /\ r = kJniStatusOk /\
      manager w' = m /\
      heap w' = <[q := set_reference_count b (reference_count_ b - 1)]> (heap w) /\
      events w' = events w ++ [Lock; Read m_all_buffers; Unlock]) \/
     (reference_count_ b = 1 /\ r = kJniStatusOk /\
      exists f,
        array_set (free_buffers_ m) (free_buffer_count_ m) (Some q) = Some f /\
        manager w' = {| all_buffers_ := all_buffers_ m;
                        all_buffer_count_ := all_buffer_count_ m;
                        free_buffers_ := f;
                        free_buffer_count_ := free_buffer_count_ m + 1 |} /\
        heap w' = <[q := set_reference_count b 0]> (heap w) /\
        events w' = events w ++
          [Lock; Read m_all_buffers; Read m_free_buffer_count;
           Write m_free_buffer_count; Write m_free_buffers; Unlock])).
Proof.
  intros H m. subst m. unfold ReleaseBuffer in H. mrun_in H.
  destruct (array_get (all_buffers_ (manager w)) id) as [[q|]|] eqn:Hq;
    [|done|done].
  msimpl_in H.
  destruct (heap w !! q) as [b|] eqn:Hb; [|done].
  exists q, b. split; [done|]. split; [done|].
  unfold InUse, RemoveReference in H.
  destruct (Z.eqb_spec (reference_count_ b) 0) as [Hz|Hz]; cbn [negb] in H.
  { simplify_eq. left. cbn. rewrite <- !app_assoc. done. }
  destruct (Z.ltb_spec INT_MIN (reference_count_ b)) as [Hmin|]; [|done].
  cbn [heap] in H. rewrite Hb in H. cbn [heap] in H.
  rewrite list_lookup_insert_eq in H by (by eapply lookup_lt_Some).
  cbn [reference_count_ set_reference_count] in H.
  destruct (Z.eqb_spec (reference_count_ b - 1) 0) as [Ho|Ho]; cbn [negb] in H.
  - right; right. split; [lia|].
    cbn [manager heap allocator events all_buffers_ all_buffer_count_
         free_buffers_ free_buffer_count_] in H.
    destruct (array_set _ _ _) as [f|] eqn:Hf; [|done].
    simplify_eq. split; [done|]. exists f. cbn. rewrite <- !app_assoc.
    replace (reference_count_ b - 1) with 0 by lia. done.
  - right; left. simplify_eq. cbn. rewrite <- !app_assoc.
    repeat split; try done; lia.
Qed.

Lemma AddBufferReference_inv id w r w' :
  AddBufferReference id w = Some (r, w') ->
  exists q b,
    array_get (all_buffers_ (manager w)) id = Some (Some q) /\
    heap w !! q = Some b /\ reference_count_ b < INT_MAX /\
    manager w' = manager w /\
    heap w' = <[q := set_reference_count b (reference_count_ b + 1)]> (heap w) /\
    events w' = events w ++ [Lock; Read m_all_buffers; Unlock].
Proof.
  intros H. unfold AddBufferReference in H. mrun_in H.
  destruct (array_get (all_buffers_ (manager w)) id) as [[q|]|] eqn:Hq;
    [|done|done].
  msimpl_in H.
  destruct (heap w !! q) as [b|] eqn:Hb; [|done].
  exists q, b. split; [done|]. split; [done|].
  unfold AddReference in H.
  destruct (Z.ltb_spec (reference_count_ b) INT_MAX) as [Hmax|]; [|done].
  cbn [heap] in H. rewrite Hb in H. simplify_eq. cbn.
  rewrite <- !app_assoc. done.
Qed.

Lemma GetBuffer_id_inv id w q w' :
  GetBuffer_id id w = Some (q, w') ->
  array_get (all_buffers_ (manager w)) id = Some (Some q) /\
  manager w' = manager w /\ heap w' = heap w /\
  events w' = events w ++ [Read m_all_buffers].
Proof.
  intros H. unfold GetBuffer_id in H. mrun_in H.
  destruct (array_get (all_buffers_ (manager w)) id) as [[q'|]|] eqn:Hq;
    [|done|done].
  msimpl_in H. by simplify_eq.
Qed.

(** ** The reference counts (C3) *)

(** C3. For the id of a created buffer ([all_buffers_[id]] points to a
    frame buffer), [ReleaseBuffer] returns [kJniStatusBufferAlreadyReleased]
    and leaves the manager and every frame buffer as they were when the
    buffer's reference count is zero; otherwise it returns [kJniStatusOk],
    decrements the count, and appends the buffer to the free list exactly
    when the count has reached zero. The count is assumed not to be the
    least [int], and the free array to have room when the buffer is about to
    be appended; [pool_inv_created] shows that both hold for every created
    buffer of a pool that satisfies its invariant. *)
Theorem ReleaseBuffer_reference_count (w : World) (id : Z) (q : ptr)
    (b : JniFrameBuffer) :
  array_get (all_buffers_ (manager w)) id = Some (Some q) ->
  heap w !! q = Some b ->
  INT_MIN < reference_count_ b ->
  (reference_count_ b = 1 ->
   0 <= free_buffer_count_ (manager w)
     < Z.of_nat (length (free_buffers_ (manager w)))) ->
  exists r w',
    ReleaseBuffer id w = Some (r, w') /\
    if reference_count_ b =? 0 then
      r = kJniStatusBufferAlreadyReleased /\
      manager w' = manager w /\ heap w' = heap w
    else
      r = kJniStatusOk /\
      heap w' = <[q := set_reference_count b (reference_count_ b - 1)]> (heap w) /\
      manager w' = if reference_count_ b - 1 =? 0
                   then push_free (manager w) q
                   else manager w.
Proof.
  intros Hq Hb Hmin Hroom.
  unfold ReleaseBuffer. mrun. rewrite Hq.
  cbn [manager heap allocator events]. rewrite Hb.
  unfold InUse at 1.
  destruct (Z.eqb_spec (reference_count_ b) 0) as [Hz|Hz]; cbn [negb].
  { eexists _, _. split; [reflexivity|]. done. }
  unfold RemoveReference.
  destruct (Z.ltb_spec INT_MIN (reference_count_ b)) as [_|]; [|lia].
  cbn [manager heap allocator events]. rewrite Hb.
  cbn [manager heap allocator events].
  rewrite list_lookup_insert_eq by (by eapply lookup_lt_Some).
  unfold InUse. cbn [reference_count_ set_reference_count].
  destruct (Z.eqb_spec (reference_count_ b - 1) 0) as [Ho|Ho]; cbn [negb].
  - cbn [manager heap allocator events all_buffers_ all_buffer_count_
         free_buffers_ free_buffer_count_].
    unfold array_set.
    destruct (Z.leb_spec 0 (free_buffer_count_ (manager w))); [|lia].
    destruct (Z.ltb_spec (free_buffer_count_ (manager w))
                (Z.of_nat (length (free_buffers_ (manager w))))); [|lia].
    cbn [andb]. eexists _, _. split; [reflexivity|]. done.
  - eexists _, _. split; [reflexivity|]. cbn. by destruct (manager w).
Qed.

Lemma ReleaseBuffer_reference_count_witness :
  exists r w',
    ReleaseBuffer 0 one_buffer_world = Some (r, w') /\
    r = kJniStatusOk /\
    heap w' = [set_reference_count
                 (set_raw_buffer (new_JniFrameBuffer 0)
                    (mk_array3 true true true) (mk_array3 64 32 32)) 0] /\
    manager w' = push_free (manager one_buffer_world) 0%nat.
Proof.
  destruct (ReleaseBuffer_reference_count one_buffer_world 0 0%nat
              (set_reference_count
                 (set_raw_buffer (new_JniFrameBuffer 0)
                    (mk_array3 true true true) (mk_array3 64 32 32)) 1))
    as (r & w' & Hrun & Hok).
  - reflexivity.
  - reflexivity.
  - reflexivity.
  - intros _. vm_compute. split; discriminate || reflexivity.
  - exists r, w'. split; [exact Hrun|]. exact Hok.
Defined.

(** ** The capacity of the pool (C2) *)

Lemma call_inv c w r w' :
  call c w = Some (r, w') ->
  match c with
  | Call_GetBuffer y uv => exists r', GetBuffer y uv w = Some (r', w')
  | Call_GetBuffer_id id => exists q, GetBuffer_id id w = Some (q, w')
  | Call_AddBufferReference id => AddBufferReference id w = Some (tt, w')
  | Call_ReleaseBuffer id => exists r', ReleaseBuffer id w = Some (r', w')
  end.
Proof.
  destruct c; cbn [call]; intros H.
  - apply bind_Some in H as (a & w1 & H1 & H). unfold ret in H.
    simplify_eq. eauto.
  - apply bind_Some in H as (a & w1 & H1 & H). unfold ret in H.
    simplify_eq. eauto.
  - by destruct r.
  - apply bind_Some in H as (a & w1 & H1 & H). unfold ret in H.
    simplify_eq. eauto.
Qed.

(** A call creates at most one buffer, and only below the cap. *)
Lemma call_created c w r w' :
  call c w = Some (r, w') ->
  (all_buffer_count_ (manager w') = all_buffer_count_ (manager w) /\
   length (heap w') = length (heap w)) \/
  (all_buffer_count_ (manager w) < kMaxFrames /\
   all_buffer_count_ (manager w') = all_buffer_count_ (manager w) + 1 /\
   length (heap w') = S (length (heap w))).
Proof.
  intros H. apply call_inv in H. destruct c.
  - destruct H as (r' & H). apply GetBuffer_inv in H.
    destruct H as [(_ & q & b & b' & _ & _ & _ & Hm & Hh & _)
                  |[(_ & Hlt & a & b' & _ & _ & Hm & Hh & _)
                   |(_ & _ & Hm & Hh & _)]].
    + left. rewrite Hm, Hh, length_insert. done.
    + right. rewrite Hm, Hh, length_app. cbn. split; [done|].
      split; [done|]. lia.
    + left. by rewrite Hm, Hh.
  - destruct H as (q & H). apply GetBuffer_id_inv in H as (_ & Hm & Hh & _).
    left. by rewrite Hm, Hh.
  - apply AddBufferReference_inv in H
      as (q & b & _ & _ & _ & Hm & Hh & _).
    left. by rewrite Hm, Hh, length_insert.
  - destruct H as (r' & H). apply ReleaseBuffer_inv in H.
    destruct H as (q & b & _ & _ & [(_ & _ & Hm & Hh & _)
                                   |[(_ & _ & _ & _ & Hm & Hh & _)
                                    |(_ & _ & f & _ & Hm & Hh & _)]]).
    + left. by rewrite Hm, Hh.
    + left. by rewrite Hm, Hh, length_insert.
    + left. by rewrite Hm, Hh, length_insert.
Qed.

Lemma calls_created cs : forall w w',
  calls cs w = Some (tt, w') ->
  Z.of_nat (length (heap w)) = all_buffer_count_ (manager w) ->
  all_buffer_count_ (manager w) <= kMaxFrames ->
  Z.of_nat (length (heap w')) = all_buffer_count_ (manager w') /\
  all_buffer_count_ (manager w') <= kMaxFrames.
Proof.
  induction cs as [|c cs IH]; intros w w' H Hlen Hcap.
  - cbn in H. unfold ret in H. by simplify_eq.
  - cbn [calls] in H. apply bind_Some in H as (a & w1 & H1 & H).
    apply call_created in H1.
    apply (IH w1 w' H); lia.
Qed.

(** C2. The pool has a hard cap. In any state with an empty free list and
    [kMaxFrames] (32) buffers created, [GetBuffer] returns
    [kJniStatusOutOfMemory], stores nothing through [jni_buffer] and leaves
    the manager and the frame buffers as they were; no call of a method
    takes [all_buffer_count_] above 32; and after any sequence of calls on
    the empty pool, whatever the allocator does, at most 32 frame buffers
    have been created. *)
Theorem GetBuffer_hard_cap :
  (forall w y uv,
     free_buffer_count_ (manager w) = 0 ->
     all_buffer_count_ (manager w) = kMaxFrames ->
     exists w',
       GetBuffer y uv w = Some ((kJniStatusOutOfMemory, None), w') /\
       manager w' = manager w /\ heap w' = heap w) /\
  (forall c w r w',
     all_buffer_count_ (manager w) <= kMaxFrames ->
     call c w = Some (r, w') ->
     all_buffer_count_ (manager w') <= kMaxFrames) /\
  (forall allocator cs w',
     calls cs (new_World allocator) = Some (tt, w') ->
     all_buffer_count_ (manager w') <= kMaxFrames /\
     Z.of_nat (length (heap w')) = all_buffer_count_ (manager w')).
Proof.
  split; [|split].
  - intros w y uv Hfc Hac. unfold GetBuffer. mrun.
    rewrite Hfc. cbn. rewrite Hac. cbn. eexists. split; [reflexivity|]. done.
  - intros c w r w' Hcap H. apply call_created in H. lia.
  - intros al cs w' H.
    apply calls_created in H; [tauto|done|done].
Qed.

Lemma GetBuffer_hard_cap_witness :
  exists w',
    GetBuffer 64 32 (busy_world 32)
      = Some ((kJniStatusOutOfMemory, None), w') /\
    manager w' = manager (busy_world 32) /\ heap w' = heap (busy_world 32).
Proof.
  apply (proj1 GetBuffer_hard_cap (busy_world 32) 64 32).
  - vm_compute. reflexivity.
  - vm_compute. reflexivity.
Defined.

(** ** Reuse of released buffers (C4) *)

Lemma array_set_Some {A} (a f : list A) i x :
  array_set a i x = Some f ->
  0 <= i < Z.of_nat (length a) /\ f = <[Z.to_nat i := x]> a.
Proof.
  unfold array_set. intros H.
  destruct (Z.leb_spec 0 i); [|done].
  destruct (Z.ltb_spec i (Z.of_nat (length a))); [|done].
  cbn in H. by simplify_eq.
Qed.

Lemma array_get_set {A} (a f : list A) i x :
  array_set a i x = Some f -> array_get f i = Some x.
Proof.
  intros H. apply array_set_Some in H as (Hi & ->).
  unfold array_get. destruct (Z.leb_spec 0 i); [|lia].
  apply list_lookup_insert_eq. lia.
Qed.

Lemma finished_Ok q r b b' :
  finished (kJniStatusOk, r) q b b' ->
  r = Some q /\ id_ b' = id_ b /\
  reference_count_ b' = reference_count_ b + 1.
Proof.
  intros [(Hr & _)|(Hr & _ & b1 & Hb1 & ->)]; [done|].
  simplify_eq. split; [done|]. rewrite Hb1. by destruct b.
Qed.

(** C4. Frame buffers are reused, last in first out. In any state with a
    non-empty free list a successful [GetBuffer] hands out the buffer on top
    of the free list with one reference more, and creates no buffer; so
    after a [ReleaseBuffer] that takes the count of buffer [id] from one to
    zero, the next successful [GetBuffer] returns that very buffer with a
    reference count of 1. *)
Theorem GetBuffer_reuses_last_released :
  (forall w y uv q' w2,
     free_buffer_count_ (manager w) <> 0 ->
     GetBuffer y uv w = Some ((kJniStatusOk, Some q'), w2) ->
     array_get (free_buffers_ (manager w))
       (free_buffer_count_ (manager w) - 1) = Some (Some q') /\
     free_buffer_count_ (manager w2) = free_buffer_count_ (manager w) - 1 /\
     all_buffer_count_ (manager w2) = all_buffer_count_ (manager w) /\
     all_buffers_ (manager w2) = all_buffers_ (manager w) /\
     length (heap w2) = length (heap w) /\
     exists b b2,
       heap w !! q' = Some b /\ heap w2 !! q' = Some b2 /\
       id_ b2 = id_ b /\
       reference_count_ b2 = reference_count_ b + 1) /\
  (forall w id q b w1 y uv q' w2,
     array_get (all_buffers_ (manager w)) id = Some (Some q) ->
     heap w !! q = Some b ->
     reference_count_ b = 1 ->
     ReleaseBuffer id w = Some (kJniStatusOk, w1) ->
     GetBuffer y uv w1 = Some ((kJniStatusOk, Some q'), w2) ->
     q' = q /\
     all_buffer_count_ (manager w2) = all_buffer_count_ (manager w) /\
     length (heap w2) = length (heap w) /\
     free_buffer_count_ (manager w2) = free_buffer_count_ (manager w) /\
     exists b2,
       heap w2 !! q = Some b2 /\ id_ b2 = id_ b /\
       reference_count_ b2 = 1).
Proof.
  assert (forall w y uv q' w2,
     free_buffer_count_ (manager w) <> 0 ->
     GetBuffer y uv w = Some ((kJniStatusOk, Some q'), w2) ->
     array_get (free_buffers_ (manager w))
       (free_buffer_count_ (manager w) - 1) = Some (Some q') /\
     free_buffer_count_ (manager w2) = free_buffer_count_ (manager w) - 1 /\
     all_buffer_count_ (manager w2) = all_buffer_count_ (manager w) /\
     all_buffers_ (manager w2) = all_buffers_ (manager w) /\
     length (heap w2) = length (heap w) /\
     exists b b2,
       heap w !! q' = Some b /\ heap w2 !! q' = Some b2 /\
       id_ b2 = id_ b /\
       reference_count_ b2 = reference_count_ b + 1) as Hlifo.
  { intros w y uv q' w2 Hne H. apply GetBuffer_inv in H.
    destruct H as [(_ & q & b & b' & Hq & Hb & Hfin & Hm & Hh & _)
                  |[(Hfc & _)|(Hfc & _)]]; [|done|done].
    apply finished_Ok in Hfin as (Hqq & Hid & Hrc).
    simplify_eq. rewrite Hm, Hh, length_insert. cbn.
    repeat (split; [done|]).
    exists b, b'. split; [done|]. split; [|done].
    apply list_lookup_insert_eq. by eapply lookup_lt_Some. }
  split; [exact Hlifo|].
  intros w id q b w1 y uv q' w2 Hq Hb Hone Hrel Hget.
  apply ReleaseBuffer_inv in Hrel.
  destruct Hrel as (q0 & b0 & Hq0 & Hb0 & Hrel).
  rewrite Hq in Hq0. simplify_eq.
  destruct Hrel as [(Hz & _)|[(_ & Hn1 & _)|(_ & _ & f & Hf & Hm1 & Hh1 & _)]];
    [lia|lia|].
  pose proof (array_get_set _ _ _ _ Hf) as Hget_f.
  apply array_set_Some in Hf as (Hfc & _).
  destruct (Hlifo w1 y uv q' w2) as (Htop & Hfc2 & Hac2 & _ & Hlen & b1 & b2 & Hb1 & Hb2 & Hid & Hrc);
    [rewrite Hm1; cbn; lia|done|].
  rewrite Hm1 in Htop, Hfc2, Hac2. cbn in Htop, Hfc2, Hac2.
  replace (free_buffer_count_ (manager w) + 1 - 1)
    with (free_buffer_count_ (manager w)) in Htop by lia.
  rewrite Hget_f in Htop. simplify_eq.
  rewrite Hh1 in Hb1, Hlen. rewrite length_insert in Hlen.
  rewrite list_lookup_insert_eq in Hb1 by (by eapply lookup_lt_Some).
  simplify_eq. cbn in Hid, Hrc.
  split; [done|]. split; [done|]. split; [done|]. split; [lia|].
  exists b2. split; [done|]. split; [done|]. lia.
Qed.

Lemma GetBuffer_reuses_last_released_witness :
  0%nat = 0%nat /\
  all_buffer_count_ (manager reused_world)
    = all_buffer_count_ (manager one_buffer_world) /\
  length (heap reused_world) = length (heap one_buffer_world) /\
  free_buffer_count_ (manager reused_world)
    = free_buffer_count_ (manager one_buffer_world) /\
  exists b2,
    heap reused_world !! 0%nat = Some b2 /\
    id_ b2 = id_ (set_reference_count
                    (set_raw_buffer (new_JniFrameBuffer 0)
                       (mk_array3 true true true) (mk_array3 64 32 32)) 1) /\
    reference_count_ b2 = 1.
Proof.
  apply (proj2 GetBuffer_reuses_last_released
           one_buffer_world 0 0%nat
           (set_reference_count
              (set_raw_buffer (new_JniFrameBuffer 0)
                 (mk_array3 true true true) (mk_array3 64 32 32)) 1)
           released_world 16 8 0%nat reused_world).
  - reflexivity.
  - reflexivity.
  - reflexivity.
  - vm_compute. reflexivity.
  - vm_compute. reflexivity.
Defined.

(** ** The state invariant of the pool (C8) *)

Lemma distinct_below (l : list nat) (n : nat) :
  NoDup l -> (forall x, x ∈ l -> (x < n)%nat) -> (length l <= n)%nat.
Proof.
  intros Hnd Hlt.
  rewrite <- (length_seq n 0).
  apply submseteq_length, NoDup_submseteq; [done|].
  intros x Hx. apply elem_of_seq. specialize (Hlt x Hx). lia.
Qed.

Section pool_inv_at.
Context {n : nat} {free : list ptr} {m : JniBufferManager}
        {h : list JniFrameBuffer}.
Hypothesis Hinv : pool_inv_at n free m h.

Lemma inv_free_below q : q ∈ free -> (q < n)%nat.
Proof.
  intros Hq. destruct (inv_free_refs _ _ _ _ Hinv q Hq) as (b & Hb & _).
  rewrite <- (inv_heap_length _ _ _ _ Hinv). by eapply lookup_lt_Some.
Qed.

Lemma inv_free_bound : (length free <= n)%nat.
Proof.
  apply distinct_below; [apply Hinv|]. apply inv_free_below.
Qed.

Lemma inv_free_room q :
  (q < n)%nat -> q ∉ free -> (length free < n)%nat.
Proof.
  intros Hq Hnot.
  assert (length (q :: free) <= n)%nat as Hle; [|exact Hle].
  apply distinct_below.
  - apply NoDup_cons_2; [done|apply Hinv].
  - intros x [->|Hx]%elem_of_cons; [done|by apply inv_free_below].
Qed.

Lemma inv_all_get i :
  0 <= i < Z.of_nat n ->
  array_get (all_buffers_ m) i = Some (Some (Z.to_nat i)).
Proof.
  intros Hi. unfold array_get. destruct (Z.leb_spec 0 i); [|lia].
  rewrite <- (lookup_take_lt _ n) by lia.
  rewrite (inv_all _ _ _ _ Hinv), list_lookup_fmap, lookup_seq_lt by lia.
  done.
Qed.

Lemma inv_all_get_Some i q :
  array_get (all_buffers_ m) i = Some (Some q) ->
  0 <= i < Z.of_nat n -> q = Z.to_nat i.
Proof. intros Hq Hi. rewrite inv_all_get in Hq by done. by simplify_eq. Qed.

Lemma inv_free_get j :
  0 <= j < Z.of_nat (length free) ->
  exists q, array_get (free_buffers_ m) j = Some (Some q) /\
            free !! Z.to_nat j = Some q.
Proof.
  intros Hj. unfold array_get. destruct (Z.leb_spec 0 j); [|lia].
  rewrite <- (lookup_take_lt _ (length free)) by lia.
  rewrite (inv_free _ _ _ _ Hinv), list_lookup_fmap.
  destruct (free !! Z.to_nat j) as [q|] eqn:Hq.
  - exists q. done.
  - apply lookup_ge_None in Hq. lia.
Qed.

(** Rewriting one buffer keeps the invariant when its id stays, its count
    stays non-negative, and it stays unreferenced if it is free. *)
Lemma pool_inv_at_update q b b' :
  h !! q = Some b ->
  id_ b' = id_ b -> 0 <= reference_count_ b' ->
  (q ∈ free -> reference_count_ b' = 0) ->
  pool_inv_at n free m (<[q := b']> h).
Proof.
  intros Hb Hid Hrc Hfree. destruct Hinv. constructor; try done.
  - by rewrite length_insert.
  - intros i bi Hi. destruct (decide (i = q)) as [->|Hne].
    + rewrite list_lookup_insert_eq in Hi by (by eapply lookup_lt_Some).
      simplify_eq. rewrite Hid. split; [|done].
      by apply (inv_ids0 q b).
    + rewrite list_lookup_insert_ne in Hi by done. by apply inv_ids0.
  - intros q' Hq'. destruct (decide (q' = q)) as [->|Hne].
    + exists b'. split; [|by apply Hfree].
      apply list_lookup_insert_eq. by eapply lookup_lt_Some.
    + rewrite list_lookup_insert_ne by done. by apply inv_free_refs0.
Qed.
End pool_inv_at.

Lemma finished_fields r q b b' :
  finished r q b b' ->
  id_ b' = id_ b /\
  (reference_count_ b' = reference_count_ b \/
   reference_count_ b' = reference_count_ b + 1).
Proof.
  intros [(_ & Hb)|(_ & _ & b1 & Hb1 & ->)].
  - rewrite Hb. destruct b; cbn. auto.
  - rewrite Hb1. destruct b; cbn. auto.
Qed.

Lemma pool_inv_new_World allocator : pool_inv (new_World allocator).
Proof.
  exists 0%nat, []. constructor; cbn; try done.
  - lia.
  - apply NoDup_nil_2.
  - intros q Hq. by apply elem_of_nil in Hq.
Qed.

Lemma pool_inv_at_pop n free x m h :
  pool_inv_at n (free ++ [x]) m h ->
  array_get (free_buffers_ m) (free_buffer_count_ m - 1) = Some (Some x) /\
  (x ∉ free) /\
  (exists b, h !! x = Some b /\ reference_count_ b = 0) /\
  pool_inv_at n free
    {| all_buffers_ := all_buffers_ m;
       all_buffer_count_ := all_buffer_count_ m;
       free_buffers_ := free_buffers_ m;
       free_buffer_count_ := free_buffer_count_ m - 1 |} h.
Proof.
  intros Hinv. pose proof Hinv as [].
  rewrite length_app in *. cbn [length] in *.
  apply NoDup_app in inv_free_nodup0 as (Hnd & Hdisj & _).
  split; [|split; [|split]].
  - destruct (inv_free_get Hinv (free_buffer_count_ m - 1))
      as (q & Hq & Hlast).
    { rewrite length_app. cbn. lia. }
    rewrite Hq. f_equal. f_equal.
    replace (Z.to_nat (free_buffer_count_ m - 1)) with (length free + 0)%nat
      in Hlast by lia.
    rewrite lookup_app_r, Nat.add_comm, Nat.add_sub in Hlast by lia.
    cbn in Hlast. by simplify_eq.
  - intros Hx. apply (Hdisj x Hx). apply list_elem_of_singleton. done.
  - apply inv_free_refs0. apply elem_of_app. right.
    by apply list_elem_of_singleton.
  - constructor;
    cbn [all_buffers_ all_buffer_count_ free_buffers_ free_buffer_count_
         push_free length];
    try done.
    + lia.
    + replace (take (length free) (free_buffers_ m))
        with (take (length free) (take (length free + 1) (free_buffers_ m)))
        by (rewrite take_take; f_equal; lia).
      rewrite inv_free0, fmap_app, take_app_length';
        [done|by rewrite length_fmap].
    + intros q Hq. apply inv_free_refs0. apply elem_of_app. by left.
Qed.

Lemma pool_inv_at_push n free q b m h :
  pool_inv_at n free m h ->
  h !! q = Some b -> reference_count_ b = 0 -> q ∉ free ->
  0 <= free_buffer_count_ m < Z.of_nat (length (free_buffers_ m)) /\
  pool_inv_at n (free ++ [q]) (push_free m q) h.
Proof.
  intros Hinv Hb Hrc Hq. pose proof Hinv as [].
  assert (q < n)%nat as Hqn.
  { rewrite <- inv_heap_length0. by eapply lookup_lt_Some. }
  pose proof (inv_free_room Hinv q Hqn Hq) as Hroom.
  split; [lia|].
  constructor;
    cbn [all_buffers_ all_buffer_count_ free_buffers_ free_buffer_count_
         push_free length];
    try done.
  - rewrite length_app. cbn. lia.
  - by rewrite length_insert.
  - rewrite inv_free_count0, Nat2Z.id, length_app. cbn.
    replace (length free + 1)%nat with (S (length free)) by lia.
    erewrite take_S_r.
    + rewrite take_insert_ge, inv_free0, fmap_app by lia. done.
    + apply list_lookup_insert_eq. lia.
  - apply NoDup_app. split; [done|]. split.
    + intros x Hx Hx'. apply list_elem_of_singleton in Hx'. by subst.
    + apply NoDup_singleton.
  - intros x [Hx| ->%list_elem_of_singleton]%elem_of_app.
    + by apply inv_free_refs0.
    + eauto.
Qed.

Lemma pool_inv_at_create n a b' m h :
  pool_inv_at n [] m h ->
  all_buffer_count_ m < kMaxFrames ->
  array_set (all_buffers_ m) (all_buffer_count_ m) (Some (length h)) = Some a ->
  id_ b' = all_buffer_count_ m -> 0 <= reference_count_ b' ->
  pool_inv_at (S n) []
    {| all_buffers_ := a;
       all_buffer_count_ := all_buffer_count_ m + 1;
       free_buffers_ := free_buffers_ m;
       free_buffer_count_ := free_buffer_count_ m |} (h ++ [b']).
Proof.
  intros Hinv Hlt Ha Hid Hrc. pose proof Hinv as [].
  apply array_set_Some in Ha as (Hi & ->).
  unfold kMaxFrames in *.
  constructor;
    cbn [all_buffers_ all_buffer_count_ free_buffers_ free_buffer_count_
         push_free length];
    try done.
  - lia.
  - unfold kMaxFrames. lia.
  - rewrite length_app. cbn. lia.
  - by rewrite length_insert.
  - rewrite inv_all_count0, Nat2Z.id, inv_heap_length0.
    erewrite take_S_r.
    + rewrite take_insert_ge, inv_all0 by lia.
      rewrite seq_S, fmap_app. done.
    + apply list_lookup_insert_eq. lia.
  - intros i b Hi'. destruct (decide (i < length h)%nat) as [Hlt'|Hge].
    + rewrite lookup_app_l in Hi' by done. by apply inv_ids0.
    + rewrite lookup_app_r in Hi' by lia.
      destruct (i - length h)%nat as [|k] eqn:Hk; [|done].
      cbn in Hi'. simplify_eq. split; [|done].
      rewrite Hid, inv_all_count0. lia.
  - intros q Hq. by apply elem_of_nil in Hq.
Qed.

Lemma pool_inv_GetBuffer y uv w r w' :
  pool_inv w -> GetBuffer y uv w = Some (r, w') -> pool_inv w'.
Proof.
  intros (n & free & Hinv) H. apply GetBuffer_inv in H.
  destruct H as [(Hne & q & b & b' & Hq & Hb & Hfin & Hm & Hh & _)
                |[(Hfc & Hlt & a & b' & Ha & Hfin & Hm & Hh & _)
                 |(_ & _ & Hm & Hh & _)]].
  - (* from the free list *)
    destruct (exists_last (l := free)) as (free0 & x & ->).
    { intros ->. apply Hne. by rewrite (inv_free_count _ _ _ _ Hinv). }
    apply pool_inv_at_pop in Hinv as (Hx & Hnot & (bx & Hbx & Hzero) & Hinv').
    rewrite Hq in Hx. simplify_eq.
    apply finished_fields in Hfin as (Hid & Hrc).
    exists n, free0. rewrite Hm, Hh.
    eapply pool_inv_at_update; [done|done|done|lia|done].
  - (* created *)
    assert (free = []) as ->.
    { rewrite (inv_free_count _ _ _ _ Hinv) in Hfc.
      destruct free; [done|cbn in Hfc; lia]. }
    apply finished_fields in Hfin as (Hid & Hrc). cbn in Hid, Hrc.
    exists (S n), []. rewrite Hm, Hh.
    eapply pool_inv_at_create; [done|done|done|done|lia].
  - exists n, free. by rewrite Hm, Hh.
Qed.

Lemma pool_inv_ReleaseBuffer id w r w' :
  pool_inv w -> ReleaseBuffer id w = Some (r, w') -> pool_inv w'.
Proof.
  intros (n & free & Hinv) H. apply ReleaseBuffer_inv in H.
  destruct H as (q & b & Hq & Hb & H).
  destruct (inv_ids _ _ _ _ Hinv q b Hb) as (_ & Hpos).
  assert (reference_count_ b <> 0 -> q ∉ free) as Hnot.
  { intros Hne Hin.
    destruct (inv_free_refs _ _ _ _ Hinv q Hin) as (b0 & Hb0 & Hz).
    by simplify_eq. }
  destruct H as [(_ & _ & Hm & Hh & _)
                |[(Hz & Hone & _ & _ & Hm & Hh & _)
                 |(Hone & _ & f & Hf & Hm & Hh & _)]].
  - exists n, free. by rewrite Hm, Hh.
  - exists n, free. rewrite Hm, Hh.
    eapply pool_inv_at_update; [done|done|done|cbn; lia|].
    intros Hin. by destruct (Hnot Hz).
  - apply array_set_Some in Hf as (_ & ->).
    assert (pool_inv_at n free (manager w)
              (<[q := set_reference_count b 0]> (heap w))) as Hinv'.
    { eapply pool_inv_at_update; [done|done|done|done|done]. }
    exists n, (free ++ [q]). rewrite Hm, Hh.
    eapply (pool_inv_at_push n free q (set_reference_count b 0));
      [done| |done|apply Hnot; lia].
    apply list_lookup_insert_eq. by eapply lookup_lt_Some.
Qed.

Lemma pool_inv_AddBufferReference id w r w' :
  pool_inv w -> in_use w id = true ->
  AddBufferReference id w = Some (r, w') -> pool_inv w'.
Proof.
  intros (n & free & Hinv) Huse H. apply AddBufferReference_inv in H.
  destruct H as (q & b & Hq & Hb & _ & Hm & Hh & _).
  unfold in_use, buffer_at in Huse. rewrite Hq, Hb in Huse.
  apply andb_true_iff in Huse as (_ & Huse). unfold InUse in Huse.
  zify_tests.
  destruct (inv_ids _ _ _ _ Hinv q b Hb) as (_ & Hpos).
  exists n, free. rewrite Hm, Hh.
  eapply pool_inv_at_update; [done|done|done|cbn; lia|].
  intros Hin. destruct (inv_free_refs _ _ _ _ Hinv q Hin) as (b0 & Hb0 & Hz).
  by simplify_eq.
Qed.

Lemma pool_inv_GetBuffer_id id w q w' :
  pool_inv w -> GetBuffer_id id w = Some (q, w') -> pool_inv w'.
Proof.
  intros (n & free & Hinv) H.
  apply GetBuffer_id_inv in H as (_ & Hm & Hh & _).
  exists n, free. by rewrite Hm, Hh.
Qed.

Lemma pool_inv_calls cs : forall w w',
  pool_inv w -> disciplined cs w -> calls cs w = Some (tt, w') -> pool_inv w'.
Proof.
  induction cs as [|c cs IH]; intros w w' Hinv Hd H.
  - cbn in H. unfold ret in H. by simplify_eq.
  - cbn [calls] in H. apply bind_Some in H as (a & w1 & H1 & H).
    cbn [disciplined] in Hd. destruct Hd as (Hc & Hd). rewrite H1 in Hd.
    apply (IH w1 w'); [|done|done].
    pose proof (call_inv _ _ _ _ H1) as Hcall. destruct c.
    + destruct Hcall as (r' & Hcall). by eapply pool_inv_GetBuffer.
    + destruct Hcall as (q & Hcall). by eapply pool_inv_GetBuffer_id.
    + by eapply pool_inv_AddBufferReference.
    + destruct Hcall as (r' & Hcall). by eapply pool_inv_ReleaseBuffer.
Qed.

Lemma pool_inv_ok w : pool_inv w -> pool_ok w.
Proof.
  intros (n & free & Hinv). pose proof (inv_free_bound Hinv) as Hbound.
  pose proof Hinv as []. unfold pool_ok. cbn zeta.
  split; [lia|]. split; [unfold kMaxFrames in *; lia|]. split.
  - intros j Hj.
    destruct (inv_free_get Hinv j) as (q & Hq & Hin); [lia|].
    destruct (inv_free_refs0 q) as (b & Hb & Hz).
    { by eapply list_elem_of_lookup_2. }
    eauto.
  - intros i Hi.
    pose proof (inv_all_get Hinv i) as Hq.
    destruct (heap w !! Z.to_nat i) as [b|] eqn:Hb.
    + exists (Z.to_nat i), b. split; [|split; [done|]].
      * unfold GetBuffer_id. mrun. rewrite Hq by lia. done.
      * unfold BufferPrivateData.
        destruct (inv_ids0 _ _ Hb) as (-> & _). lia.
    + apply lookup_ge_None in Hb. lia.
Qed.

(** In a pool that satisfies its invariant every id below
    [all_buffer_count_] names a frame buffer with a non-negative count, and
    the free array has room for every buffer that is in use. *)
Lemma pool_inv_created w id :
  pool_inv w -> 0 <= id < all_buffer_count_ (manager w) ->
  exists q b,
    array_get (all_buffers_ (manager w)) id = Some (Some q) /\
    heap w !! q = Some b /\ id_ b = id /\ 0 <= reference_count_ b /\
    (reference_count_ b <> 0 ->
     0 <= free_buffer_count_ (manager w)
       < Z.of_nat (length (free_buffers_ (manager w)))).
Proof.
  intros (n & free & Hinv) Hid. pose proof Hinv as [].
  pose proof (inv_all_get Hinv id) as Hq.
  destruct (heap w !! Z.to_nat id) as [b|] eqn:Hb.
  2:{ apply lookup_ge_None in Hb. lia. }
  destruct (inv_ids0 _ _ Hb) as (Hidb & Hpos).
  exists (Z.to_nat id), b. split; [apply Hq; lia|].
  split; [done|]. split; [lia|]. split; [done|].
  intros Hne.
  assert (Z.to_nat id ∉ free) as Hnot.
  { intros Hin. destruct (inv_free_refs0 _ Hin) as (b0 & Hb0 & Hz).
    unfold ptr in *. congruence. }
  assert (length free < n)%nat as Hroom
    by (apply (inv_free_room Hinv (Z.to_nat id)); [lia|done]).
  unfold kMaxFrames, ptr in *. lia.
Qed.

(** The methods are defined on such a pool: [GetBuffer] always,
    [ReleaseBuffer] for every id of a created buffer. *)
Lemma reallocate_plane_defined q i n w b :
  heap w !! q = Some b -> 0 <= i <= 2 ->
  exists ok w', reallocate_plane q i n w = Some (ok, w').
Proof.
  intros Hb Hi. unfold reallocate_plane. mrun. rewrite Hb.
  assert (i = 0 \/ i = 1 \/ i = 2) as [-> | [-> | ->]] by lia;
    cbn [get3 set3 Z.eqb Pos.eqb];
    destruct (size_ge _ n); try (eexists _, _; reflexivity);
    destruct (n <? 0); try destruct (allocator w) as [|[] rest];
    cbn [heap]; rewrite ?Hb; eexists _, _; reflexivity.
Qed.

Lemma updates_at_lookup q w w' R :
  updates_at q w w' R -> exists b', heap w' !! q = Some b'.
Proof.
  intros (_ & _ & b & b' & Hb & _ & ->). exists b'.
  apply list_lookup_insert_eq. by eapply lookup_lt_Some.
Qed.

Lemma MaybeReallocateGav1DataPlanes_defined q y uv w b :
  heap w !! q = Some b ->
  exists ok w', MaybeReallocateGav1DataPlanes q y uv w = Some (ok, w').
Proof.
  intros Hb. unfold MaybeReallocateGav1DataPlanes, kPlaneY, kPlaneU, kPlaneV.
  destruct (reallocate_plane_defined q 0 y w b Hb) as (ok1 & w1 & H1); [lia|].
  unfold bind at 1. rewrite H1.
  destruct ok1; cbn [negb]; [|eexists _, _; reflexivity].
  apply reallocate_plane_inv, updates_at_lookup in H1 as (b1 & Hb1).
  destruct (reallocate_plane_defined q 1 uv w1 b1 Hb1) as (ok2 & w2 & H2);
    [lia|].
  unfold bind at 1. rewrite H2.
  destruct ok2; cbn [negb]; [|eexists _, _; reflexivity].
  apply reallocate_plane_inv, updates_at_lookup in H2 as (b2 & Hb2).
  destruct (reallocate_plane_defined q 2 uv w2 b2 Hb2) as (ok3 & w3 & H3);
    [lia|].
  unfold bind at 1. rewrite H3.
  destruct ok3; cbn [negb]; eexists _, _; reflexivity.
Qed.

Lemma GetBuffer_finish_defined q y uv w b :
  heap w !! q = Some b -> reference_count_ b < INT_MAX ->
  exists r w', GetBuffer_finish q y uv w = Some (r, w').
Proof.
  intros Hb Hrc. unfold GetBuffer_finish.
  destruct (MaybeReallocateGav1DataPlanes_defined q (to_int y) (to_int uv)
              w b Hb) as (ok & w1 & H1).
  unfold bind at 1. rewrite H1.
  destruct ok; cbn [negb]; [|eexists _, _; reflexivity].
  apply MaybeReallocateGav1DataPlanes_inv in H1
    as (_ & _ & b0 & b1 & Hb0 & Hsame & Hh).
  rewrite Hb in Hb0. injection Hb0 as <-. mrun. rewrite Hh.
  rewrite list_lookup_insert_eq by (by eapply lookup_lt_Some).
  unfold AddReference.
  assert (reference_count_ b1 = reference_count_ b) as ->
    by (rewrite Hsame; by destruct b).
  destruct (Z.ltb_spec (reference_count_ b) INT_MAX); [|lia].
  cbn [heap]. rewrite Hh.
  rewrite list_lookup_insert_eq by (by eapply lookup_lt_Some).
  eexists _, _; reflexivity.
Qed.

Lemma GetBuffer_defined y uv w :
  pool_inv w -> exists r w', GetBuffer y uv w = Some (r, w').
Proof.
  intros (n & free & Hinv). pose proof Hinv as [].
  unfold GetBuffer. mrun.
  destruct (Z.eqb_spec (free_buffer_count_ (manager w)) 0) as [Hfc|Hfc];
    msimpl.
  - destruct (Z.ltb_spec (all_buffer_count_ (manager w)) kMaxFrames)
      as [Hlt|]; [|eexists _, _; reflexivity].
    assert (forall x : option ptr,
              array_set (all_buffers_ (manager w))
                (all_buffer_count_ (manager w)) x
              = Some (<[Z.to_nat (all_buffer_count_ (manager w)) := x]>
                        (all_buffers_ (manager w)))) as Hset.
    { intros x. unfold array_set, kMaxFrames in *.
      destruct (Z.leb_spec 0 (all_buffer_count_ (manager w))); [|lia].
      destruct (Z.ltb_spec (all_buffer_count_ (manager w))
                  (Z.of_nat (length (all_buffers_ (manager w))))); [|lia].
      done. }
    destruct (allocator w) as [|[] rest]; msimpl;
      try (eexists _, _; reflexivity);
      rewrite Hset; msimpl;
      match goal with
      | |- context [GetBuffer_finish ?q ?y ?uv ?w1] =>
          destruct (GetBuffer_finish_defined q y uv w1
                      (new_JniFrameBuffer (all_buffer_count_ (manager w))))
            as (r & w2 & ->);
          [cbn [heap]; rewrite lookup_app_r, Nat.sub_diag by done; done
          |done
          |eexists _, _; reflexivity]
      end.
  - destruct (inv_free_get Hinv (free_buffer_count_ (manager w) - 1))
      as (q & Hq & Hin); [lia|].
    rewrite Hq. msimpl.
    destruct (inv_free_refs0 q) as (b & Hb & Hz).
    { by eapply list_elem_of_lookup_2. }
    match goal with
    | |- context [GetBuffer_finish ?q ?y ?uv ?w1] =>
        destruct (GetBuffer_finish_defined q y uv w1 b) as (r & w2 & ->);
        [done|rewrite Hz; done|eexists _, _; reflexivity]
    end.
Qed.

Lemma ReleaseBuffer_defined id w :
  pool_inv w -> 0 <= id < all_buffer_count_ (manager w) ->
  exists r w', ReleaseBuffer id w = Some (r, w').
Proof.
  intros Hinv Hid.
  destruct (pool_inv_created w id Hinv Hid)
    as (q & b & Hq & Hb & _ & Hpos & Hroom).
  unfold ReleaseBuffer. mrun. rewrite Hq. cbn [heap]. rewrite Hb.
  unfold InUse at 1.
  destruct (Z.eqb_spec (reference_count_ b) 0) as [Hz|Hz]; cbn [negb];
    [eexists _, _; reflexivity|].
  unfold RemoveReference.
  destruct (Z.ltb_spec INT_MIN (reference_count_ b));
    [|unfold INT_MIN in *; lia].
  cbn [heap]. rewrite Hb. cbn [heap].
  rewrite list_lookup_insert_eq by (by eapply lookup_lt_Some).
  unfold InUse. cbn [reference_count_ set_reference_count].
  destruct (Z.eqb_spec (reference_count_ b - 1) 0); cbn [negb];
    [|eexists _, _; reflexivity].
  cbn [manager heap allocator events all_buffers_ all_buffer_count_
       free_buffers_ free_buffer_count_].
  unfold array_set. specialize (Hroom Hz).
  destruct (Z.leb_spec 0 (free_buffer_count_ (manager w))); [|lia].
  destruct (Z.ltb_spec (free_buffer_count_ (manager w))
              (Z.of_nat (length (free_buffers_ (manager w))))); [|lia].
  cbn [andb]. eexists _, _; reflexivity.
Qed.

(** C8, as stated, fails: a reference added to a buffer that sits on the
    free list leaves a free buffer with a non-zero count, and releasing it
    again puts it on the free list twice, so that [free_buffer_count_]
    exceeds [all_buffer_count_]. *)
Lemma stray_reference_breaks_pool_ok :
  exists w',
    calls stray_reference (new_World []) = Some (tt, w') /\
    all_buffer_count_ (manager w') = 1 /\
    free_buffer_count_ (manager w') = 2 /\
    ~ pool_ok w'.
Proof.
  eexists. split; [vm_compute; reflexivity|].
  split; [reflexivity|]. split; [reflexivity|].
  intros ((_ & Hle) & _). cbn in Hle. lia.
Qed.

(** C8, amended. Every sequence of calls of [GetBuffer], [GetBuffer(id)],
    [AddBufferReference] and [ReleaseBuffer] on the empty pool in which each
    [AddBufferReference] names a buffer that is in use keeps
    [0 <= free_buffer_count_ <= all_buffer_count_ <= 32], every buffer on
    the free list at reference count zero, and the id of every created
    buffer equal to its index in [all_buffers_], so that [GetBuffer(id)]
    returns the buffer whose [BufferPrivateData] is [id]. *)
Theorem pool_ok_preserved (allocator : list bool) (cs : list Call)
    (w' : World) :
  disciplined cs (new_World allocator) ->
  calls cs (new_World allocator) = Some (tt, w') ->
  pool_ok w'.
Proof.
  intros Hd H. apply pool_inv_ok.
  eapply pool_inv_calls; [apply pool_inv_new_World|done|done].
Qed.

Lemma pool_ok_preserved_witness : pool_ok (world_after shared_buffers).
Proof.
  apply (pool_ok_preserved [] shared_buffers (world_after shared_buffers)).
  - vm_compute. repeat split.
  - vm_compute. reflexivity.
Defined.

(** ** The mutex (C7) *)

(** C7, as stated, fails: [GetBuffer(int id)] reads [all_buffers_[id]]
    without taking [mutex_]. *)
Lemma GetBuffer_id_reads_without_mutex :
  exists q w',
    GetBuffer_id 0 one_buffer_world = Some (q, w') /\
    events w' = events one_buffer_world ++ [Read m_all_buffers] /\
    mutex_discipline false [Read m_all_buffers] = None.
Proof. eexists _, _. split; [vm_compute; reflexivity|]. split; reflexivity. Qed.

(** C7, amended. [GetBuffer] by size, [AddBufferReference] and
    [ReleaseBuffer] hold [mutex_] from before their first access to
    [all_buffers_], [free_buffers_] and the two counts until after the last
    one, on every path: the events a call adds start with taking the mutex,
    end with dropping it, and between the two there are only reads and
    writes, so the mutex is not dropped and taken again on the way.
    [GetBuffer(int id)] makes its one read of [all_buffers_] without the
    mutex. *)
Theorem methods_mutex_discipline (w : World) :
  (forall y uv r w',
     GetBuffer y uv w = Some (r, w') ->
     exists t, events w' = events w ++ t /\
               locked_throughout t = true /\
               mutex_discipline false t = Some false) /\
  (forall id r w',
     AddBufferReference id w = Some (r, w') ->
     exists t, events w' = events w ++ t /\
               locked_throughout t = true /\
               mutex_discipline false t = Some false) /\
  (forall id r w',
     ReleaseBuffer id w = Some (r, w') ->
     exists t, events w' = events w ++ t /\
               locked_throughout t = true /\
               mutex_discipline false t = Some false) /\
  (forall id q w',
     GetBuffer_id id w = Some (q, w') ->
     events w' = events w ++ [Read m_all_buffers]).
Proof.
  split; [|split; [|split]].
  - intros y uv r w' H. apply GetBuffer_inv in H.
    destruct H as [(_ & q & b & b' & _ & _ & _ & _ & _ & He)
                  |[(_ & _ & a & b' & _ & _ & _ & _ & He)
                   |(_ & _ & _ & _ & [(_ & He)|(_ & He)])]];
      eexists; (split; [exact He|split; reflexivity]).
  - intros id r w' H. apply AddBufferReference_inv in H.
    destruct H as (q & b & _ & _ & _ & _ & _ & He).
    eexists; (split; [exact He|split; reflexivity]).
  - intros id r w' H. apply ReleaseBuffer_inv in H.
    destruct H as (q & b & _ & _ & [(_ & _ & _ & _ & He)
                                   |[(_ & _ & _ & _ & _ & _ & He)
                                    |(_ & _ & f & _ & _ & _ & He)]]);
      eexists; (split; [exact He|split; reflexivity]).
  - intros id q w' H. by apply GetBuffer_id_inv in H as (_ & _ & _ & He).
Qed.

Lemma methods_mutex_discipline_witness :
  exists t,
    events released_world = events one_buffer_world ++ t /\
    locked_throughout t = true /\
    mutex_discipline false t = Some false.
Proof.
  apply (proj1 (proj2 (proj2 (methods_mutex_discipline one_buffer_world)))
           0 kJniStatusOk released_world).
  vm_compute. reflexivity.
Defined.

(** [locked_throughout] is not satisfied by a trace without events, nor by
    one that drops the mutex between two accesses. *)
Example locked_throughout_values :
  locked_throughout [] = false /\
  locked_throughout [Lock; Read m_all_buffers; Unlock; Lock;
                     Write m_all_buffers; Unlock] = false /\
  locked_throughout [Lock; Read m_all_buffers; Write m_all_buffers; Unlock]
  = true.
Proof. repeat split. Qed.

(** ** Releasing a frame twice (C9) *)

(** C9. [gav1ReleaseFrame] leaves -1 in [decoderPrivate]; when the field it
    read is negative it returns without touching the process, the pool
    included; so a second call on the same output buffer changes nothing at
    all: the pool, [jni_status_code] and the log stay as the first call left
    them, and no [kJniStatusBufferAlreadyReleased] comes out of it. *)
Theorem gav1ReleaseFrame_idempotent (pr pr1 : Process)
    (jOutputBuffer jOutputBuffer1 : OutputBuffer) :
  gav1ReleaseFrame pr jOutputBuffer = Some (pr1, jOutputBuffer1) ->
  jOutputBuffer1 = set_decoderPrivate jOutputBuffer (-1) /\
  (decoderPrivate jOutputBuffer < 0 -> pr1 = pr) /\
  gav1ReleaseFrame pr1 jOutputBuffer1 = Some (pr1, jOutputBuffer1).
Proof.
  intros H.
  assert (jOutputBuffer1 = set_decoderPrivate jOutputBuffer (-1)) as ->.
  { unfold gav1ReleaseFrame in H.
    destruct (decoderPrivate jOutputBuffer <? 0); [by simplify_eq|].
    destruct (ReleaseBuffer _ _) as [[code pool']|]; [|done].
    cbn in H. destruct (negb _); by simplify_eq. }
  split; [done|]. split.
  - intros Hneg. unfold gav1ReleaseFrame in H.
    destruct (Z.ltb_spec (decoderPrivate jOutputBuffer) 0); [|lia].
    by simplify_eq.
  - reflexivity.
Qed.

Lemma gav1ReleaseFrame_idempotent_witness :
  released_frame.2 = set_decoderPrivate private_frame (-1) /\
  (decoderPrivate private_frame < 0 -> released_frame.1 = one_buffer_process) /\
  gav1ReleaseFrame released_frame.1 released_frame.2
    = Some (released_frame.1, released_frame.2).
Proof.
  apply (gav1ReleaseFrame_idempotent one_buffer_process released_frame.1
           private_frame released_frame.2).
  vm_compute. reflexivity.
Defined.

(** ** From a decoded picture to a frame buffer (C5) *)

Lemma to_int_id z : in_int z -> to_int z = z.
Proof.
  unfold in_int, INT_MIN, INT_MAX, to_int. intros Hz.
  rewrite Z.mod_small by lia. lia.
Qed.

(** C5, as stated, fails: the elements of [stride_] are [int], the
    picture's strides are [ptrdiff_t], and the assignment narrows them. For
    the strides 2^31 and 2^32 + 7 the strides stored are -2^31, 7 and 7,
    not the picture's. *)
Lemma SetFrameData_narrows_strides :
  exists b',
    SetFrameData wide_picture (new_JniFrameBuffer 0) = Some b' /\
    Stride b' 0 = Some (- 2 ^ 31) /\
    Stride b' 1 = Some 7 /\
    Stride b' 2 = Some 7 /\
    Stride b' 0 <> Some (elt2_0 (DAV1D_API.stride wide_picture)) /\
    Stride b' 1 <> Some (elt2_1 (DAV1D_API.stride wide_picture)) /\
    Stride b' 2 <> Some (elt2_1 (DAV1D_API.stride wide_picture)).
Proof.
  eexists. split; [reflexivity|].
  repeat split; vm_compute; discriminate.
Qed.

(** C5, amended. For every picture and every frame buffer, [SetFrameData]
    sets the displayed width and height of the luma plane to the picture's
    [w] and [h], those of the two chroma planes to [w / 2] and [h / 2] (the
    division of C++, which truncates), each plane pointer to the picture's
    [data] pointer of that plane, and the strides of planes 0, 1 and 2 to
    [stride[0]], [stride[1]] and [stride[1]] narrowed from [ptrdiff_t] to
    [int]: the picture's own strides whenever they fit an [int]. The id and
    the reference count are not touched. *)
Theorem SetFrameData_sets_planes (decoder_buffer : Dav1dPicture)
    (b : JniFrameBuffer) :
  exists b',
    SetFrameData decoder_buffer b = Some b' /\
    DisplayedWidth b' kPlaneY = Some (DAV1D_API.w (DAV1D_API.p decoder_buffer)) /\
    DisplayedHeight b' kPlaneY = Some (DAV1D_API.h (DAV1D_API.p decoder_buffer)) /\
    DisplayedWidth b' kPlaneU
      = Some (DAV1D_API.w (DAV1D_API.p decoder_buffer) ÷ 2) /\
    DisplayedHeight b' kPlaneU
      = Some (DAV1D_API.h (DAV1D_API.p decoder_buffer) ÷ 2) /\
    DisplayedWidth b' kPlaneV
      = Some (DAV1D_API.w (DAV1D_API.p decoder_buffer) ÷ 2) /\
    DisplayedHeight b' kPlaneV
      = Some (DAV1D_API.h (DAV1D_API.p decoder_buffer) ÷ 2) /\
    Stride b' 0 = Some (to_int (elt2_0 (DAV1D_API.stride decoder_buffer))) /\
    Stride b' 1 = Some (to_int (elt2_1 (DAV1D_API.stride decoder_buffer))) /\
    Stride b' 2 = Some (to_int (elt2_1 (DAV1D_API.stride decoder_buffer))) /\
    (in_int (elt2_0 (DAV1D_API.stride decoder_buffer)) ->
     Stride b' 0 = Some (elt2_0 (DAV1D_API.stride decoder_buffer))) /\
    (in_int (elt2_1 (DAV1D_API.stride decoder_buffer)) ->
     Stride b' 1 = Some (elt2_1 (DAV1D_API.stride decoder_buffer)) /\
     Stride b' 2 = Some (elt2_1 (DAV1D_API.stride decoder_buffer))) /\
    Plane b' 0 = Some (elt3_0 (DAV1D_API.data decoder_buffer)) /\
    Plane b' 1 = Some (elt3_1 (DAV1D_API.data decoder_buffer)) /\
    Plane b' 2 = Some (elt3_2 (DAV1D_API.data decoder_buffer)) /\
    id_ b' = id_ b /\ reference_count_ b' = reference_count_ b.
Proof.
  eexists. split; [reflexivity|]. cbn.
  repeat match goal with |- _ /\ _ => split end; try done;
    intros Hfit; rewrite !to_int_id by done; done.
Qed.

Lemma SetFrameData_sets_planes_witness :
  exists b',
    SetFrameData small_picture (new_JniFrameBuffer 0) = Some b' /\
    DisplayedWidth b' kPlaneY = Some 16 /\
    DisplayedHeight b' kPlaneY = Some 4 /\
    DisplayedWidth b' kPlaneU = Some (16 ÷ 2) /\
    DisplayedHeight b' kPlaneU = Some (4 ÷ 2) /\
    DisplayedWidth b' kPlaneV = Some (16 ÷ 2) /\
    DisplayedHeight b' kPlaneV = Some (4 ÷ 2) /\
    Stride b' 0 = Some 16 /\
    Stride b' 1 = Some 8 /\
    Stride b' 2 = Some 8 /\
    Plane b' 0 = Some 1000 /\
    Plane b' 1 = Some 2000 /\
    Plane b' 2 = Some 3000 /\
    id_ b' = 0 /\ reference_count_ b' = 0.
Proof.
  destruct (SetFrameData_sets_planes small_picture (new_JniFrameBuffer 0))
    as (b' & Hset & Hwy & Hhy & Hwu & Hhu & Hwv & Hhv & _ & _ & _ & Hs0
        & Hs1 & Hp0 & Hp1 & Hp2 & Hid & Hrc).
  assert (in_int (elt2_0 (DAV1D_API.stride small_picture))) as Hfit0
    by (unfold in_int, INT_MIN, INT_MAX; cbn; lia).
  assert (in_int (elt2_1 (DAV1D_API.stride small_picture))) as Hfit1
    by (unfold in_int, INT_MIN, INT_MAX; cbn; lia).
  destruct (Hs1 Hfit1) as [Hs1' Hs2']. specialize (Hs0 Hfit0).
  exists b'. repeat split; assumption.
Defined.

(** ** The layout on the native window (C6) *)

(** [AlignTo16] rounds up to the next multiple of 16. *)
Lemma AlignTo16_spec value :
  AlignTo16 value = (value + 15) / 16 * 16 /\
  AlignTo16 value mod 16 = 0 /\
  value <= AlignTo16 value < value + 16.
Proof.
  assert (AlignTo16 value = (value + 15) / 16 * 16) as Heq.
  { unfold AlignTo16. rewrite <- Z.ldiff_land.
    change 15 with (Z.ones 4) at 2.
    rewrite Z.ldiff_ones_r, Z.shiftl_mul_pow2, Z.shiftr_div_pow2 by lia.
    done. }
  rewrite Heq. split; [done|]. split.
  - apply Z.mod_mul. lia.
  - pose proof (Z.div_mod (value + 15) 16).
    pose proof (Z.mod_pos_bound (value + 15) 16). lia.
Qed.

Example AlignTo16_values :
  map AlignTo16 [0; 1; 8; 16; 17; 360] = [0; 16; 16; 16; 32; 368].
Proof. reflexivity. Qed.

Example to_int_values :
  map to_int [5; -5; 2 ^ 31 - 1; 2 ^ 31; 2 ^ 32 + 7] = [5; -5; 2 ^ 31 - 1; - 2 ^ 31; 7].
Proof. reflexivity. Qed.

Lemma gav1RenderFrame_Ok env pr jSurface jOutputBuffer pr' :
  gav1RenderFrame env pr jSurface jOutputBuffer = Some (kStatusOk, pr') ->
  exists q b nwb,
    array_get (all_buffers_ (manager (pool (context pr))))
      (decoderPrivate jOutputBuffer) = Some (Some q) /\
    heap (pool (context pr)) !! q = Some b /\
    ANativeWindow_lock env (native_window (context pr')) = (0, nwb) /\
    bits nwb <> 0 /\
    render_planes b nwb (memory pr) = Some (memory pr').
Proof.
  intros H. unfold gav1RenderFrame in H.
  destruct (GetBuffer_id _ _) as [[q pool']|] eqn:Hq; [|done].
  apply GetBuffer_id_inv in Hq as (Hq & Hm & Hh & _).
  cbn [mbind option_bind] in H.
  destruct (MaybeAcquireNativeWindow _ _ _) as [acquired c] eqn:Hacq.
  destruct acquired; cbn [negb] in H; [|done].
  unfold deref in H. rewrite Hh in H.
  destruct (heap (pool (context pr)) !! q) as [b|] eqn:Hb; [|done].
  cbn [mbind option_bind] in H.
  exists q, b.
  cbn [DisplayedWidth DisplayedHeight get3 kPlaneY Z.eqb mbind option_bind]
    in H.
  match type of H with
  | match ?g with _ => _ end = _ => destruct g as [c1|c1] eqn:Hg; [done|]
  end.
  destruct (ANativeWindow_lock env (native_window c1)) as [lock_result nwb]
    eqn:Hlock.
  destruct (Z.eqb_spec lock_result 0) as [->|]; cbn [negb orb] in H; [|done].
  destruct (Z.eqb_spec (bits nwb) 0) as [|Hbits]; [done|].
  destruct (render_planes b nwb (memory pr)) as [mem|] eqn:Hrender; [|done].
  cbn [mbind option_bind] in H.
  destruct (negb (ANativeWindow_unlockAndPost _ _ =? 0)); [done|].
  simplify_eq. cbn. exists nwb. done.
Qed.

Lemma copy_bytes_read n : forall destination source from mem a,
  read8 (copy_bytes n destination source from mem) a
  = if (destination <=? a) && (a <? destination + Z.of_nat n)
    then read8 from (source + (a - destination))
    else read8 mem a.
Proof.
  induction n as [|n IH]; intros destination source from mem a.
  - cbn [copy_bytes].
    destruct (Z.leb_spec destination a),
             (Z.ltb_spec a (destination + Z.of_nat 0)); cbn; done || lia.
  - cbn [copy_bytes]. unfold write8, read8 at 1.
    destruct (decide (a = destination)) as [->|Hne].
    + rewrite lookup_insert_eq.
      destruct (Z.leb_spec destination destination),
               (Z.ltb_spec destination (destination + Z.of_nat (S n)));
        try lia.
      cbn [andb]. f_equal. lia.
    + rewrite lookup_insert_ne by done.
      fold (read8 (copy_bytes n (destination + 1) (source + 1) from mem) a).
      rewrite IH.
      destruct (Z.leb_spec (destination + 1) a),
               (Z.ltb_spec a (destination + 1 + Z.of_nat n)),
               (Z.leb_spec destination a),
               (Z.ltb_spec a (destination + Z.of_nat (S n)));
        cbn [andb]; try lia; try done.
      f_equal. lia.
Qed.

Lemma memcpy_Some destination source n mem mem' :
  memcpy destination source n mem = Some mem' ->
  0 <= n /\
  forall a, read8 mem' a
            = if (destination <=? a) && (a <? destination + n)
              then read8 mem (source + (a - destination))
              else read8 mem a.
Proof.
  unfold memcpy. intros H.
  destruct (Z.ltb_spec n 0); cbn [orb] in H; [done|].
  destruct (_ && _); [done|]. simplify_eq. split; [done|].
  intros a. rewrite copy_bytes_read, Z2Nat.id by done. done.
Qed.

(** What [CopyPlane] leaves in memory when the rows of the destination do
    not overlap and the source lies outside the destination block: row [r]
    of the source, [width] bytes from [source + r * source_stride], is at
    [destination + r * destination_stride], and nothing outside the block
    changes. *)
Lemma CopyPlane_rows_copies rows : forall source source_stride destination
    destination_stride width mem mem',
  CopyPlane_rows rows source source_stride destination destination_stride
    width mem = Some mem' ->
  0 <= width <= destination_stride ->
  (forall r c, 0 <= r < Z.of_nat rows -> 0 <= c < width ->
     ~ (destination <= source + r * source_stride + c
        < destination + Z.of_nat rows * destination_stride)) ->
  (forall r c, 0 <= r < Z.of_nat rows -> 0 <= c < width ->
     read8 mem' (destination + r * destination_stride + c)
     = read8 mem (source + r * source_stride + c)) /\
  (forall a, ~ (destination <= a
                < destination + Z.of_nat rows * destination_stride) ->
     read8 mem' a = read8 mem a).
Proof.
  induction rows as [|rows IH];
    intros source ss destination ds width mem mem' H Hw Hsrc.
  - cbn in H. simplify_eq. split; [lia|done].
  - cbn [CopyPlane_rows] in H.
    destruct (memcpy destination source width mem) as [mem1|] eqn:Hcpy;
      [|done].
    apply memcpy_Some in Hcpy as (_ & Hmem1).
    apply IH in H as (Hrows & Hframe); [|done|].
    2:{ intros r c Hr Hc. specialize (Hsrc (r + 1) c). nia. }
    assert (forall r c, 0 <= r < Z.of_nat (S rows) -> 0 <= c < width ->
              read8 mem1 (source + r * ss + c)
              = read8 mem (source + r * ss + c))
      as Hkeep.
    { intros r c Hr Hc. rewrite Hmem1.
      destruct (Z.leb_spec destination (source + r * ss + c)); [|done].
      destruct (Z.ltb_spec (source + r * ss + c) (destination + width));
        [|done].
      specialize (Hsrc r c Hr Hc). nia. }
    split.
    + intros r c Hr Hc. destruct (decide (r = 0)) as [->|Hne].
      * rewrite Hframe by nia. rewrite Hmem1.
        destruct (Z.leb_spec destination (destination + 0 * ds + c)); [|lia].
        destruct (Z.ltb_spec (destination + 0 * ds + c) (destination + width));
          [|lia].
        cbn [andb]. f_equal. lia.
      * replace (destination + r * ds + c)
          with (destination + ds + (r - 1) * ds + c) by lia.
        rewrite Hrows by lia.
        replace (source + ss + (r - 1) * ss + c)
          with (source + r * ss + c) by lia.
        apply Hkeep; lia.
    + intros a Ha. rewrite Hframe by nia. rewrite Hmem1.
      destruct (Z.leb_spec destination a); [|done].
      destruct (Z.ltb_spec a (destination + width)); [|done].
      nia.
Qed.

Lemma render_planes_inv b nwb mem mem' :
  render_planes b nwb mem = Some mem' ->
  exists mem_y mem_v,
    CopyPlane (elt3_0 (plane_ b)) (elt3_0 (stride_ b))
      (bits nwb) (nwb_stride nwb)
      (elt3_0 (displayed_width_ b)) (elt3_0 (displayed_height_ b))
      mem = Some mem_y /\
    CopyPlane (elt3_2 (plane_ b)) (elt3_2 (stride_ b))
      (bits nwb + nwb_stride nwb * nwb_height nwb)
      (AlignTo16 (nwb_stride nwb ÷ 2))
      (elt3_2 (displayed_width_ b))
      (Z.min ((nwb_height nwb + 1) ÷ 2) (elt3_2 (displayed_height_ b)))
      mem_y = Some mem_v /\
    CopyPlane (elt3_1 (plane_ b)) (elt3_1 (stride_ b))
      (bits nwb + nwb_stride nwb * nwb_height nwb
       + Z.min ((nwb_height nwb + 1) ÷ 2) (elt3_2 (displayed_height_ b))
         * AlignTo16 (nwb_stride nwb ÷ 2))
      (AlignTo16 (nwb_stride nwb ÷ 2))
      (elt3_1 (displayed_width_ b))
      (Z.min ((nwb_height nwb + 1) ÷ 2) (elt3_1 (displayed_height_ b)))
      mem_v = Some mem'.
Proof.
  unfold render_planes, Plane, Stride, DisplayedWidth, DisplayedHeight.
  cbn [get3 kPlaneY kPlaneU kPlaneV Z.eqb Pos.eqb mbind option_bind].
  intros H.
  destruct (CopyPlane _ _ (bits nwb) _ _ _ mem) as [mem_y|] eqn:Hy; [|done].
  cbn [mbind option_bind] in H.
  unfold int_mul in H.
  destruct (in_intb (nwb_stride nwb * nwb_height nwb)); [|done].
  cbn [mbind option_bind] in H.
  destruct (CopyPlane _ _ _ _ _ _ mem_y) as [mem_v|] eqn:Hv; [|done].
  cbn [mbind option_bind] in H.
  destruct (in_intb _); [|done].
  cbn [mbind option_bind] in H.
  exists mem_y, mem_v. done.
Qed.

Lemma CopyPlane_copies source source_stride destination destination_stride
    width height mem mem' :
  CopyPlane source source_stride destination destination_stride width height
    mem = Some mem' ->
  0 <= width <= destination_stride ->
  (forall r c, 0 <= r < height -> 0 <= c < width ->
     ~ (destination <= source + r * source_stride + c
        < destination + height * destination_stride)) ->
  0 <= height /\
  (forall r c, 0 <= r < height -> 0 <= c < width ->
     read8 mem' (destination + r * destination_stride + c)
     = read8 mem (source + r * source_stride + c)) /\
  (forall a, ~ (destination <= a
                < destination + height * destination_stride) ->
     read8 mem' a = read8 mem a).
Proof.
  unfold CopyPlane. intros H Hw Hsrc.
  destruct (Z.ltb_spec height 0) as [|Hh]; [done|].
  split; [done|].
  apply CopyPlane_rows_copies in H; [|done|].
  - rewrite Z2Nat.id in H by done. done.
  - rewrite Z2Nat.id by done. done.
Qed.

Lemma CopyPlane_height source source_stride destination destination_stride
    width height mem mem' :
  CopyPlane source source_stride destination destination_stride width height
    mem = Some mem' -> 0 <= height.
Proof. unfold CopyPlane. by destruct (Z.ltb_spec height 0). Qed.

(** The bytes of a rendered frame, when the displayed planes fit the window
    buffer and the source planes lie outside it: each plane is found row by
    row at the place the layout gives it. *)
Lemma render_planes_bytes b nwb mem mem' :
  render_planes b nwb mem = Some mem' ->
  let stride := nwb_stride nwb in
  let height := nwb_height nwb in
  let uv_stride := AlignTo16 (stride ÷ 2) in
  let v_height := Z.min ((height + 1) ÷ 2) (elt3_2 (displayed_height_ b)) in
  let u_height := Z.min ((height + 1) ÷ 2) (elt3_1 (displayed_height_ b)) in
  let size := stride * height + (v_height + u_height) * uv_stride in
  0 <= elt3_0 (displayed_width_ b) <= stride ->
  elt3_0 (displayed_height_ b) <= height ->
  0 <= elt3_2 (displayed_width_ b) <= uv_stride ->
  0 <= elt3_1 (displayed_width_ b) <= uv_stride ->
  (forall r c, 0 <= r < elt3_0 (displayed_height_ b) ->
     0 <= c < elt3_0 (displayed_width_ b) ->
     ~ (bits nwb <= elt3_0 (plane_ b) + r * elt3_0 (stride_ b) + c
        < bits nwb + size)) ->
  (forall r c, 0 <= r < v_height -> 0 <= c < elt3_2 (displayed_width_ b) ->
     ~ (bits nwb <= elt3_2 (plane_ b) + r * elt3_2 (stride_ b) + c
        < bits nwb + size)) ->
  (forall r c, 0 <= r < u_height -> 0 <= c < elt3_1 (displayed_width_ b) ->
     ~ (bits nwb <= elt3_1 (plane_ b) + r * elt3_1 (stride_ b) + c
        < bits nwb + size)) ->
  (forall r c, 0 <= r < elt3_0 (displayed_height_ b) ->
     0 <= c < elt3_0 (displayed_width_ b) ->
     read8 mem' (bits nwb + r * stride + c)
     = read8 mem (elt3_0 (plane_ b) + r * elt3_0 (stride_ b) + c)) /\
  (forall r c, 0 <= r < v_height -> 0 <= c < elt3_2 (displayed_width_ b) ->
     read8 mem' (bits nwb + stride * height + r * uv_stride + c)
     = read8 mem (elt3_2 (plane_ b) + r * elt3_2 (stride_ b) + c)) /\
  (forall r c, 0 <= r < u_height -> 0 <= c < elt3_1 (displayed_width_ b) ->
     read8 mem'
       (bits nwb + stride * height + v_height * uv_stride
        + r * uv_stride + c)
     = read8 mem (elt3_1 (plane_ b) + r * elt3_1 (stride_ b) + c)).
Proof.
  intros H. apply render_planes_inv in H as (mem_y & mem_v & Hy & Hv & Hu).
  cbn zeta.
  set (S := nwb_stride nwb) in *. set (H := nwb_height nwb) in *.
  set (uvs := AlignTo16 (S ÷ 2)) in *.
  set (vh := Z.min ((H + 1) ÷ 2) (elt3_2 (displayed_height_ b))) in *.
  set (uh := Z.min ((H + 1) ÷ 2) (elt3_1 (displayed_height_ b))) in *.
  set (base := bits nwb) in *.
  intros Hwy Hhy Hwv Hwu Hsy Hsv Hsu.
  pose proof (CopyPlane_height _ _ _ _ _ _ _ _ Hy) as Hhy0.
  pose proof (CopyPlane_height _ _ _ _ _ _ _ _ Hv) as Hvh0.
  pose proof (CopyPlane_height _ _ _ _ _ _ _ _ Hu) as Huh0.
  apply CopyPlane_copies in Hy as (_ & Hy & Hfy); [|done|].
  2:{ intros r c Hr Hc Hin. apply (Hsy r c Hr Hc). nia. }
  apply CopyPlane_copies in Hv as (_ & Hv & Hfv); [|done|].
  2:{ intros r c Hr Hc Hin. apply (Hsv r c Hr Hc). nia. }
  apply CopyPlane_copies in Hu as (_ & Hu & Hfu); [|done|].
  2:{ intros r c Hr Hc Hin. apply (Hsu r c Hr Hc). nia. }
  split; [|split].
  - intros r c Hr Hc.
    rewrite Hfu by nia. rewrite Hfv by nia. by apply Hy.
  - intros r c Hr Hc.
    rewrite Hfu by nia. rewrite Hv by done.
    apply Hfy. intros Hin. apply (Hsv r c Hr Hc). nia.
  - intros r c Hr Hc.
    rewrite Hu by done. rewrite Hfv.
    + apply Hfy. intros Hin. apply (Hsu r c Hr Hc). nia.
    + intros Hin. apply (Hsu r c Hr Hc). nia.
Qed.

(** C6. A frame that [gav1RenderFrame] renders is laid out as YV12 in the
    locked window buffer: the Y plane is copied to offset 0 with the
    window's stride; the V plane to offset [stride * height] with the chroma
    stride [AlignTo16(stride / 2)]; the U plane right after the V plane, at
    [stride * height] plus the copied height of the V plane times the chroma
    stride; and the copied height of each chroma plane is the smaller of
    [(height + 1) / 2] and the displayed height of that plane. The memory
    after the call is what these three copies leave, and that pins the
    bytes of the window buffer: when the displayed planes fit the buffer
    and the planes of the frame lie outside it, byte [c] of row [r] of each
    plane is found at its place in this layout. *)
Theorem gav1RenderFrame_YV12_layout (env : Env) (pr pr' : Process)
    (jSurface : Z) (jOutputBuffer : OutputBuffer) :
  gav1RenderFrame env pr jSurface jOutputBuffer = Some (kStatusOk, pr') ->
  exists q b nwb mem_y mem_v,
    array_get (all_buffers_ (manager (pool (context pr))))
      (decoderPrivate jOutputBuffer) = Some (Some q) /\
    heap (pool (context pr)) !! q = Some b /\
    ANativeWindow_lock env (native_window (context pr')) = (0, nwb) /\
    let stride := nwb_stride nwb in
    let height := nwb_height nwb in
    let uv_stride := AlignTo16 (stride ÷ 2) in
    let v_height :=
      Z.min ((height + 1) ÷ 2) (elt3_2 (displayed_height_ b)) in
    let u_height :=
      Z.min ((height + 1) ÷ 2) (elt3_1 (displayed_height_ b)) in
    let size := stride * height + (v_height + u_height) * uv_stride in
    CopyPlane (elt3_0 (plane_ b)) (elt3_0 (stride_ b))
      (bits nwb + 0) stride
      (elt3_0 (displayed_width_ b)) (elt3_0 (displayed_height_ b))
      (memory pr) = Some mem_y /\
    CopyPlane (elt3_2 (plane_ b)) (elt3_2 (stride_ b))
      (bits nwb + stride * height) uv_stride
      (elt3_2 (displayed_width_ b)) v_height mem_y = Some mem_v /\
    CopyPlane (elt3_1 (plane_ b)) (elt3_1 (stride_ b))
      (bits nwb + stride * height + v_height * uv_stride) uv_stride
      (elt3_1 (displayed_width_ b)) u_height mem_v = Some (memory pr') /\
    (0 <= elt3_0 (displayed_width_ b) <= stride ->
     elt3_0 (displayed_height_ b) <= height ->
     0 <= elt3_2 (displayed_width_ b) <= uv_stride ->
     0 <= elt3_1 (displayed_width_ b) <= uv_stride ->
     (forall r c, 0 <= r < elt3_0 (displayed_height_ b) ->
        0 <= c < elt3_0 (displayed_width_ b) ->
        ~ (bits nwb <= elt3_0 (plane_ b) + r * elt3_0 (stride_ b) + c
           < bits nwb + size)) ->
     (forall r c, 0 <= r < v_height ->
        0 <= c < elt3_2 (displayed_width_ b) ->
        ~ (bits nwb <= elt3_2 (plane_ b) + r * elt3_2 (stride_ b) + c
           < bits nwb + size)) ->
     (forall r c, 0 <= r < u_height ->
        0 <= c < elt3_1 (displayed_width_ b) ->
        ~ (bits nwb <= elt3_1 (plane_ b) + r * elt3_1 (stride_ b) + c
           < bits nwb + size)) ->
     (forall r c, 0 <= r < elt3_0 (displayed_height_ b) ->
        0 <= c < elt3_0 (displayed_width_ b) ->
        read8 (memory pr') (bits nwb + 0 + r * stride + c)
        = read8 (memory pr)
            (elt3_0 (plane_ b) + r * elt3_0 (stride_ b) + c)) /\
     (forall r c, 0 <= r < v_height ->
        0 <= c < elt3_2 (displayed_width_ b) ->
        read8 (memory pr') (bits nwb + stride * height + r * uv_stride + c)
        = read8 (memory pr)
            (elt3_2 (plane_ b) + r * elt3_2 (stride_ b) + c)) /\
     (forall r c, 0 <= r < u_height ->
        0 <= c < elt3_1 (displayed_width_ b) ->
        read8 (memory pr')
          (bits nwb + stride * height + v_height * uv_stride
           + r * uv_stride + c)
        = read8 (memory pr)
            (elt3_1 (plane_ b) + r * elt3_1 (stride_ b) + c))).
Proof.
  intros H.
  apply gav1RenderFrame_Ok in H as (q & b & nwb & Hq & Hb & Hlock & _ & H).
  pose proof (render_planes_bytes _ _ _ _ H) as Hbytes.
  apply render_planes_inv in H as (mem_y & mem_v & Hy & Hv & Hu).
  exists q, b, nwb, mem_y, mem_v. cbn zeta in *. rewrite Z.add_0_r.
  split; [done|]. split; [done|]. split; [done|]. split; [done|].
  split; [done|]. split; [done|]. exact Hbytes.
Qed.

(** On the 16 by 4 frame of [small_picture], rendered into the 16 by 4
    window of [demo_env]: the three copies, and the bytes of the window
    buffer at 9000, where the 4 rows of 16 luma bytes are followed by the 2
    rows of 8 bytes of V, 16 bytes apart, and then by those of U. *)
Lemma gav1RenderFrame_YV12_layout_witness :
  exists q b nwb mem_y mem_v,
    array_get
      (all_buffers_ (manager (pool (context decoded_for_surface.1.2))))
      (decoderPrivate decoded_for_surface.2) = Some (Some q) /\
    heap (pool (context decoded_for_surface.1.2)) !! q = Some b /\
    ANativeWindow_lock demo_env (native_window (context rendered.2))
      = (0, nwb) /\
    CopyPlane (elt3_0 (plane_ b)) (elt3_0 (stride_ b))
      (bits nwb + 0) 16 16 4
      (memory decoded_for_surface.1.2) = Some mem_y /\
    CopyPlane (elt3_2 (plane_ b)) (elt3_2 (stride_ b))
      (bits nwb + 16 * 4) 16 8 2 mem_y = Some mem_v /\
    CopyPlane (elt3_1 (plane_ b)) (elt3_1 (stride_ b))
      (bits nwb + 16 * 4 + 2 * 16) 16 8 2 mem_v
      = Some (memory rendered.2) /\
    (forall r c, 0 <= r < 4 -> 0 <= c < 16 ->
       read8 (memory rendered.2) (9000 + 0 + r * 16 + c)
       = read8 (memory decoded_for_surface.1.2) (1000 + r * 16 + c)) /\
    (forall r c, 0 <= r < 2 -> 0 <= c < 8 ->
       read8 (memory rendered.2) (9000 + 16 * 4 + r * 16 + c)
       = read8 (memory decoded_for_surface.1.2) (3000 + r * 8 + c)) /\
    (forall r c, 0 <= r < 2 -> 0 <= c < 8 ->
       read8 (memory rendered.2) (9000 + 16 * 4 + 2 * 16 + r * 16 + c)
       = read8 (memory decoded_for_surface.1.2) (2000 + r * 8 + c)).
Proof.
  assert (gav1RenderFrame demo_env decoded_for_surface.1.2 5
            decoded_for_surface.2 = Some (kStatusOk, rendered.2)) as Hrun
    by (vm_compute; reflexivity).
  pose proof (gav1RenderFrame_YV12_layout demo_env decoded_for_surface.1.2
                rendered.2 5 decoded_for_surface.2 Hrun) as H.
  cbn zeta in H.
  destruct H as (q & b & nwb & mem_y & mem_v & Hq & Hb & Hlock & Hy & Hv
                 & Hu & Hbytes).
  assert (Some (Some q) = Some (Some 0%nat)) as Hq0
    by (rewrite <- Hq; vm_compute; reflexivity).
  injection Hq0 as ->.
  assert (Some b = Some rendered_buffer) as Hb0
    by (rewrite <- Hb; vm_compute; reflexivity).
  injection Hb0 as ->.
  assert ((0, nwb) = (0, demo_window)) as Hn0
    by (rewrite <- Hlock; vm_compute; reflexivity).
  injection Hn0 as ->.
  unfold rendered_buffer, demo_window in Hy, Hv, Hu, Hbytes.
  cbn [displayed_width_ displayed_height_ plane_ stride_ elt3_0 elt3_1
       elt3_2 nwb_stride nwb_height bits] in Hy, Hv, Hu, Hbytes.
  change (AlignTo16 (16 ÷ 2)) with 16 in Hy, Hv, Hu, Hbytes.
  change ((4 + 1) ÷ 2) with 2 in Hy, Hv, Hu, Hbytes.
  change (Z.min 2 2) with 2 in Hy, Hv, Hu, Hbytes.
  exists 0%nat, rendered_buffer, demo_window, mem_y, mem_v.
  split; [vm_compute; reflexivity|]. split; [vm_compute; reflexivity|].
  split; [vm_compute; reflexivity|].
  split; [exact Hy|]. split; [exact Hv|]. split; [exact Hu|].
  apply Hbytes; try lia; intros r c Hr Hc; lia.
Defined.

Example rendered_bytes :
  rendered.1 = kStatusOk /\
  map (read8 (memory rendered.2)) [9000; 9015; 9016; 9063]
    = map (read8 (memory fresh_process)) [1000; 1015; 1016; 1063] /\
  map (read8 (memory rendered.2)) [9064; 9071; 9072; 9080; 9087]
    = map (read8 (memory fresh_process)) [3000; 3007; 9072; 3008; 3015] /\
  map (read8 (memory rendered.2)) [9096; 9103; 9112; 9119; 9120]
    = map (read8 (memory fresh_process)) [2000; 2007; 2008; 2015; 9120].
Proof. vm_compute. repeat split. Qed.

(** ** The copy into the output byte buffer (C1) *)

Lemma for_loop_3 {S} (body : Z -> S -> option S) (i : Z) (s s' : S) :
  for_loop 3 i body s = Some s' ->
  exists s1 s2, body i s = Some s1 /\ body (i + 1) s1 = Some s2 /\
                body (i + 1 + 1) s2 = Some s'.
Proof.
  cbn [for_loop]. intros H.
  destruct (body i s) as [s1|] eqn:H1; [|done].
  destruct (body (i + 1) s1) as [s2|] eqn:H2; [|done].
  destruct (body (i + 1 + 1) s2) as [s3|] eqn:H3; [|done].
  simplify_eq. exists s1, s2. done.
Qed.

Lemma CopyFrameToDataBuffer_plane_writes sz pic i c c' :
  CopyFrameToDataBuffer_plane sz pic i c = Some c' ->
  0 <= sz /\ cursor_data c' = cursor_data c + sz /\
  forall a, ~ (cursor_data c <= a < cursor_data c + sz) ->
            read8 (cursor_memory c') a = read8 (cursor_memory c) a.
Proof.
  unfold CopyFrameToDataBuffer_plane. intros H.
  destruct (get3 _ i) as [source|]; [|done]. cbn [mbind option_bind] in H.
  destruct (memcpy _ _ _ _) as [mem|] eqn:Hcpy; [|done].
  cbn [mbind option_bind] in H. simplify_eq. cbn.
  apply memcpy_Some in Hcpy as (Hsz & Hmem).
  split; [done|]. split; [done|]. intros a Ha. rewrite Hmem.
  destruct (Z.leb_spec (cursor_data c) a); [|done].
  destruct (Z.ltb_spec a (cursor_data c + sz)); [lia|done].
Qed.

(** Whatever the picture, [CopyFrameToDataBuffer] writes three times the
    size of a pointer and nothing more. *)
Lemma CopyFrameToDataBuffer_writes sz pic data mem lg mem' lg' :
  CopyFrameToDataBuffer sz pic data mem lg = Some (mem', lg') ->
  forall a, ~ (data <= a < data + 3 * sz) -> read8 mem' a = read8 mem a.
Proof.
  unfold CopyFrameToDataBuffer. intros H a Ha.
  destruct (for_loop 3 _ _ _) as [c|] eqn:Hloop; [|done].
  cbn [mbind option_bind] in H. simplify_eq.
  apply for_loop_3 in Hloop as (c1 & c2 & H1 & H2 & H3).
  apply CopyFrameToDataBuffer_plane_writes in H1 as (Hsz & Hd1 & Hm1).
  apply CopyFrameToDataBuffer_plane_writes in H2 as (_ & Hd2 & Hm2).
  apply CopyFrameToDataBuffer_plane_writes in H3 as (_ & Hd3 & Hm3).
  cbn in Hd1, Hm1.
  rewrite Hm3, Hm2, Hm1; [done|lia..].
Qed.

(** So does [gav1GetFrame] for every 8-bit picture in YUV mode: whatever
    the size of the planes, the process memory changes in the first
    [3 * sizeof(void * )] bytes of the byte buffer only. *)
Lemma gav1GetFrame_yuv_writes env pr jOutputBuffer pr' jOutputBuffer' :
  gav1GetFrame env pr jOutputBuffer false
    = Some (kStatusOk, pr', jOutputBuffer') ->
  mode jOutputBuffer = kOutputModeYuv ->
  DAV1D_API.bpc (DAV1D_API.p (dav1d_get_picture env).2) = 8 ->
  forall a,
    ~ (data_address jOutputBuffer' <= a
       < data_address jOutputBuffer' + 3 * sizeof_pointer env) ->
    read8 (memory pr') a = read8 (memory pr) a.
Proof.
  unfold gav1GetFrame. intros H Hmode Hbpc a Ha.
  destruct (dav1d_get_picture env) as [status pic]. cbn [snd] in Hbpc.
  destruct (negb (status =? 0)); [done|].
  destruct (GetBuffer _ _ _) as [[r pool']|]; [|done].
  cbn [mbind option_bind] in H.
  destruct (negb (JniStatusCode_eqb r.1 kJniStatusOk)); [done|].
  destruct r.2 as [jni_buffer|]; [|done]. cbn [mbind option_bind] in H.
  rewrite Hmode, Hbpc in H. cbn [Z.eqb kOutputModeYuv Pos.eqb] in H.
  destruct (thrown _); [done|]. destruct (negb (returned _)); [done|].
  destruct (CopyFrameToDataBuffer _ _ _ _ _) as [[mem lg]|] eqn:Hcopy;
    [|done].
  cbn [mbind option_bind] in H. simplify_eq. cbn [memory].
  by eapply CopyFrameToDataBuffer_writes.
Qed.

(** C1 on a concrete frame. [gav1GetFrame] in YUV mode returns [kStatusOk]
    for the 8-bit picture of 16 by 4 pixels, whose luma plane has 64 bytes,
    and what it has put into the byte buffer at 5000 is the first eight
    bytes of each plane, the size of a pointer: the bytes from 5024 on are
    as they were, and the luma plane is not in the buffer. *)
Theorem gav1GetFrame_yuv_copies_pointer_size :
  decoded_for_yuv.1.1 = kStatusOk /\
  map (read8 (memory decoded_for_yuv.1.2)) (seqZ 5000 32)
    = map (read8 (memory fresh_process))
        (seqZ 1000 8 ++ seqZ 2000 8 ++ seqZ 3000 8 ++ seqZ 5024 8) /\
  map (read8 (memory decoded_for_yuv.1.2)) (seqZ 5000 64)
    <> map (read8 (memory fresh_process)) (seqZ 1000 64).
Proof. vm_compute. repeat split. discriminate. Qed.

(** ** The dither of the 10-bit conversion (C10) *)

Lemma land_3_mod t : Z.land t 3 = t mod 4.
Proof. change 3 with (Z.ones 2). by rewrite Z.land_ones. Qed.

Lemma shiftr_2_div t : Z.shiftr t 2 = t / 4.
Proof. by rewrite Z.shiftr_div_pow2. Qed.

Lemma land_3_range t : 0 <= Z.land t 3 <= 3.
Proof. rewrite land_3_mod. pose proof (Z.mod_pos_bound t 4). lia. Qed.

Lemma shiftr_land_exact t : 4 * Z.shiftr t 2 + Z.land t 3 = t.
Proof.
  rewrite land_3_mod, shiftr_2_div. pose proof (Z.div_mod t 4). lia.
Qed.

Lemma Convert10Bit_pixels_carry n : forall j source data sample mem,
  0 <= sample <= 3 ->
  0 <= (Convert10Bit_pixels n j source data sample mem).1 <= 3.
Proof.
  induction n as [|n IH]; intros j source data sample mem Hs; [done|].
  cbn [Convert10Bit_pixels dither]. apply IH, land_3_range.
Qed.





(** * Further properties of the code *)

(** ** Alignment and the plane copy *)

(** [AlignTo16] gives the least multiple of 16 that is not below its
    argument; for an argument of at most [INT_MAX - 15] the addition does
    not overflow and the result is an [int]. *)
Theorem AlignTo16_least_multiple (value : Z) :
  INT_MIN <= value <= INT_MAX - 15 ->
  in_int (AlignTo16 value) /\
  AlignTo16 value mod 16 = 0 /\
  value <= AlignTo16 value /\
  forall m, m mod 16 = 0 -> value <= m -> AlignTo16 value <= m.
Proof.
  intros Hv. destruct (AlignTo16_spec value) as (Heq & Hmod & Hle & Hlt).
  split; [|split; [done|split; [done|]]].
  - unfold in_int, INT_MIN, INT_MAX in *. lia.
  - intros m Hm Hvm.
    apply Z.mod_divide in Hm as [k ->]; [|lia].
    apply Z.mod_divide in Hmod as [k' Hk']; [|lia].
    rewrite Hk' in *. nia.
Qed.

Lemma AlignTo16_least_multiple_witness :
  in_int (AlignTo16 360) /\
  AlignTo16 360 mod 16 = 0 /\
  360 <= AlignTo16 360 /\
  forall m, m mod 16 = 0 -> 360 <= m -> AlignTo16 360 <= m.
Proof.
  apply (AlignTo16_least_multiple 360). unfold INT_MIN, INT_MAX. lia.
Defined.

(** [CopyPlane] moves [height] rows of [width] bytes: when the rows of the
    destination do not overlap ([width <= destination_stride]) and no byte
    it reads lies in the destination block, byte [c] of row [r] of the
    source is afterwards at [destination + r * destination_stride + c], and
    every byte outside the destination block is as it was. A call that
    returns had a height that is not negative. *)
Theorem CopyPlane_transfers_rows (source source_stride destination
    destination_stride width height : Z) (mem mem' : Memory) :
  CopyPlane source source_stride destination destination_stride width height
    mem = Some mem' ->
  0 <= width <= destination_stride ->
  (forall r c, 0 <= r < height -> 0 <= c < width ->
     ~ (destination <= source + r * source_stride + c
        < destination + height * destination_stride)) ->
  0 <= height /\
  (forall r c, 0 <= r < height -> 0 <= c < width ->
     read8 mem' (destination + r * destination_stride + c)
     = read8 mem (source + r * source_stride + c)) /\
  (forall a, ~ (destination <= a
                < destination + height * destination_stride) ->
     read8 mem' a = read8 mem a).
Proof. apply CopyPlane_copies. Qed.

Lemma CopyPlane_transfers_rows_witness :
  0 <= 2 /\
  (forall r c, 0 <= r < 2 -> 0 <= c < 3 ->
     read8 copied_rows (200 + r * 4 + c)
     = read8 two_rows (100 + r * 8 + c)) /\
  (forall a, ~ (200 <= a < 200 + 2 * 4) ->
     read8 copied_rows a = read8 two_rows a).
Proof.
  apply (CopyPlane_transfers_rows 100 8 200 4 3 2 two_rows copied_rows).
  - vm_compute. reflexivity.
  - lia.
  - intros r c Hr Hc. lia.
Defined.

(** ** Rendering *)

(** The bytes of a frame that [gav1RenderFrame] has rendered, when the
    displayed planes fit the locked window buffer and the planes of the
    frame lie outside it: byte [c] of row [r] of the Y plane is at
    [bits + r * stride + c], of the V plane at
    [bits + stride * height + r * uv_stride + c], and of the U plane behind
    the [v_height] rows of the V plane. *)
Theorem gav1RenderFrame_window_contents (env : Env) (pr pr' : Process)
    (jSurface : Z) (jOutputBuffer : OutputBuffer) (b : JniFrameBuffer)
    (nwb : ANativeWindow_Buffer) :
  gav1RenderFrame env pr jSurface jOutputBuffer = Some (kStatusOk, pr') ->
  buffer_at (pool (context pr)) (decoderPrivate jOutputBuffer) = Some b ->
  ANativeWindow_lock env (native_window (context pr')) = (0, nwb) ->
  let stride := nwb_stride nwb in
  let height := nwb_height nwb in
  let uv_stride := AlignTo16 (stride ÷ 2) in
  let v_height := Z.min ((height + 1) ÷ 2) (elt3_2 (displayed_height_ b)) in
  let u_height := Z.min ((height + 1) ÷ 2) (elt3_1 (displayed_height_ b)) in
  let size := stride * height + (v_height + u_height) * uv_stride in
  0 <= elt3_0 (displayed_width_ b) <= stride ->
  elt3_0 (displayed_height_ b) <= height ->
  0 <= elt3_2 (displayed_width_ b) <= uv_stride ->
  0 <= elt3_1 (displayed_width_ b) <= uv_stride ->
  (forall r c, 0 <= r < elt3_0 (displayed_height_ b) ->
     0 <= c < elt3_0 (displayed_width_ b) ->
     ~ (bits nwb <= elt3_0 (plane_ b) + r * elt3_0 (stride_ b) + c
        < bits nwb + size)) ->
  (forall r c, 0 <= r < v_height -> 0 <= c < elt3_2 (displayed_width_ b) ->
     ~ (bits nwb <= elt3_2 (plane_ b) + r * elt3_2 (stride_ b) + c
        < bits nwb + size)) ->
  (forall r c, 0 <= r < u_height -> 0 <= c < elt3_1 (displayed_width_ b) ->
     ~ (bits nwb <= elt3_1 (plane_ b) + r * elt3_1 (stride_ b) + c
        < bits nwb + size)) ->
  (forall r c, 0 <= r < elt3_0 (displayed_height_ b) ->
     0 <= c < elt3_0 (displayed_width_ b) ->
     read8 (memory pr') (bits nwb + r * stride + c)
     = read8 (memory pr) (elt3_0 (plane_ b) + r * elt3_0 (stride_ b) + c)) /\
  (forall r c, 0 <= r < v_height -> 0 <= c < elt3_2 (displayed_width_ b) ->
     read8 (memory pr') (bits nwb + stride * height + r * uv_stride + c)
     = read8 (memory pr) (elt3_2 (plane_ b) + r * elt3_2 (stride_ b) + c)) /\
  (forall r c, 0 <= r < u_height -> 0 <= c < elt3_1 (displayed_width_ b) ->
     read8 (memory pr')
       (bits nwb + stride * height + v_height * uv_stride
        + r * uv_stride + c)
     = read8 (memory pr) (elt3_1 (plane_ b) + r * elt3_1 (stride_ b) + c)).
Proof.
  intros H Hb Hlock.
  apply gav1RenderFrame_Ok in H
    as (q & b0 & nwb0 & Hq & Hb0 & Hlock0 & _ & H).
  unfold buffer_at in Hb. rewrite Hq, Hb0 in Hb.
  rewrite Hlock0 in Hlock. simplify_eq.
  by apply render_planes_bytes.
Qed.

Lemma gav1RenderFrame_window_contents_witness :
  (forall r c, 0 <= r < 4 -> 0 <= c < 16 ->
     read8 (memory rendered.2) (9000 + r * 16 + c)
     = read8 (memory decoded_for_surface.1.2) (1000 + r * 16 + c)) /\
  (forall r c, 0 <= r < 2 -> 0 <= c < 8 ->
     read8 (memory rendered.2) (9000 + 16 * 4 + r * 16 + c)
     = read8 (memory decoded_for_surface.1.2) (3000 + r * 8 + c)) /\
  (forall r c, 0 <= r < 2 -> 0 <= c < 8 ->
     read8 (memory rendered.2) (9000 + 16 * 4 + 2 * 16 + r * 16 + c)
     = read8 (memory decoded_for_surface.1.2) (2000 + r * 8 + c)).
Proof.
  apply (gav1RenderFrame_window_contents demo_env decoded_for_surface.1.2
           rendered.2 5 decoded_for_surface.2 rendered_buffer demo_window).
  1-3: vm_compute; reflexivity.
  all: unfold rendered_buffer, demo_window;
    cbn [displayed_width_ displayed_height_ plane_ stride_ elt3_0 elt3_1
         elt3_2 nwb_stride nwb_height bits];
    change (AlignTo16 (16 ÷ 2)) with 16; change ((4 + 1) ÷ 2) with 2;
    try lia.
  all: intros r c Hr Hc; lia.
Defined.

(** [MaybeAcquireNativeWindow]: a call that returns [true] leaves
    [new_surface] in [surface], and the same call again returns [true]
    without changing anything; a call that returns [false] leaves no window
    and no surface and sets [kJniStatusANativeWindowError]. A call with the
    surface the context already has returns [true] without asking for a
    window, also when the context has none. The pool and the decoder status
    are never touched. *)
Theorem MaybeAcquireNativeWindow_surface (env : Env) (new_surface : Z)
    (c : JniContext) :
  let r := MaybeAcquireNativeWindow env new_surface c in
  (if r.1
   then surface r.2 = new_surface /\
        MaybeAcquireNativeWindow env new_surface r.2 = (true, r.2) /\
        (surface c = new_surface \/
         native_window r.2 = ANativeWindow_fromSurface env new_surface /\
         native_window r.2 <> 0 /\
         native_window_width r.2 = 0 /\ native_window_height r.2 = 0)
   else surface r.2 = 0 /\ native_window r.2 = 0 /\
        native_window_width r.2 = 0 /\ native_window_height r.2 = 0 /\
        jni_status_code r.2 = kJniStatusANativeWindowError) /\
  (if surface c =? new_surface then r = (true, c) else True) /\
  pool r.2 = pool c /\ avid_status_code r.2 = avid_status_code c.
Proof.
  cbn zeta. unfold MaybeAcquireNativeWindow.
  destruct (Z.eqb_spec (surface c) new_surface) as [Hs|Hs].
  - cbn. rewrite <- Hs, Z.eqb_refl. auto.
  - destruct (Z.eqb_spec (ANativeWindow_fromSurface env new_surface) 0)
      as [Hw|Hw]; cbn.
    + rewrite Hw. auto 10.
    + rewrite Z.eqb_refl. auto 10.
Qed.

Lemma MaybeAcquireNativeWindow_cases env new_surface c :
  let r := MaybeAcquireNativeWindow env new_surface c in
  pool r.2 = pool c /\ avid_status_code r.2 = avid_status_code c /\
  if r.1 then jni_status_code r.2 = jni_status_code c
  else jni_status_code r.2 = kJniStatusANativeWindowError.
Proof.
  cbn zeta. unfold MaybeAcquireNativeWindow.
  destruct (surface c =? new_surface); [done|].
  by destruct (ANativeWindow_fromSurface env new_surface =? 0).
Qed.

Lemma gav1RenderFrame_outcome env pr pr' jSurface jOutputBuffer status :
  gav1RenderFrame env pr jSurface jOutputBuffer = Some (status, pr') ->
  (exists q, GetBuffer_id (decoderPrivate jOutputBuffer) (pool (context pr))
             = Some (q, pool (context pr'))) /\
  (status = kStatusOk /\
   jni_status_code (context pr') = jni_status_code (context pr) \/
   status = kStatusError /\
   jni_status_code (context pr') = kJniStatusANativeWindowError) /\
  manager (pool (context pr')) = manager (pool (context pr)) /\
  heap (pool (context pr')) = heap (pool (context pr)) /\
  avid_status_code (context pr') = avid_status_code (context pr) /\
  logcat pr' = logcat pr.
Proof.
  intros H. unfold gav1RenderFrame in H.
  destruct (GetBuffer_id _ _) as [[q pool']|] eqn:Hid; [|done].
  pose proof (GetBuffer_id_inv _ _ _ _ Hid) as (Hq & Hm & Hh & _).
  cbn [mbind option_bind] in H.
  assert (forall c : JniContext, pool c = pool' ->
            avid_status_code c = avid_status_code (context pr) ->
            forall P : Prop, P ->
            (exists q1 : ptr, Some (q, pool') = Some (q1, pool c)) /\
            P /\ manager (pool c) = manager (pool (context pr)) /\
            heap (pool c) = heap (pool (context pr)) /\
            avid_status_code c = avid_status_code (context pr) /\
            logcat pr = logcat pr) as Hkeep.
  { intros c -> -> P HP. split; [by exists q|done]. }
  pose proof (MaybeAcquireNativeWindow_cases env jSurface
                (set_pool (context pr) pool')) as (Hpool & Havid & Hacq).
  destruct (MaybeAcquireNativeWindow _ _ _) as [acquired c].
  cbn [fst snd set_pool pool avid_status_code jni_status_code]
    in Hacq, Hpool, Havid.
  destruct acquired; cbn [negb] in H.
  2:{ simplify_eq. cbn. apply Hkeep; [done..|]. by right. }
  unfold deref in H.
  destruct (heap pool' !! q) as [b|] eqn:Hb; [|done].
  cbn [mbind option_bind] in H.
  cbn [DisplayedWidth DisplayedHeight get3 kPlaneY Z.eqb mbind option_bind]
    in H.
  match type of H with
  | match ?g with _ => _ end = _ => destruct g as [c1|c1] eqn:Hg
  end.
  { destruct (_ || _); [|done]. destruct (negb _); [|done].
    simplify_eq. cbn. apply Hkeep; [done..|]. by right. }
  assert (pool c1 = pool' /\
          avid_status_code c1 = avid_status_code (context pr) /\
          jni_status_code c1 = jni_status_code c) as (Hp1 & Ha1 & Hj1).
  { destruct (_ || _); [destruct (negb _); [done|]|]; by simplify_eq. }
  clear Hg.
  destruct (ANativeWindow_lock env (native_window c1)) as [lock_result nwb].
  destruct (negb (lock_result =? 0) || (bits nwb =? 0)).
  { simplify_eq. cbn. apply Hkeep; [done..|]. by right. }
  destruct (render_planes b nwb (memory pr)) as [mem|]; [|done].
  cbn [mbind option_bind] in H.
  destruct (negb (ANativeWindow_unlockAndPost _ _ =? 0)); simplify_eq; cbn.
  - apply Hkeep; [done..|]. by right.
  - apply Hkeep; [done..|]. left. split; [done|]. congruence.
Qed.

(** [gav1RenderFrame] returns [kStatusOk] or [kStatusError]; whenever it
    returns [kStatusError] the context's status is
    [kJniStatusANativeWindowError]. It never touches the buffer pool (the
    manager and the frame buffers with their reference counts are as
    before), the decoder status or the log, and a successful call leaves the
    context's status as it was. *)
Theorem gav1RenderFrame_keeps_pool (env : Env) (pr pr' : Process)
    (jSurface : Z) (jOutputBuffer : OutputBuffer) (status : Z) :
  gav1RenderFrame env pr jSurface jOutputBuffer = Some (status, pr') ->
  (status = kStatusOk /\
   jni_status_code (context pr') = jni_status_code (context pr) \/
   status = kStatusError /\
   jni_status_code (context pr') = kJniStatusANativeWindowError) /\
  manager (pool (context pr')) = manager (pool (context pr)) /\
  heap (pool (context pr')) = heap (pool (context pr)) /\
  avid_status_code (context pr') = avid_status_code (context pr) /\
  logcat pr' = logcat pr.
Proof. intros H. by apply gav1RenderFrame_outcome in H as [_ H]. Qed.

Lemma gav1RenderFrame_keeps_pool_witness :
  (rendered.1 = kStatusOk /\
   jni_status_code (context rendered.2)
   = jni_status_code (context decoded_for_surface.1.2) \/
   rendered.1 = kStatusError /\
   jni_status_code (context rendered.2) = kJniStatusANativeWindowError) /\
  manager (pool (context rendered.2))
  = manager (pool (context decoded_for_surface.1.2)) /\
  heap (pool (context rendered.2))
  = heap (pool (context decoded_for_surface.1.2)) /\
  avid_status_code (context rendered.2)
  = avid_status_code (context decoded_for_surface.1.2) /\
  logcat rendered.2 = logcat decoded_for_surface.1.2.
Proof.
  apply (gav1RenderFrame_keeps_pool demo_env decoded_for_surface.1.2
           rendered.2 5 decoded_for_surface.2 rendered.1).
  vm_compute. reflexivity.
Defined.


(** ** The planes of a frame buffer *)

Lemma get3_set3 {A} (a a' : array3 A) i x :
  set3 a i x = Some a' ->
  get3 a' i = Some x /\ forall k, k <> i -> get3 a' k = get3 a k.
Proof.
  unfold set3, get3. intros H.
  destruct (Z.eqb_spec i 0) as [->|H0].
  { simplify_eq. split; [done|]. intros k Hk.
    by destruct (Z.eqb_spec k 0). }
  destruct (Z.eqb_spec i 1) as [->|H1].
  { simplify_eq. split; [done|]. intros k Hk.
    destruct (Z.eqb_spec k 0); [done|]. by destruct (Z.eqb_spec k 1). }
  destruct (Z.eqb_spec i 2) as [->|H2]; [|done].
  simplify_eq. split; [done|]. intros k Hk.
  destruct (Z.eqb_spec k 0); [done|]. destruct (Z.eqb_spec k 1); [done|].
  by destruct (Z.eqb_spec k 2).
Qed.

(** One plane: the other planes keep their sizes; on success the plane
    holds at least [n] bytes and has not shrunk, on failure it is gone. *)
Lemma reallocate_plane_sizes q i n w ok w' b :
  reallocate_plane q i n w = Some (ok, w') ->
  heap w !! q = Some b ->
  exists b', heap w' !! q = Some b' /\
    (forall k, k <> i ->
       get3 (raw_buffer_size_ b') k = get3 (raw_buffer_size_ b) k) /\
    exists s s', get3 (raw_buffer_size_ b) i = Some s /\
                 get3 (raw_buffer_size_ b') i = Some s' /\
                 if ok then 0 <= n <= s' /\ s <= s' else s' = 0.
Proof.
  unfold reallocate_plane. intros H Hb. mrun_in H. rewrite Hb in H.
  destruct (get3 (raw_buffer_size_ b) i) as [s|] eqn:Hs; [|done].
  unfold size_ge in H.
  destruct (Z.leb_spec 0 n) as [Hn|Hn]; cbn [andb] in H.
  - destruct (Z.leb_spec n s) as [Hns|Hns].
    + simplify_eq. exists b. split; [done|]. split; [done|].
      exists s, s. split; [done|]. split; [done|]. lia.
    + destruct (Z.ltb_spec n 0); [lia|].
      assert (exists ok0 al, (ok0 = true \/ ok0 = false) /\
                match allocator w with
                | [] => Some (true, w)
                | ok1 :: rest =>
                    Some (ok1, {| manager := manager w; heap := heap w;
                                  allocator := rest; events := events w |})
                end
                = Some (ok0, {| manager := manager w; heap := heap w;
                                allocator := al; events := events w |}))
        as (ok0 & al & Hok0 & Hal).
      { destruct w as [m h [|ok1 rest] e]; cbn.
        - exists true, []. split; [by left|done].
        - exists ok1, rest. split; [by destruct ok1; [left|right]|done]. }
      rewrite Hal in H. clear Hal.
      destruct (set3 (raw_buffer_ b) i ok0) as [r|]; [|done].
      destruct (set3 (raw_buffer_size_ b) i _) as [sz|] eqn:Hsz; [|done].
      cbn [heap] in H. rewrite Hb in H. simplify_eq. cbn [heap].
      apply get3_set3 in Hsz as (Hi & Hk).
      eexists. split.
      { apply list_lookup_insert_eq. by eapply lookup_lt_Some. }
      cbn [raw_buffer_size_ set_raw_buffer]. split; [done|].
      eexists s, _. split; [done|]. split; [done|].
      destruct ok; lia.
  - destruct (Z.ltb_spec n 0); [|lia].
    destruct (set3 (raw_buffer_ b) i false) as [r|]; [|done].
    destruct (set3 (raw_buffer_size_ b) i _) as [sz|] eqn:Hsz; [|done].
    cbn [heap] in H. rewrite Hb in H. simplify_eq. cbn [heap].
    apply get3_set3 in Hsz as (Hi & Hk).
    eexists. split.
    { apply list_lookup_insert_eq. by eapply lookup_lt_Some. }
    cbn [raw_buffer_size_ set_raw_buffer]. split; [done|].
    eexists s, _. split; [done|]. split; [done|]. done.
Qed.

(** [MaybeReallocateGav1DataPlanes] changes nothing of a frame buffer but
    its raw planes. When it returns [true], the sizes asked for are not
    negative, every plane holds at least the size asked for it, and no plane
    has shrunk; when it returns [false], the plane whose allocation failed
    is left without memory, at size zero. *)
Theorem MaybeReallocateGav1DataPlanes_capacity (q : ptr)
    (y_plane_min_size uv_plane_min_size : Z) (w w' : World) (ok : bool)
    (b : JniFrameBuffer) :
  MaybeReallocateGav1DataPlanes q y_plane_min_size uv_plane_min_size w
    = Some (ok, w') ->
  heap w !! q = Some b ->
  exists b', heap w' !! q = Some b' /\ same_but_raw b b' /\
    let s := raw_buffer_size_ b in
    let s' := raw_buffer_size_ b' in
    if ok
    then 0 <= y_plane_min_size <= elt3_0 s' /\
         0 <= uv_plane_min_size <= elt3_1 s' /\
         uv_plane_min_size <= elt3_2 s' /\
         elt3_0 s <= elt3_0 s' /\ elt3_1 s <= elt3_1 s' /\
         elt3_2 s <= elt3_2 s'
    else elt3_0 s' = 0 \/ elt3_1 s' = 0 \/ elt3_2 s' = 0.
Proof.
  intros H Hb.
  pose proof (MaybeReallocateGav1DataPlanes_inv _ _ _ _ _ _ H)
    as (_ & _ & b0 & b' & Hb0 & Hsame & Hh).
  rewrite Hb in Hb0. injection Hb0 as <-.
  exists b'. split.
  { rewrite Hh. apply list_lookup_insert_eq. by eapply lookup_lt_Some. }
  split; [done|]. cbn zeta.
  assert (heap w' !! q = Some b') as Hb'.
  { rewrite Hh. apply list_lookup_insert_eq. by eapply lookup_lt_Some. }
  clear Hh Hsame.
  unfold MaybeReallocateGav1DataPlanes, kPlaneY, kPlaneU, kPlaneV in H.
  apply bind_Some in H as (ok1 & w1 & H1 & H).
  apply (reallocate_plane_sizes _ _ _ _ _ _ b) in H1
    as (b1 & Hb1 & Hk1 & s1 & s1' & Hs1 & Hs1' & Hok1); [|done].
  pose proof (Hk1 1 ltac:(lia)) as Hk11. pose proof (Hk1 2 ltac:(lia)) as Hk12.
  cbn [get3 Z.eqb Pos.eqb] in Hs1, Hs1', Hk11, Hk12. simplify_eq.
  destruct ok1; cbn [negb] in H.
  2:{ unfold ret in H. simplify_eq. left. congruence. }
  apply bind_Some in H as (ok2 & w2 & H2 & H).
  apply (reallocate_plane_sizes _ _ _ _ _ _ b1) in H2
    as (b2 & Hb2 & Hk2 & s2 & s2' & Hs2 & Hs2' & Hok2); [|done].
  pose proof (Hk2 0 ltac:(lia)) as Hk20. pose proof (Hk2 2 ltac:(lia)) as Hk22.
  cbn [get3 Z.eqb Pos.eqb] in Hs2, Hs2', Hk20, Hk22. simplify_eq.
  destruct ok2; cbn [negb] in H.
  2:{ unfold ret in H. simplify_eq. right; left. congruence. }
  apply bind_Some in H as (ok3 & w3 & H3 & H).
  apply (reallocate_plane_sizes _ _ _ _ _ _ b2) in H3
    as (b3 & Hb3 & Hk3 & s3 & s3' & Hs3 & Hs3' & Hok3); [|done].
  pose proof (Hk3 0 ltac:(lia)) as Hk30. pose proof (Hk3 1 ltac:(lia)) as Hk31.
  cbn [get3 Z.eqb Pos.eqb] in Hs3, Hs3', Hk30, Hk31. simplify_eq.
  destruct ok3; cbn [negb] in H; unfold ret in H; simplify_eq.
  - lia.
  - right; right. congruence.
Qed.

Lemma MaybeReallocateGav1DataPlanes_capacity_witness :
  exists b', heap planes_world !! 0%nat = Some b' /\
    same_but_raw (new_JniFrameBuffer 0) b' /\
    let s := raw_buffer_size_ (new_JniFrameBuffer 0) in
    let s' := raw_buffer_size_ b' in
    0 <= 64 <= elt3_0 s' /\ 0 <= 32 <= elt3_1 s' /\ 32 <= elt3_2 s' /\
    elt3_0 s <= elt3_0 s' /\ elt3_1 s <= elt3_1 s' /\ elt3_2 s <= elt3_2 s'.
Proof.
  apply (MaybeReallocateGav1DataPlanes_capacity 0%nat 64 32
           fresh_buffer_world planes_world true (new_JniFrameBuffer 0)).
  - vm_compute. reflexivity.
  - reflexivity.
Defined.

(** Planes that are large enough are kept: when every plane of the buffer
    already holds the size asked for it, [MaybeReallocateGav1DataPlanes]
    returns [true] without allocating and without changing anything. *)
Theorem MaybeReallocateGav1DataPlanes_keeps_large_planes (q : ptr)
    (y_plane_min_size uv_plane_min_size : Z) (w : World)
    (b : JniFrameBuffer) :
  heap w !! q = Some b ->
  0 <= y_plane_min_size <= elt3_0 (raw_buffer_size_ b) ->
  0 <= uv_plane_min_size <= elt3_1 (raw_buffer_size_ b) ->
  uv_plane_min_size <= elt3_2 (raw_buffer_size_ b) ->
  MaybeReallocateGav1DataPlanes q y_plane_min_size uv_plane_min_size w
    = Some (true, w).
Proof.
  intros Hb Hy Hu Hv.
  unfold MaybeReallocateGav1DataPlanes, reallocate_plane, kPlaneY, kPlaneU,
    kPlaneV, size_ge.
  mrun. rewrite Hb. cbn [get3 Z.eqb Pos.eqb].
  destruct (Z.leb_spec 0 y_plane_min_size); [|lia].
  destruct (Z.leb_spec y_plane_min_size (elt3_0 (raw_buffer_size_ b)));
    [|lia].
  cbn [andb negb]. rewrite Hb.
  destruct (Z.leb_spec 0 uv_plane_min_size); [|lia].
  destruct (Z.leb_spec uv_plane_min_size (elt3_1 (raw_buffer_size_ b)));
    [|lia].
  cbn [andb negb]. rewrite Hb.
  destruct (Z.leb_spec uv_plane_min_size (elt3_2 (raw_buffer_size_ b)));
    [|lia].
  done.
Qed.

Lemma MaybeReallocateGav1DataPlanes_keeps_large_planes_witness :
  MaybeReallocateGav1DataPlanes 0%nat 48 32 planes_world
  = Some (true, planes_world).
Proof.
  apply (MaybeReallocateGav1DataPlanes_keeps_large_planes 0%nat 48 32
           planes_world
           {| stride_ := mk_array3 0 0 0;
              plane_ := mk_array3 0 0 0;
              displayed_width_ := mk_array3 0 0 0;
              displayed_height_ := mk_array3 0 0 0;
              id_ := 0;
              reference_count_ := 0;
              raw_buffer_ := mk_array3 true true true;
              raw_buffer_size_ := mk_array3 64 32 32 |}).
  - vm_compute. reflexivity.
  - cbn. lia.
  - cbn. lia.
  - cbn. lia.
Defined.

(** ** Frame data *)

Lemma SetFrameData_eq pic b :
  SetFrameData pic b
  = Some {| stride_ :=
              mk_array3 (to_int (elt2_0 (DAV1D_API.stride pic)))
                (to_int (elt2_1 (DAV1D_API.stride pic)))
                (to_int (elt2_1 (DAV1D_API.stride pic)));
            plane_ := DAV1D_API.data pic;
            displayed_width_ :=
              mk_array3 (DAV1D_API.w (DAV1D_API.p pic))
                (DAV1D_API.w (DAV1D_API.p pic) ÷ 2)
                (DAV1D_API.w (DAV1D_API.p pic) ÷ 2);
            displayed_height_ :=
              mk_array3 (DAV1D_API.h (DAV1D_API.p pic))
                (DAV1D_API.h (DAV1D_API.p pic) ÷ 2)
                (DAV1D_API.h (DAV1D_API.p pic) ÷ 2);
            id_ := id_ b;
            reference_count_ := reference_count_ b;
            raw_buffer_ := raw_buffer_ b;
            raw_buffer_size_ := raw_buffer_size_ b |}.
Proof. by destruct pic as [[] [] []]. Qed.


Lemma SetFrameData_plane_keeps pic i b b' :
  SetFrameData_plane pic i b = Some b' ->
  id_ b' = id_ b /\ reference_count_ b' = reference_count_ b /\
  raw_buffer_ b' = raw_buffer_ b /\ raw_buffer_size_ b' = raw_buffer_size_ b.
Proof.
  unfold SetFrameData_plane. intros H.
  repeat match type of H with
  | (?m ≫= _) = _ => destruct m; [|done]; cbn [mbind option_bind] in H
  end.
  by simplify_eq.
Qed.

Lemma SetFrameData_keeps pic b b' :
  SetFrameData pic b = Some b' ->
  id_ b' = id_ b /\ reference_count_ b' = reference_count_ b /\
  raw_buffer_ b' = raw_buffer_ b /\ raw_buffer_size_ b' = raw_buffer_size_ b.
Proof.
  unfold SetFrameData. intros H.
  apply for_loop_3 in H as (b1 & b2 & H1 & H2 & H3).
  apply SetFrameData_plane_keeps in H1 as (? & ? & ? & ?).
  apply SetFrameData_plane_keeps in H2 as (? & ? & ? & ?).
  apply SetFrameData_plane_keeps in H3 as (? & ? & ? & ?).
  repeat split; congruence.
Qed.

(** ** The pool *)

Lemma pool_inv_step s w w' :
  pool_inv w -> disciplined_steps [s] w -> step s w = Some (tt, w') ->
  pool_inv w'.
Proof.
  intros Hinv Hd H. destruct s as [c|q pic].
  - apply (pool_inv_calls [c] w w' Hinv).
    + cbn [disciplined_steps step] in Hd, H. cbn [disciplined].
      rewrite H. destruct Hd as [Hd _]. by destruct c.
    + cbn [calls]. unfold bind. cbn [step] in H. by rewrite H.
  - cbn [step] in H. mrun_in H.
    destruct (heap w !! q) as [b|] eqn:Hb; [|done].
    destruct (SetFrameData pic b) as [b'|] eqn:Hset; [|done].
    cbn [heap] in H. rewrite Hb in H. simplify_eq.
    apply SetFrameData_keeps in Hset as (Hid & Hrc & _).
    destruct Hinv as (n & free & Hinv). exists n, free. cbn [manager heap].
    pose proof Hinv as [].
    apply (pool_inv_at_update Hinv q b b'); [done|done| |].
    + destruct (inv_ids0 q b Hb). lia.
    + intros Hfree. destruct (inv_free_refs0 q Hfree) as (bf & Hbf & Hz).
      rewrite Hb in Hbf. injection Hbf as <-. lia.
Qed.

Lemma pool_inv_steps ss : forall w w',
  pool_inv w -> disciplined_steps ss w -> steps ss w = Some (tt, w') ->
  pool_inv w'.
Proof.
  induction ss as [|s ss IH]; intros w w' Hinv Hd H.
  - cbn [steps] in H. unfold ret in H. by simplify_eq.
  - cbn [steps] in H. apply bind_Some in H as ([] & w1 & H1 & H).
    cbn [disciplined_steps] in Hd. destruct Hd as [Hs Hd].
    rewrite H1 in Hd.
    apply (IH w1 w'); [|done|done].
    apply (pool_inv_step s w w1); [done| |done].
    cbn [disciplined_steps]. rewrite H1. done.
Qed.

Lemma disciplined_pool_pool_inv w : disciplined_pool w -> pool_inv w.
Proof.
  intros (al & ss & Hd & H).
  eapply pool_inv_steps; [apply pool_inv_new_World|done|done].
Qed.

(** [GetBuffer] and the number of buffers still to be had. A call that
    returns [kJniStatusOk] hands out a buffer and leaves one less available.
    A call that fails hands out nothing; either it has changed neither the
    manager nor the frame buffers, or it has taken a buffer out of the free
    list, or created one, and not given it back when the allocation of a
    plane failed: one less is available although nobody holds it. *)
Theorem GetBuffer_available (y_plane_min_size uv_plane_min_size : Z)
    (w w' : World) (r : JniStatusCode * option ptr) :
  GetBuffer y_plane_min_size uv_plane_min_size w = Some (r, w') ->
  (exists q, r = (kJniStatusOk, Some q) /\
             available (manager w') = available (manager w) - 1) \/
  (r = (kJniStatusOutOfMemory, None) /\
   manager w' = manager w /\ heap w' = heap w) \/
  (r = (kJniStatusOutOfMemory, None) /\
   available (manager w') = available (manager w) - 1).
Proof.
  intros H. apply GetBuffer_inv in H. cbn zeta in H. unfold available.
  destruct H as [(_ & q & b & b' & _ & _ & Hfin & -> & _)
                |[(_ & _ & a & b' & _ & Hfin & -> & _)
                 |(_ & -> & Hm & Hh & _)]].
  - cbn. destruct Hfin as [(-> & _)|(-> & _)].
    + right; right. split; [done|lia].
    + left. exists q. split; [done|lia].
  - cbn. destruct Hfin as [(-> & _)|(-> & _)].
    + right; right. split; [done|lia].
    + left. eexists. split; [done|lia].
  - right; left. done.
Qed.

Lemma GetBuffer_available_witness :
  (exists q, (kJniStatusOk, Some 0%nat) = (kJniStatusOk, Some q) /\
             available (manager one_buffer_world)
             = available (manager (new_World [])) - 1) \/
  ((kJniStatusOk, Some 0%nat) = (kJniStatusOutOfMemory, None) /\
   manager one_buffer_world = manager (new_World []) /\
   heap one_buffer_world = heap (new_World [])) \/
  ((kJniStatusOk, Some 0%nat) = (kJniStatusOutOfMemory, None) /\
   available (manager one_buffer_world)
   = available (manager (new_World [])) - 1).
Proof.
  apply (GetBuffer_available 64 32 (new_World []) one_buffer_world
           (kJniStatusOk, Some 0%nat)).
  vm_compute. reflexivity.
Defined.

Lemma reallocate_plane_Ok q i n w b :
  heap w !! q = Some b -> allocator w = [] -> 0 <= n -> 0 <= i <= 2 ->
  exists w', reallocate_plane q i n w = Some (true, w') /\
             allocator w' = [].
Proof.
  intros Hb Hal Hn Hi. unfold reallocate_plane. mrun. rewrite Hb.
  assert (i = 0 \/ i = 1 \/ i = 2) as [-> | [-> | ->]] by lia;
    cbn [get3 set3 Z.eqb Pos.eqb];
    destruct (size_ge _ n); try (by eexists);
    (destruct (Z.ltb_spec n 0); [lia|]); rewrite Hal;
    cbn [heap]; rewrite ?Hb; by eexists.
Qed.

Lemma MaybeReallocateGav1DataPlanes_Ok q y uv w b :
  heap w !! q = Some b -> allocator w = [] -> 0 <= y -> 0 <= uv ->
  exists w', MaybeReallocateGav1DataPlanes q y uv w = Some (true, w').
Proof.
  intros Hb Hal Hy Huv.
  unfold MaybeReallocateGav1DataPlanes, kPlaneY, kPlaneU, kPlaneV.
  destruct (reallocate_plane_Ok q 0 y w b) as (w1 & H1 & Hal1);
    [done|done|done|lia|].
  unfold bind at 1. rewrite H1. cbn [negb].
  apply reallocate_plane_inv, updates_at_lookup in H1 as (b1 & Hb1).
  destruct (reallocate_plane_Ok q 1 uv w1 b1) as (w2 & H2 & Hal2);
    [done|done|done|lia|].
  unfold bind at 1. rewrite H2. cbn [negb].
  apply reallocate_plane_inv, updates_at_lookup in H2 as (b2 & Hb2).
  destruct (reallocate_plane_Ok q 2 uv w2 b2) as (w3 & H3 & Hal3);
    [done|done|done|lia|].
  unfold bind at 1. rewrite H3. cbn [negb]. by eexists.
Qed.

Lemma GetBuffer_finish_Ok q y uv w b :
  heap w !! q = Some b -> reference_count_ b < INT_MAX ->
  allocator w = [] -> 0 <= to_int y -> 0 <= to_int uv ->
  exists w', GetBuffer_finish q y uv w = Some ((kJniStatusOk, Some q), w').
Proof.
  intros Hb Hrc Hal Hy Huv.
  destruct (GetBuffer_finish_defined q y uv w b Hb Hrc) as (r & w' & H).
  exists w'. rewrite H. do 2 f_equal.
  unfold GetBuffer_finish in H.
  destruct (MaybeReallocateGav1DataPlanes_Ok q (to_int y) (to_int uv) w b)
    as (w1 & H1); [done..|].
  unfold bind at 1 in H. rewrite H1 in H. cbn [negb] in H.
  mrun_in H. repeat case_match; by simplify_eq.
Qed.

Lemma GetBuffer_Ok_reference_count y uv w q w' :
  pool_inv w ->
  GetBuffer y uv w = Some ((kJniStatusOk, Some q), w') ->
  exists b', heap w' !! q = Some b' /\ reference_count_ b' = 1.
Proof.
  intros (n & free & Hinv) H. pose proof Hinv as [].
  pose proof (GetBuffer_inv _ _ _ _ _ H) as Hcases. cbn zeta in Hcases.
  destruct Hcases
    as [(Hfc & q0 & b & b' & Hq0 & Hb & Hfin & _ & Hh & _)
       |[(_ & _ & a & b' & _ & Hfin & _ & Hh & _)
        |(_ & ? & _)]]; [| |done].
  - destruct Hfin as [(? & _)|(Hr & _ & b1 & _ & ->)]; [done|].
    injection Hr as <-.
    exists (set_reference_count b1 (reference_count_ b + 1)).
    split.
    { rewrite Hh. apply list_lookup_insert_eq. by eapply lookup_lt_Some. }
    destruct (inv_free_get Hinv (free_buffer_count_ (manager w) - 1))
      as (q1 & Hq1 & Hin); [lia|].
    rewrite Hq0 in Hq1. injection Hq1 as <-.
    destruct (inv_free_refs0 q) as (b0 & Hb0 & Hz).
    { by eapply list_elem_of_lookup_2. }
    rewrite Hb in Hb0. injection Hb0 as <-. cbn. lia.
  - destruct Hfin as [(? & _)|(Hr & _ & b1 & _ & ->)]; [done|].
    injection Hr as Hq. subst q.
    exists (set_reference_count b1 (0 + 1)). split; [|done].
    rewrite Hh. rewrite lookup_app_r, Nat.sub_diag by done. done.
Qed.

(** On a pool reached from the empty one by steps in which every
    [AddBufferReference] names a buffer in use ([disciplined_pool]), with
    memory to be had and sizes that fit an [int], [GetBuffer] succeeds
    whenever a buffer is available (one is on the free list, or fewer than
    32 were created), and the caller holds the only reference to the buffer
    it gets. After a reference was added to a buffer on the free list the
    count of the buffer handed out is higher; such pools are not covered. *)
Theorem GetBuffer_succeeds_while_available
    (y_plane_min_size uv_plane_min_size : Z) (w : World) :
  disciplined_pool w -> allocator w = [] ->
  0 <= y_plane_min_size <= INT_MAX -> 0 <= uv_plane_min_size <= INT_MAX ->
  0 < available (manager w) ->
  exists q b' w',
    GetBuffer y_plane_min_size uv_plane_min_size w
      = Some ((kJniStatusOk, Some q), w') /\
    heap w' !! q = Some b' /\ reference_count_ b' = 1.
Proof.
  intros Hreach Hal Hy Huv Hav. apply disciplined_pool_pool_inv in Hreach.
  destruct Hreach as (n & free & Hinv). pose proof Hinv as [].
  assert (0 <= to_int y_plane_min_size) as Hy'.
  { rewrite to_int_id; [lia|]. unfold in_int, INT_MIN, INT_MAX in *. lia. }
  assert (0 <= to_int uv_plane_min_size) as Huv'.
  { rewrite to_int_id; [lia|]. unfold in_int, INT_MIN, INT_MAX in *. lia. }
  assert (exists q w', GetBuffer y_plane_min_size uv_plane_min_size w
                       = Some ((kJniStatusOk, Some q), w')) as (q & w' & H).
  { unfold GetBuffer. mrun.
    destruct (Z.eqb_spec (free_buffer_count_ (manager w)) 0) as [Hfc|Hfc];
      msimpl.
    - unfold available in Hav.
      destruct (Z.ltb_spec (all_buffer_count_ (manager w)) kMaxFrames)
        as [Hlt|]; [|lia].
      assert (forall x : option ptr,
                array_set (all_buffers_ (manager w))
                  (all_buffer_count_ (manager w)) x
                = Some (<[Z.to_nat (all_buffer_count_ (manager w)) := x]>
                          (all_buffers_ (manager w)))) as Hset.
      { intros x. unfold array_set, kMaxFrames in *.
        destruct (Z.leb_spec 0 (all_buffer_count_ (manager w))); [|lia].
        destruct (Z.ltb_spec (all_buffer_count_ (manager w))
                    (Z.of_nat (length (all_buffers_ (manager w))))); [|lia].
        done. }
      rewrite Hal. msimpl. rewrite Hset. msimpl.
      match goal with
      | |- context [GetBuffer_finish ?q ?y ?uv ?w1] =>
          destruct (GetBuffer_finish_Ok q y uv w1
                      (new_JniFrameBuffer (all_buffer_count_ (manager w))))
            as (w2 & ->);
          [cbn [heap]; rewrite lookup_app_r, Nat.sub_diag by done; done
          |done|done|done|done
          |eexists _, _; reflexivity]
      end.
    - destruct (inv_free_get Hinv (free_buffer_count_ (manager w) - 1))
        as (q & Hq & Hin); [lia|].
      rewrite Hq. msimpl.
      destruct (inv_free_refs0 q) as (b & Hb & Hz).
      { by eapply list_elem_of_lookup_2. }
      match goal with
      | |- context [GetBuffer_finish ?q ?y ?uv ?w1] =>
          destruct (GetBuffer_finish_Ok q y uv w1 b) as (w2 & ->);
          [done|rewrite Hz; done|done|done|done|eexists _, _; reflexivity]
      end. }
  destruct (GetBuffer_Ok_reference_count _ _ _ _ _
              (ex_intro _ n (ex_intro _ free Hinv)) H) as (b' & Hb' & Hrc).
  by exists q, b', w'.
Qed.

Lemma GetBuffer_succeeds_while_available_witness :
  exists q b' w',
    GetBuffer 128 64 (world_after shared_buffers)
      = Some ((kJniStatusOk, Some q), w') /\
    heap w' !! q = Some b' /\ reference_count_ b' = 1.
Proof.
  apply (GetBuffer_succeeds_while_available 128 64
           (world_after shared_buffers)).
  - exists [], (Step_call <$> shared_buffers). split.
    + vm_compute. repeat split.
    + vm_compute. reflexivity.
  - vm_compute. reflexivity.
  - unfold INT_MAX. lia.
  - unfold INT_MAX. lia.
  - vm_compute. reflexivity.
Defined.

(** A reference added to a buffer in use and released again leaves the
    pool as it was: [AddBufferReference] followed by [ReleaseBuffer] on the
    same id returns [kJniStatusOk] and restores the manager and every frame
    buffer, the free list included. *)
Theorem AddBufferReference_ReleaseBuffer_round_trip (id : Z) (w : World)
    (b : JniFrameBuffer) :
  buffer_at w id = Some b ->
  0 < reference_count_ b < INT_MAX ->
  exists w1 w2,
    AddBufferReference id w = Some (tt, w1) /\
    ReleaseBuffer id w1 = Some (kJniStatusOk, w2) /\
    manager w2 = manager w /\ heap w2 = heap w.
Proof.
  intros Hb Hrc. unfold buffer_at in Hb.
  destruct (array_get (all_buffers_ (manager w)) id) as [[q|]|] eqn:Hq;
    [|done|done].
  assert (q < length (heap w))%nat as Hlen by (by eapply lookup_lt_Some).
  eexists _, _. split.
  { unfold AddBufferReference. mrun. rewrite Hq. msimpl. rewrite Hb.
    unfold AddReference.
    destruct (Z.ltb_spec (reference_count_ b) INT_MAX); [|lia].
    cbn [heap]. rewrite Hb. reflexivity. }
  split.
  { unfold ReleaseBuffer. mrun. rewrite Hq. msimpl.
    rewrite list_lookup_insert_eq by done.
    unfold InUse at 1. cbn [reference_count_ set_reference_count].
    destruct (Z.eqb_spec (reference_count_ b + 1) 0); [lia|]. cbn [negb].
    unfold RemoveReference. cbn [reference_count_ set_reference_count].
    destruct (Z.ltb_spec INT_MIN (reference_count_ b + 1));
      [|unfold INT_MIN in *; lia].
    cbn [heap]. rewrite list_lookup_insert_eq by done. cbn [heap].
    rewrite list_lookup_insert_eq by (by rewrite length_insert).
    unfold InUse. cbn [reference_count_ set_reference_count].
    destruct (Z.eqb_spec (reference_count_ b + 1 - 1) 0); [lia|].
    cbn [negb]. reflexivity. }
  cbn [manager heap]. split; [done|].
  rewrite list_insert_insert_eq.
  replace (reference_count_ b + 1 - 1) with (reference_count_ b) by lia.
  destruct b; cbn. by apply list_insert_id.
Qed.

Lemma AddBufferReference_ReleaseBuffer_round_trip_witness :
  exists w1 w2,
    AddBufferReference 0 one_buffer_world = Some (tt, w1) /\
    ReleaseBuffer 0 w1 = Some (kJniStatusOk, w2) /\
    manager w2 = manager one_buffer_world /\
    heap w2 = heap one_buffer_world.
Proof.
  apply (AddBufferReference_ReleaseBuffer_round_trip 0 one_buffer_world
           {| stride_ := mk_array3 0 0 0;
              plane_ := mk_array3 0 0 0;
              displayed_width_ := mk_array3 0 0 0;
              displayed_height_ := mk_array3 0 0 0;
              id_ := 0;
              reference_count_ := 1;
              raw_buffer_ := mk_array3 true true true;
              raw_buffer_size_ := mk_array3 64 32 32 |}).
  - vm_compute. reflexivity.
  - cbn. unfold INT_MAX. lia.
Defined.

(** A release too many is detected and harmless. On a pool reached from the
    empty one by steps in which every [AddBufferReference] names a buffer
    in use ([disciplined_pool]), releasing the last reference to a buffer
    returns [kJniStatusOk] and puts the buffer on the free list; releasing
    the same id again returns [kJniStatusBufferAlreadyReleased] and changes
    neither the manager nor any frame buffer, so the buffer is on the free
    list once. *)
Theorem ReleaseBuffer_twice (id : Z) (w : World) (b : JniFrameBuffer) :
  disciplined_pool w ->
  0 <= id < all_buffer_count_ (manager w) ->
  buffer_at w id = Some b -> reference_count_ b = 1 ->
  exists w1 w2,
    ReleaseBuffer id w = Some (kJniStatusOk, w1) /\
    free_buffer_count_ (manager w1) = free_buffer_count_ (manager w) + 1 /\
    ReleaseBuffer id w1 = Some (kJniStatusBufferAlreadyReleased, w2) /\
    manager w2 = manager w1 /\ heap w2 = heap w1.
Proof.
  intros Hreach Hid Hb Hrc. apply disciplined_pool_pool_inv in Hreach.
  unfold buffer_at in Hb.
  destruct (array_get (all_buffers_ (manager w)) id) as [[q|]|] eqn:Hq;
    [|done|done].
  destruct (ReleaseBuffer_defined id w Hreach Hid) as (r & w1 & H1).
  pose proof (pool_inv_ReleaseBuffer _ _ _ _ Hreach H1) as Hinv1.
  pose proof (ReleaseBuffer_inv _ _ _ _ H1) as Hcase. cbn zeta in Hcase.
  destruct Hcase as (q' & b' & Hq' & Hb' & Hcase).
  rewrite Hq in Hq'. injection Hq' as <-.
  rewrite Hb in Hb'. injection Hb' as <-.
  destruct Hcase as [(? & _)|[(_ & ? & _)|(_ & -> & f & Hf & Hm1 & Hh1 & _)]];
    [lia|lia|].
  assert (0 <= id < all_buffer_count_ (manager w1)) as Hid1
    by (by rewrite Hm1).
  destruct (ReleaseBuffer_defined id w1 Hinv1 Hid1) as (r2 & w2 & H2).
  pose proof (ReleaseBuffer_inv _ _ _ _ H2) as Hcase. cbn zeta in Hcase.
  destruct Hcase as (q' & b' & Hq' & Hb' & Hcase).
  rewrite Hm1 in Hq'. cbn [all_buffers_] in Hq'.
  rewrite Hq in Hq'. injection Hq' as <-.
  rewrite Hh1 in Hb'.
  rewrite list_lookup_insert_eq in Hb' by (by eapply lookup_lt_Some).
  injection Hb' as <-. cbn [reference_count_ set_reference_count] in Hcase.
  destruct Hcase as [(_ & -> & Hm2 & Hh2 & _)|[(? & _)|(? & _)]];
    [|done|done].
  exists w1, w2. rewrite Hm1 at 1. done.
Qed.

Lemma ReleaseBuffer_twice_witness :
  exists w1 w2,
    ReleaseBuffer 0 one_buffer_world = Some (kJniStatusOk, w1) /\
    free_buffer_count_ (manager w1)
    = free_buffer_count_ (manager one_buffer_world) + 1 /\
    ReleaseBuffer 0 w1 = Some (kJniStatusBufferAlreadyReleased, w2) /\
    manager w2 = manager w1 /\ heap w2 = heap w1.
Proof.
  apply (ReleaseBuffer_twice 0 one_buffer_world
           {| stride_ := mk_array3 0 0 0;
              plane_ := mk_array3 0 0 0;
              displayed_width_ := mk_array3 0 0 0;
              displayed_height_ := mk_array3 0 0 0;
              id_ := 0;
              reference_count_ := 1;
              raw_buffer_ := mk_array3 true true true;
              raw_buffer_size_ := mk_array3 64 32 32 |}).
  - exists [], [Step_call (Call_GetBuffer 64 32)]. split.
    + vm_compute. repeat split.
    + vm_compute. reflexivity.
  - vm_compute. split; [discriminate|reflexivity].
  - vm_compute. reflexivity.
  - reflexivity.
Defined.

(** As long as the callers keep the discipline, the pool's methods stay
    inside their arrays and their objects. On a pool reached from the empty
    one by steps in which every [AddBufferReference] names a buffer in use
    ([disciplined_pool]), the next call is defined: [GetBuffer] whatever the
    sizes and whatever the allocator does, and for every id of a created
    buffer [ReleaseBuffer], [GetBuffer(id)], which finds the buffer whose
    [BufferPrivateData] is that id, and [AddBufferReference], short of an
    overflow of the reference count. ([AddBufferReference] on a buffer that
    is not in use is defined as well, but the pool it leads to is not a
    [disciplined_pool], and there a later [ReleaseBuffer] can write behind
    [free_buffers_].) *)
Theorem pool_methods_defined (w : World) :
  disciplined_pool w ->
  (forall y_plane_min_size uv_plane_min_size,
     exists r w',
       GetBuffer y_plane_min_size uv_plane_min_size w = Some (r, w')) /\
  (forall id, 0 <= id < all_buffer_count_ (manager w) ->
     (exists r w', ReleaseBuffer id w = Some (r, w')) /\
     (exists q b w',
        GetBuffer_id id w = Some (q, w') /\
        heap w !! q = Some b /\ BufferPrivateData b = id /\
        (reference_count_ b < INT_MAX ->
         exists w'', AddBufferReference id w = Some (tt, w'')))).
Proof.
  intros Hreach. apply disciplined_pool_pool_inv in Hreach. split.
  - intros y uv. by apply GetBuffer_defined.
  - intros id Hid. split; [by apply ReleaseBuffer_defined|].
    destruct (pool_inv_created w id Hreach Hid)
      as (q & b & Hq & Hb & Hidb & _).
    exists q, b. eexists. split; [|split; [done|split; [done|]]].
    + unfold GetBuffer_id. mrun. rewrite Hq. msimpl. reflexivity.
    + intros Hrc. unfold AddBufferReference. mrun. rewrite Hq. msimpl.
      rewrite Hb. unfold AddReference.
      destruct (Z.ltb_spec (reference_count_ b) INT_MAX); [|lia].
      cbn [heap]. rewrite Hb. by eexists.
Qed.

Lemma pool_methods_defined_witness :
  (forall y_plane_min_size uv_plane_min_size,
     exists r w',
       GetBuffer y_plane_min_size uv_plane_min_size
         (world_after shared_buffers) = Some (r, w')) /\
  (forall id,
     0 <= id < all_buffer_count_ (manager (world_after shared_buffers)) ->
     (exists r w',
        ReleaseBuffer id (world_after shared_buffers) = Some (r, w')) /\
     (exists q b w',
        GetBuffer_id id (world_after shared_buffers) = Some (q, w') /\
        heap (world_after shared_buffers) !! q = Some b /\
        BufferPrivateData b = id /\
        (reference_count_ b < INT_MAX ->
         exists w'',
           AddBufferReference id (world_after shared_buffers)
           = Some (tt, w'')))).
Proof.
  apply (pool_methods_defined (world_after shared_buffers)).
  exists [], (Step_call <$> shared_buffers). split.
  - vm_compute. repeat split.
  - vm_compute. reflexivity.
Defined.

(** ** The destructor of the manager *)

Lemma forallb_reverse {A} (f : A -> bool) (l : list A) :
  forallb f (reverse l) = forallb f l.
Proof.
  induction l as [|x l IH]; [done|].
  rewrite reverse_cons, forallb_app, IH. cbn. rewrite andb_true_r.
  apply andb_comm.
Qed.

Lemma locked_throughout_accesses a :
  forallb is_access a = true ->
  locked_throughout (Lock :: a ++ [Unlock]) = true.
Proof.
  intros Ha. cbn [locked_throughout].
  rewrite reverse_app. cbn. by rewrite forallb_reverse.
Qed.

Lemma destructor_loop_deletes fuel : forall deleted w,
  all_buffer_count_ (manager w) = Z.of_nat fuel ->
  take fuel (all_buffers_ (manager w)) = Some <$> seq 0 fuel ->
  exists w' t,
    destructor_loop fuel deleted w
      = Some (deleted ++ reverse (seq 0 fuel), w') /\
    all_buffer_count_ (manager w') = -1 /\ heap w' = heap w /\
    events w' = events w ++ t /\ forallb is_access t = true.
Proof.
  induction fuel as [|fuel IH]; intros deleted w Hcount Hall.
  - cbn [destructor_loop]. mrun. rewrite Hcount. cbn [Z.of_nat Z.eqb].
    eexists _, _. split; [by rewrite app_nil_r|]. cbn.
    split; [done|]. split; [done|]. rewrite <- app_assoc. done.
  - cbn [destructor_loop]. mrun. rewrite Hcount.
    destruct (Z.eqb_spec (Z.of_nat (S fuel)) 0); [lia|].
    msimpl. unfold array_get.
    destruct (Z.leb_spec 0 (Z.of_nat (S fuel) - 1)); [|lia].
    replace (Z.to_nat (Z.of_nat (S fuel) - 1)) with fuel by lia.
    assert (all_buffers_ (manager w) !! fuel
            = (Some (Some fuel) : option (option ptr))) as Hget.
    { pose proof (f_equal (fun l => l !! fuel) Hall) as Hl. cbn beta in Hl.
      rewrite lookup_take_lt in Hl by lia.
      rewrite list_lookup_fmap, lookup_seq_lt in Hl by lia. exact Hl. }
    rewrite Hget. msimpl.
    match goal with
    | |- context [destructor_loop fuel ?d ?w1] =>
        destruct (IH d w1) as (w' & t & -> & Hc & Hh & He & Ht)
    end.
    { cbn. lia. }
    { cbn. apply (f_equal (take fuel)) in Hall.
      rewrite take_take, Nat.min_l in Hall by lia. rewrite Hall.
      rewrite <- fmap_take, seq_S, take_app_length'; [done|].
      by rewrite length_seq. }
    eexists w', _.
    split; [by rewrite seq_S, reverse_app, <- app_assoc|].
    split; [done|]. split; [done|]. split.
    + rewrite He. cbn [events]. rewrite <- !app_assoc. reflexivity.
    + cbn. done.
Qed.

Lemma mutex_discipline_accesses a :
  forallb is_access a = true ->
  mutex_discipline true (a ++ [Unlock]) = Some false.
Proof.
  induction a as [|e a IH]; intros Ha; [done|].
  cbn [forallb] in Ha. apply andb_true_iff in Ha as [He Ha].
  destruct e; try done; cbn [app mutex_discipline]; by apply IH.
Qed.

(** The destructor of [JniBufferManager], on a pool reached from the empty
    one by steps in which every [AddBufferReference] names a buffer in use,
    deletes every frame buffer that was ever created exactly once, the
    latest first, and nothing else: the pointers it hands to [delete] are
    those of all the objects of the heap. It holds the mutex from its first
    access to its last: its events start with taking the mutex, end with
    dropping it, and between the two there are only reads and writes. It
    leaves [all_buffer_count_] at -1. *)
Theorem JniBufferManager_destructor_deletes_all (w : World) :
  disciplined_pool w ->
  exists w' t,
    JniBufferManager_destructor w
      = Some (reverse (seq 0 (length (heap w))), w') /\
    all_buffer_count_ (manager w') = -1 /\ heap w' = heap w /\
    events w' = events w ++ t /\
    locked_throughout t = true /\ mutex_discipline false t = Some false.
Proof.
  intros Hreach. apply disciplined_pool_pool_inv in Hreach as (n & free & []).
  unfold JniBufferManager_destructor, lock_guard.
  unfold bind at 1, emit at 1. unfold bind at 1.
  unfold bind at 1, get_manager at 1. cbn [manager].
  rewrite inv_all_count0, Nat2Z.id.
  match goal with
  | |- context [destructor_loop n ?d ?w1] =>
      destruct (destructor_loop_deletes n d w1)
        as (w' & t & -> & Hc & Hh & He & Ht); [done|done|]
  end.
  mrun. exists {| manager := manager w'; heap := heap w';
                  allocator := allocator w';
                  events := events w' ++ [Unlock] |}, (Lock :: t ++ [Unlock]).
  split; [rewrite inv_heap_length0; reflexivity|].
  cbn [manager heap events]. split; [done|]. split; [done|]. split.
  - rewrite He. cbn [events]. rewrite <- !app_assoc. reflexivity.
  - split; [by apply locked_throughout_accesses|].
    cbn [mutex_discipline]. by apply mutex_discipline_accesses.
Qed.

Lemma JniBufferManager_destructor_deletes_all_witness :
  exists w' t,
    JniBufferManager_destructor (world_after shared_buffers)
      = Some (reverse (seq 0 (length (heap (world_after shared_buffers)))),
              w') /\
    all_buffer_count_ (manager w') = -1 /\
    heap w' = heap (world_after shared_buffers) /\
    events w' = events (world_after shared_buffers) ++ t /\
    locked_throughout t = true /\ mutex_discipline false t = Some false.
Proof.
  apply (JniBufferManager_destructor_deletes_all
           (world_after shared_buffers)).
  exists [], (Step_call <$> shared_buffers). split.
  - vm_compute. repeat split.
  - vm_compute. reflexivity.
Defined.

(** ** The entry points *)

Tactic Notation "split_eqb" hyp(H) "as" ident(n) :=
  lazymatch type of H with
  | (if negb (?a =? ?b) then _ else _) = _ =>
      destruct (Z.eqb_spec a b) as [n|n]; cbn [negb] in H
  | (if ?a =? ?b then _ else _) = _ => destruct (Z.eqb_spec a b) as [n|n]
  end.

Tactic Notation "split_bool" hyp(H) "as" ident(n) :=
  lazymatch type of H with
  | (if negb ?c then _ else _) = _ => destruct c eqn:n; cbn [negb] in H
  | (if ?c then _ else _) = _ => destruct c eqn:n
  end.

Ltac bound H := cbn [mbind option_bind fst snd] in H.

Lemma gav1CheckError_Ok pr :
  avid_status_code (context pr) = 0 ->
  jni_status_code (context pr) = kJniStatusOk ->
  gav1CheckError pr = kStatusOk.
Proof. unfold gav1CheckError. by intros -> ->. Qed.

Lemma gav1CheckError_jni pr :
  jni_status_code (context pr) <> kJniStatusOk ->
  gav1CheckError pr = kStatusError.
Proof.
  unfold gav1CheckError. intros Hc.
  destruct (jni_status_code (context pr)); try done;
    by rewrite orb_true_r.
Qed.

Lemma gav1CheckError_avid pr :
  avid_status_code (context pr) <> 0 -> gav1CheckError pr = kStatusError.
Proof.
  unfold gav1CheckError. intros Hc.
  by destruct (Z.eqb_spec (avid_status_code (context pr)) 0).
Qed.

Lemma JniStatusCode_eqb_eq a b : JniStatusCode_eqb a b = true <-> a = b.
Proof. split; [by destruct a, b|intros ->; by destruct b]. Qed.

Lemma steps_snoc ss : forall w0 w s w',
  steps ss w0 = Some (tt, w) -> step s w = Some (tt, w') ->
  steps (ss ++ [s]) w0 = Some (tt, w').
Proof.
  induction ss as [|s0 ss IH]; intros w0 w s w' H Hs.
  - cbn [steps] in H. unfold ret in H. simplify_eq.
    cbn [app steps]. unfold bind. by rewrite Hs.
  - cbn [steps] in H. apply bind_Some in H as ([] & w1 & H1 & H).
    cbn [app steps]. unfold bind at 1. rewrite H1. by eapply IH.
Qed.

Lemma disciplined_steps_snoc ss : forall w0 w s,
  disciplined_steps ss w0 -> steps ss w0 = Some (tt, w) ->
  disciplined_steps [s] w -> disciplined_steps (ss ++ [s]) w0.
Proof.
  induction ss as [|s0 ss IH]; intros w0 w s Hd H Hs.
  - cbn [steps] in H. unfold ret in H. by simplify_eq.
  - cbn [steps] in H. apply bind_Some in H as ([] & w1 & H1 & H).
    cbn [app disciplined_steps] in *. destruct Hd as [Hd0 Hd].
    split; [done|]. rewrite H1 in *. by eapply IH.
Qed.

Lemma disciplined_pool_step s w w' :
  disciplined_pool w -> disciplined_steps [s] w -> step s w = Some (tt, w') ->
  disciplined_pool w'.
Proof.
  intros (al & ss & Hd & H) Hs Hstep. exists al, (ss ++ [s]). split.
  - by eapply disciplined_steps_snoc.
  - by eapply steps_snoc.
Qed.

Lemma disciplined_pool_GetBuffer y uv w r w' :
  disciplined_pool w -> GetBuffer y uv w = Some (r, w') -> disciplined_pool w'.
Proof.
  intros Hw H.
  apply (disciplined_pool_step (Step_call (Call_GetBuffer y uv)) w w' Hw);
    cbn [disciplined_steps step call]; unfold bind; rewrite H; done.
Qed.



Lemma disciplined_pool_SetFrameData (q : ptr) pic b b' w :
  disciplined_pool w -> heap w !! q = Some b -> SetFrameData pic b = Some b' ->
  disciplined_pool {| manager := manager w; heap := <[q := b']> (heap w);
               allocator := allocator w; events := events w |}.
Proof.
  intros Hw Hb Hset.
  apply (disciplined_pool_step (Step_SetFrameData q pic) w _ Hw);
    cbn [disciplined_steps step]; mrun; rewrite Hb, Hset; cbn [heap];
    rewrite ?Hb; done.
Qed.

(** What every way through [gav1GetFrame] has in common. *)
Lemma gav1GetFrame_outcome env pr ob d st pr' ob' :
  gav1GetFrame env pr ob d = Some (st, pr', ob') ->
  let pic := (dav1d_get_picture env).2 in
  let yuv_call :=
    initForYuvFrame env ob
      (DAV1D_API.w (DAV1D_API.p pic)) (DAV1D_API.h (DAV1D_API.p pic))
      (to_int (elt2_0 (DAV1D_API.stride pic)))
      (to_int (elt2_1 (DAV1D_API.stride pic))) kColorSpaceUnknown in
  let private_call :=
    initForPrivateFrame env ob
      (DAV1D_API.w (DAV1D_API.p pic)) (DAV1D_API.h (DAV1D_API.p pic)) in
  (st = kStatusOk /\ d = false /\ gav1CheckError pr' = kStatusOk \/
   st = kStatusDecodeOnly /\ d = true /\
   pr' = set_context pr (set_avid_status_code (context pr) 0) /\ ob' = ob \/
   st = kStatusError /\
   (gav1CheckError pr' = kStatusError \/
    mode ob = kOutputModeYuv /\ thrown yuv_call = true \/
    mode ob = kOutputModeSurfaceYuv /\ thrown private_call = true)) /\
  (st <> kStatusOk \/ mode ob <> kOutputModeYuv -> memory pr' = memory pr) /\
  (disciplined_pool (pool (context pr)) -> disciplined_pool (pool (context pr'))).
Proof.
  intros H. unfold gav1GetFrame in H.
  destruct (dav1d_get_picture env) as [status pic] eqn:Hpic.
  cbn [snd]. cbn zeta.
  assert (forall (A B C : Prop), A -> B -> C -> A /\ B /\ C) as Hsplit
    by done.
  split_eqb H as Hstatus.
  2:{ injection H as <- <- <-. apply Hsplit; [|done|done].
      right; right. split; [done|]. left. by apply gav1CheckError_avid. }
  subst status.
  split_bool H as Hd.
  { injection H as <- <- <-. apply Hsplit; [|done|done]. right; left. done. }
  destruct (GetBuffer _ _ _) as [[[code o] pool']|] eqn:HGet; [|done].
  bound H. cbn [pool set_avid_status_code] in HGet.
  assert (disciplined_pool (pool (context pr)) -> disciplined_pool pool') as Hreach.
  { intros Hw. by eapply disciplined_pool_GetBuffer. }
  split_bool H as Hcode.
  2:{ injection H as <- <- <-. apply Hsplit; [|done|done].
      right; right. split; [done|]. left. apply gav1CheckError_jni. cbn.
      intros ->. done. }
  apply JniStatusCode_eqb_eq in Hcode. subst code.
  destruct o as [q|]; [|done]. bound H.
  split_eqb H as Hmode.
  { split_bool H as Hthrown.
    { injection H as <- <- <-. apply Hsplit; [|done|done].
      right; right. split; [done|]. right; left. done. }
    split_bool H as Hreturned.
    2:{ injection H as <- <- <-. apply Hsplit; [|done|done].
        right; right. split; [done|]. left. by apply gav1CheckError_jni. }
    split_eqb H as Hbpc.
    { destruct (CopyFrameToDataBuffer _ _ _ _ _) as [[mem lg]|] eqn:Hcopy;
        [|done].
      bound H. injection H as <- <- <-. apply Hsplit; [| |done].
      - left. split; [done|]. split; [done|]. by apply gav1CheckError_Ok.
      - intros [?|?]; done. }
    split_eqb H as Hbpc10.
    2:{ injection H as <- <- <-. apply Hsplit; [|done|done].
        right; right. split; [done|]. left. by apply gav1CheckError_jni. }
    destruct (Convert10BitFrameTo8BitDataBuffer _ _ _ _) as [[mem lg]|]
      eqn:Hconvert; [|done].
    bound H. injection H as <- <- <-. apply Hsplit; [| |done].
    - left. split; [done|]. split; [done|]. by apply gav1CheckError_Ok.
    - intros [?|?]; done. }
  split_eqb H as Hsurface.
  2:{ injection H as <- <- <-. apply Hsplit; [|done|done].
      left. split; [done|]. split; [done|]. by apply gav1CheckError_Ok. }
  split_eqb H as Hbpc.
  2:{ injection H as <- <- <-. apply Hsplit; [|done|done].
      right; right. split; [done|]. left. by apply gav1CheckError_jni. }
  unfold deref, store in H.
  cbn [pool set_pool set_jni_status_code set_avid_status_code] in H.
  destruct (heap pool' !! q) as [b|] eqn:Hb; [|done]. bound H.
  destruct (SetFrameData pic b) as [b'|] eqn:Hset; [|done].
  cbn [mbind option_bind heap] in H. rewrite Hb in H. bound H.
  assert (disciplined_pool (pool (context pr)) ->
          disciplined_pool {| manager := manager pool';
                       heap := <[q := b']> (heap pool');
                       allocator := allocator pool';
                       events := events pool' |}) as Hreach2.
  { intros Hw. eapply disciplined_pool_SetFrameData; eauto. }
  split_bool H as Hthrown; injection H as <- <- <-;
    (apply Hsplit; [|done|done]).
  - right; right. split; [done|]. right; right. done.
  - left. split; [done|]. split; [done|]. by apply gav1CheckError_Ok.
Qed.

(** What [gav1GetFrame] returns and what [gav1CheckError] says afterwards.
    After [kStatusOk] the context is free of errors, also of earlier ones:
    [gav1CheckError] returns [kStatusOk]. [kStatusDecodeOnly] is returned
    exactly for a decoded picture with [decodeOnly] set, and then only the
    decoder status has been written. After [kStatusError] the error is in
    the context, so that [gav1CheckError] returns [kStatusError], unless it
    was a Java exception that made the call fail. *)
Theorem gav1GetFrame_status_and_gav1CheckError (env : Env)
    (pr pr' : Process) (jOutputBuffer jOutputBuffer' : OutputBuffer)
    (decodeOnly : bool) (status : Z) :
  gav1GetFrame env pr jOutputBuffer decodeOnly
    = Some (status, pr', jOutputBuffer') ->
  let pic := (dav1d_get_picture env).2 in
  let yuv_call :=
    initForYuvFrame env jOutputBuffer
      (DAV1D_API.w (DAV1D_API.p pic)) (DAV1D_API.h (DAV1D_API.p pic))
      (to_int (elt2_0 (DAV1D_API.stride pic)))
      (to_int (elt2_1 (DAV1D_API.stride pic))) kColorSpaceUnknown in
  let private_call :=
    initForPrivateFrame env jOutputBuffer
      (DAV1D_API.w (DAV1D_API.p pic)) (DAV1D_API.h (DAV1D_API.p pic)) in
  status = kStatusOk /\ decodeOnly = false /\
  gav1CheckError pr' = kStatusOk \/
  status = kStatusDecodeOnly /\ decodeOnly = true /\
  pr' = set_context pr (set_avid_status_code (context pr) 0) /\
  jOutputBuffer' = jOutputBuffer \/
  status = kStatusError /\
  (gav1CheckError pr' = kStatusError \/
   mode jOutputBuffer = kOutputModeYuv /\ thrown yuv_call = true \/
   mode jOutputBuffer = kOutputModeSurfaceYuv /\ thrown private_call = true).
Proof. intros H. by apply gav1GetFrame_outcome in H as (H & _ & _). Qed.

Lemma gav1GetFrame_status_and_gav1CheckError_witness :
  let pic := (dav1d_get_picture demo_env).2 in
  let yuv_call :=
    initForYuvFrame demo_env surface_frame
      (DAV1D_API.w (DAV1D_API.p pic)) (DAV1D_API.h (DAV1D_API.p pic))
      (to_int (elt2_0 (DAV1D_API.stride pic)))
      (to_int (elt2_1 (DAV1D_API.stride pic))) kColorSpaceUnknown in
  let private_call :=
    initForPrivateFrame demo_env surface_frame
      (DAV1D_API.w (DAV1D_API.p pic)) (DAV1D_API.h (DAV1D_API.p pic)) in
  decoded_for_surface.1.1 = kStatusOk /\ false = false /\
  gav1CheckError decoded_for_surface.1.2 = kStatusOk \/
  decoded_for_surface.1.1 = kStatusDecodeOnly /\ false = true /\
  decoded_for_surface.1.2
  = set_context fresh_process
      (set_avid_status_code (context fresh_process) 0) /\
  decoded_for_surface.2 = surface_frame \/
  decoded_for_surface.1.1 = kStatusError /\
  (gav1CheckError decoded_for_surface.1.2 = kStatusError \/
   mode surface_frame = kOutputModeYuv /\ thrown yuv_call = true \/
   mode surface_frame = kOutputModeSurfaceYuv /\
   thrown private_call = true).
Proof.
  apply (gav1GetFrame_status_and_gav1CheckError demo_env fresh_process
           decoded_for_surface.1.2 surface_frame decoded_for_surface.2
           false decoded_for_surface.1.1).
  vm_compute. reflexivity.
Defined.

(** [gav1GetFrame] writes to the process memory only when it delivers a
    frame in YUV mode: after every other call, failed or not, each byte of
    the memory is as it was. *)
Theorem gav1GetFrame_writes_only_yuv_frames (env : Env) (pr pr' : Process)
    (jOutputBuffer jOutputBuffer' : OutputBuffer) (decodeOnly : bool)
    (status : Z) :
  gav1GetFrame env pr jOutputBuffer decodeOnly
    = Some (status, pr', jOutputBuffer') ->
  status <> kStatusOk \/ mode jOutputBuffer <> kOutputModeYuv ->
  memory pr' = memory pr.
Proof. intros H. by apply gav1GetFrame_outcome in H as (_ & H & _). Qed.

Lemma gav1GetFrame_writes_only_yuv_frames_witness :
  memory decoded_for_surface.1.2 = memory fresh_process.
Proof.
  apply (gav1GetFrame_writes_only_yuv_frames demo_env fresh_process
           decoded_for_surface.1.2 surface_frame decoded_for_surface.2
           false decoded_for_surface.1.1).
  - vm_compute. reflexivity.
  - right. vm_compute. discriminate.
Defined.

Lemma GetBuffer_Ok_available y uv w q w' :
  GetBuffer y uv w = Some ((kJniStatusOk, Some q), w') ->
  available (manager w') = available (manager w) - 1.
Proof.
  intros H. apply GetBuffer_inv in H. cbn zeta in H. unfold available.
  destruct H as [(_ & q0 & b & b' & _ & _ & _ & -> & _)
                |[(_ & _ & a & b' & _ & _ & -> & _)|(_ & ? & _)]];
    [cbn; lia|cbn; lia|done].
Qed.

(** A frame delivered in YUV mode keeps its buffer. When [gav1GetFrame]
    returns [kStatusOk] in YUV mode it has taken a buffer from the pool, so
    that one less is available, and has not written the buffer's id
    anywhere: the Java object is as [initForYuvFrame] left it, and
    [gav1ReleaseFrame] on it, with [decoderPrivate] negative as a released
    or new output buffer has it, gives nothing back to the pool. *)
Theorem gav1GetFrame_yuv_keeps_buffer (env : Env) (pr pr' : Process)
    (jOutputBuffer jOutputBuffer' : OutputBuffer) :
  gav1GetFrame env pr jOutputBuffer false
    = Some (kStatusOk, pr', jOutputBuffer') ->
  mode jOutputBuffer = kOutputModeYuv ->
  let pic := (dav1d_get_picture env).2 in
  available (manager (pool (context pr')))
  = available (manager (pool (context pr))) - 1 /\
  jOutputBuffer'
  = after (initForYuvFrame env jOutputBuffer
             (DAV1D_API.w (DAV1D_API.p pic)) (DAV1D_API.h (DAV1D_API.p pic))
             (to_int (elt2_0 (DAV1D_API.stride pic)))
             (to_int (elt2_1 (DAV1D_API.stride pic))) kColorSpaceUnknown) /\
  (decoderPrivate jOutputBuffer' < 0 ->
   exists o, gav1ReleaseFrame pr' jOutputBuffer' = Some (pr', o)).
Proof.
  intros H Hmode. unfold gav1GetFrame in H.
  destruct (dav1d_get_picture env) as [status pic] eqn:Hpic.
  cbn [snd]. cbn zeta.
  split_eqb H as Hstatus; [|done]. subst status.
  destruct (GetBuffer _ _ _) as [[[code o] pool']|] eqn:HGet; [|done].
  bound H. split_bool H as Hcode; [|done].
  apply JniStatusCode_eqb_eq in Hcode. subst code.
  destruct o as [q|]; [|done]. bound H.
  apply GetBuffer_Ok_available in HGet.
  cbn [pool set_avid_status_code] in HGet.
  rewrite Hmode, Z.eqb_refl in H.
  split_bool H as Hthrown; [done|].
  split_bool H as Hreturned; [|done].
  split_eqb H as Hbpc.
  { destruct (CopyFrameToDataBuffer _ _ _ _ _) as [[mem lg]|]; [|done].
    bound H. injection H as <- <-. cbn. split; [done|]. split; [done|].
    intros Hneg. unfold gav1ReleaseFrame.
    destruct (Z.ltb_spec (decoderPrivate
                (after (initForYuvFrame env jOutputBuffer
                   (DAV1D_API.w (DAV1D_API.p pic))
                   (DAV1D_API.h (DAV1D_API.p pic))
                   (to_int (elt2_0 (DAV1D_API.stride pic)))
                   (to_int (elt2_1 (DAV1D_API.stride pic)))
                   kColorSpaceUnknown))) 0); [|lia].
    by eexists. }
  split_eqb H as Hbpc10; [|done].
  destruct (Convert10BitFrameTo8BitDataBuffer _ _ _ _) as [[mem lg]|];
    [|done].
  bound H. injection H as <- <-. cbn. split; [done|]. split; [done|].
  intros Hneg. unfold gav1ReleaseFrame.
  destruct (Z.ltb_spec (decoderPrivate
              (after (initForYuvFrame env jOutputBuffer
                 (DAV1D_API.w (DAV1D_API.p pic))
                 (DAV1D_API.h (DAV1D_API.p pic))
                 (to_int (elt2_0 (DAV1D_API.stride pic)))
                 (to_int (elt2_1 (DAV1D_API.stride pic)))
                 kColorSpaceUnknown))) 0); [|lia].
  by eexists.
Qed.

Lemma gav1GetFrame_yuv_keeps_buffer_witness :
  let pic := (dav1d_get_picture demo_env).2 in
  available (manager (pool (context decoded_for_yuv.1.2)))
  = available (manager (pool (context fresh_process))) - 1 /\
  decoded_for_yuv.2
  = after (initForYuvFrame demo_env yuv_frame
             (DAV1D_API.w (DAV1D_API.p pic)) (DAV1D_API.h (DAV1D_API.p pic))
             (to_int (elt2_0 (DAV1D_API.stride pic)))
             (to_int (elt2_1 (DAV1D_API.stride pic))) kColorSpaceUnknown) /\
  (decoderPrivate decoded_for_yuv.2 < 0 ->
   exists o,
     gav1ReleaseFrame decoded_for_yuv.1.2 decoded_for_yuv.2
     = Some (decoded_for_yuv.1.2, o)).
Proof.
  apply (gav1GetFrame_yuv_keeps_buffer demo_env fresh_process
           decoded_for_yuv.1.2 yuv_frame decoded_for_yuv.2).
  - vm_compute. reflexivity.
  - reflexivity.
Defined.

(** A frame for a surface, delivered and released. When the pool is one
    reached from the empty one by steps in which every [AddBufferReference]
    names a buffer in use ([disciplined_pool]; the entry points keep it so)
    and [gav1GetFrame] returns [kStatusOk] in surface mode, [decoderPrivate] holds the id of the frame's buffer, which
    is referenced once and carries the planes of the picture;
    [gav1ReleaseFrame] on that output buffer then succeeds, leaves the
    buffer unreferenced and as many buffers available as before the
    frame. *)
Theorem gav1GetFrame_gav1ReleaseFrame_round_trip (env : Env)
    (pr pr' : Process) (jOutputBuffer jOutputBuffer' : OutputBuffer) :
  disciplined_pool (pool (context pr)) ->
  gav1GetFrame env pr jOutputBuffer false
    = Some (kStatusOk, pr', jOutputBuffer') ->
  mode jOutputBuffer = kOutputModeSurfaceYuv ->
  exists b pr'' b'',
    buffer_at (pool (context pr')) (decoderPrivate jOutputBuffer') = Some b /\
    reference_count_ b = 1 /\
    SetFrameData (dav1d_get_picture env).2 b = Some b /\
    gav1ReleaseFrame pr' jOutputBuffer'
      = Some (pr'', set_decoderPrivate jOutputBuffer' (-1)) /\
    jni_status_code (context pr'') = kJniStatusOk /\
    logcat pr'' = logcat pr /\
    buffer_at (pool (context pr'')) (decoderPrivate jOutputBuffer')
      = Some b'' /\
    reference_count_ b'' = 0 /\
    available (manager (pool (context pr'')))
    = available (manager (pool (context pr))).
Proof.
  intros Hreach H Hmode. apply disciplined_pool_pool_inv in Hreach.
  unfold gav1GetFrame in H.
  destruct (dav1d_get_picture env) as [status pic] eqn:Hpic. cbn [snd].
  split_eqb H as Hstatus; [|done]. subst status.
  destruct (GetBuffer _ _ _) as [[[code o] pool']|] eqn:HGet; [|done].
  bound H. split_bool H as Hcode; [|done].
  apply JniStatusCode_eqb_eq in Hcode. subst code.
  destruct o as [q|]; [|done]. bound H.
  cbn [pool set_avid_status_code] in HGet.
  pose proof (GetBuffer_Ok_available _ _ _ _ _ HGet) as Hav.
  pose proof (pool_inv_GetBuffer _ _ _ _ _ Hreach HGet) as Hinv'.
  destruct (GetBuffer_Ok_reference_count _ _ _ _ _ Hreach HGet)
    as (b0 & Hb0 & Hrc0).
  rewrite Hmode in H.
  change (kOutputModeSurfaceYuv =? kOutputModeYuv) with false in H.
  rewrite Z.eqb_refl in H.
  split_eqb H as Hbpc; [|done].
  unfold deref, store in H.
  cbn [pool set_pool set_jni_status_code set_avid_status_code] in H.
  rewrite Hb0 in H. bound H.
  destruct (SetFrameData pic b0) as [b|] eqn:Hset; [|done].
  cbn [mbind option_bind heap] in H. rewrite Hb0 in H. bound H.
  split_bool H as Hthrown; [done|]. injection H as <- <-.
  pose proof (SetFrameData_keeps _ _ _ Hset) as (Hid & Hrc & _ & _).
  destruct Hinv' as (n & free & Hinv'). pose proof Hinv' as [].
  destruct (inv_ids0 q b0 Hb0) as (Hidq & _).
  assert (q < n)%nat as Hqn.
  { rewrite <- inv_heap_length0. by eapply lookup_lt_Some. }
  pose proof (inv_all_get Hinv' (Z.of_nat q) ltac:(lia)) as Hget.
  rewrite Nat2Z.id in Hget.
  set (pool2 := {| manager := manager pool';
                   heap := <[q := b]> (heap pool');
                   allocator := allocator pool';
                   events := events pool' |}).
  assert (pool_inv pool2) as Hinv2.
  { exists n, free. cbn [pool2 manager heap].
    apply (pool_inv_at_update Hinv' q b0 b); [done|done|lia|].
    intros Hfree. destruct (inv_free_refs0 q Hfree) as (bf & Hbf & Hz).
    rewrite Hb0 in Hbf. injection Hbf as <-. lia. }
  assert (heap pool2 !! q = Some b) as Hb2.
  { cbn [pool2 heap]. apply list_lookup_insert_eq.
    by eapply lookup_lt_Some. }
  unfold BufferPrivateData. cbn [decoderPrivate set_decoderPrivate].
  assert (buffer_at pool2 (id_ b) = Some b) as Hat.
  { unfold buffer_at. cbn [pool2 manager]. rewrite Hid, Hidq, Hget.
    exact Hb2. }
  assert (0 <= id_ b < all_buffer_count_ (manager pool2)) as Hrange.
  { cbn [pool2 manager]. rewrite Hid, Hidq, inv_all_count0. lia. }
  destruct (ReleaseBuffer_defined (id_ b) pool2 Hinv2 Hrange)
    as (r & w'' & Hrel).
  pose proof (ReleaseBuffer_inv _ _ _ _ Hrel) as Hcase. cbn zeta in Hcase.
  destruct Hcase as (q' & b2 & Hq' & Hb2' & Hcase).
  cbn [pool2 manager] in Hq'. rewrite Hid, Hidq, Hget in Hq'.
  injection Hq' as <-. rewrite Hb2 in Hb2'. injection Hb2' as <-.
  destruct Hcase as [(? & _)|[(_ & ? & _)|(_ & -> & f & Hf & Hm & Hh & _)]];
    [lia|lia|].
  exists b. eexists. exists (set_reference_count b 0).
  split; [exact Hat|]. split; [lia|].
  split.
  { rewrite SetFrameData_eq in Hset. injection Hset as <-.
    by rewrite SetFrameData_eq. }
  split.
  { unfold gav1ReleaseFrame.
    cbn [decoderPrivate set_decoderPrivate context set_context pool
         set_pool].
    destruct (Z.ltb_spec (id_ b) 0); [lia|].
    fold pool2. rewrite Hrel. cbn [mbind option_bind negb JniStatusCode_eqb].
    reflexivity. }
  cbn [context set_context set_jni_status_code jni_status_code pool
       set_pool logcat].
  split; [done|]. split; [done|]. subst pool2. cbn [manager heap] in *.
  split.
  { unfold buffer_at. rewrite Hm. cbn [manager all_buffers_].
    rewrite Hid, Hidq, Hget, Hh.
    apply list_lookup_insert_eq. by eapply lookup_lt_Some. }
  split; [done|].
  rewrite Hm. unfold available in *.
  cbn [manager all_buffer_count_ free_buffer_count_]. lia.
Qed.

Lemma gav1GetFrame_gav1ReleaseFrame_round_trip_witness :
  exists b pr'' b'',
    buffer_at (pool (context decoded_for_surface.1.2))
      (decoderPrivate decoded_for_surface.2) = Some b /\
    reference_count_ b = 1 /\
    SetFrameData (dav1d_get_picture demo_env).2 b = Some b /\
    gav1ReleaseFrame decoded_for_surface.1.2 decoded_for_surface.2
      = Some (pr'', set_decoderPrivate decoded_for_surface.2 (-1)) /\
    jni_status_code (context pr'') = kJniStatusOk /\
    logcat pr'' = logcat fresh_process /\
    buffer_at (pool (context pr'')) (decoderPrivate decoded_for_surface.2)
      = Some b'' /\
    reference_count_ b'' = 0 /\
    available (manager (pool (context pr'')))
    = available (manager (pool (context fresh_process))).
Proof.
  apply (gav1GetFrame_gav1ReleaseFrame_round_trip demo_env fresh_process
           decoded_for_surface.1.2 surface_frame decoded_for_surface.2).
  - exists [], []. split; [exact I|reflexivity].
  - vm_compute. reflexivity.
  - reflexivity.
Defined.

(** A frame released twice through the pool is reported. When the buffer
    that [decoderPrivate] names is not in use, [gav1ReleaseFrame] leaves the
    pool's manager and frame buffers alone, logs
    [JNI buffer already released.] and leaves an error in the context:
    [gav1CheckError] returns [kStatusError] and, the decoder status being
    zero, [gav1GetErrorMessage] gives that message. *)
Theorem gav1ReleaseFrame_reports_released_buffer (pr : Process)
    (jOutputBuffer : OutputBuffer) (b : JniFrameBuffer) :
  0 <= decoderPrivate jOutputBuffer ->
  buffer_at (pool (context pr)) (decoderPrivate jOutputBuffer) = Some b ->
  reference_count_ b = 0 ->
  avid_status_code (context pr) = 0 ->
  exists pr',
    gav1ReleaseFrame pr jOutputBuffer
      = Some (pr', set_decoderPrivate jOutputBuffer (-1)) /\
    manager (pool (context pr')) = manager (pool (context pr)) /\
    heap (pool (context pr')) = heap (pool (context pr)) /\
    logcat pr'
    = logcat pr ++ [LOGE "%s" [StrArg "JNI buffer already released."]] /\
    gav1CheckError pr' = kStatusError /\
    gav1GetErrorMessage (Some pr') = Some "JNI buffer already released."%string.
Proof.
  intros Hid Hb Hrc Havid. unfold buffer_at in Hb.
  destruct (array_get _ _) as [[q|]|] eqn:Hq; [|done|done].
  unfold gav1ReleaseFrame.
  destruct (Z.ltb_spec (decoderPrivate jOutputBuffer) 0); [lia|].
  unfold ReleaseBuffer. mrun. rewrite Hq. msimpl. rewrite Hb.
  unfold InUse. rewrite Hrc. cbn [Z.eqb negb mbind option_bind].
  cbn [JniStatusCode_eqb negb]. eexists. split; [reflexivity|].
  unfold gav1CheckError, gav1GetErrorMessage. cbn. rewrite Havid. done.
Qed.

Lemma gav1ReleaseFrame_reports_released_buffer_witness :
  exists pr',
    gav1ReleaseFrame released_process private_frame
      = Some (pr', set_decoderPrivate private_frame (-1)) /\
    manager (pool (context pr')) = manager (pool (context released_process)) /\
    heap (pool (context pr')) = heap (pool (context released_process)) /\
    logcat pr'
    = logcat released_process
      ++ [LOGE "%s" [StrArg "JNI buffer already released."]] /\
    gav1CheckError pr' = kStatusError /\
    gav1GetErrorMessage (Some pr') = Some "JNI buffer already released."%string.
Proof.
  apply (gav1ReleaseFrame_reports_released_buffer released_process
           private_frame
           {| stride_ := mk_array3 0 0 0;
              plane_ := mk_array3 0 0 0;
              displayed_width_ := mk_array3 0 0 0;
              displayed_height_ := mk_array3 0 0 0;
              id_ := 0;
              reference_count_ := 0;
              raw_buffer_ := mk_array3 true true true;
              raw_buffer_size_ := mk_array3 64 32 32 |}).
  - cbn. lia.
  - vm_compute. reflexivity.
  - reflexivity.
  - reflexivity.
Defined.

(** ** Decoding and the error reports *)

(** [gav1Decode] touches neither the pool nor the memory. It returns
    [kStatusError] exactly when [dav1d_data_wrap] fails or
    [dav1d_send_data] fails with something other than [DAV1D_ERR(EAGAIN)],
    and then logs one line and leaves the decoder's answer in the context,
    so that [gav1CheckError] returns [kStatusError] as well; otherwise it
    returns [kStatusOk] and logs nothing. *)
Theorem gav1Decode_status (env : DecodeEnv) (pr : Process) :
  let r := gav1Decode env pr in
  pool (context r.2) = pool (context pr) /\
  memory r.2 = memory pr /\
  jni_status_code (context r.2) = jni_status_code (context pr) /\
  (if (dav1d_data_wrap env =? 0)
      && ((dav1d_send_data env =? 0)
          || (dav1d_send_data env =? DAV1D_ERR_EAGAIN env))
   then r.1 = kStatusOk /\ logcat r.2 = logcat pr /\
        avid_status_code (context r.2) = dav1d_send_data env
   else r.1 = kStatusError /\ gav1CheckError r.2 = kStatusError /\
        exists line, logcat r.2 = logcat pr ++ [line]).
Proof.
  cbn zeta. unfold gav1Decode.
  cbn [set_avid_status_code avid_status_code].
  destruct (Z.eqb_spec (dav1d_data_wrap env) 0) as [Hw|Hw];
    cbn [negb andb].
  - destruct (Z.eqb_spec (dav1d_send_data env) 0) as [Hs|Hs];
      cbn [negb andb orb]; [done|].
    destruct (Z.eqb_spec (dav1d_send_data env) (DAV1D_ERR_EAGAIN env));
      cbn [negb]; [done|].
    cbn. repeat split; [|by eexists].
    by apply gav1CheckError_avid.
  - cbn. repeat split; [|by eexists]. by apply gav1CheckError_avid.
Qed.

(** The decoder's [EAGAIN] is not an error for [gav1Decode] but is one for
    [gav1CheckError]: when [dav1d_send_data] answers [DAV1D_ERR(EAGAIN)]
    (a value other than zero), [gav1Decode] returns [kStatusOk] and logs
    nothing, yet it has left that value in the context, so that
    [gav1CheckError] right after it returns [kStatusError], and
    [gav1GetErrorMessage] casts the value to a string pointer, which is
    undefined. *)
Theorem gav1Decode_EAGAIN_then_gav1CheckError (env : DecodeEnv)
    (pr : Process) :
  dav1d_data_wrap env = 0 ->
  dav1d_send_data env = DAV1D_ERR_EAGAIN env ->
  DAV1D_ERR_EAGAIN env <> 0 ->
  (gav1Decode env pr).1 = kStatusOk /\
  logcat (gav1Decode env pr).2 = logcat pr /\
  gav1CheckError (gav1Decode env pr).2 = kStatusError /\
  gav1GetErrorMessage (Some (gav1Decode env pr).2) = None.
Proof.
  intros Hw Hs He. unfold gav1Decode.
  cbn [set_avid_status_code avid_status_code]. rewrite Hw, Hs.
  cbn [Z.eqb negb]. rewrite Z.eqb_refl.
  destruct (Z.eqb_spec (DAV1D_ERR_EAGAIN env) 0); [done|].
  cbn [negb andb fst snd]. split; [done|]. split; [done|].
  unfold gav1CheckError, gav1GetErrorMessage. cbn.
  by destruct (Z.eqb_spec (DAV1D_ERR_EAGAIN env) 0).
Qed.

Lemma gav1Decode_EAGAIN_then_gav1CheckError_witness :
  after_decode.1 = kStatusOk /\
  logcat after_decode.2 = logcat fresh_process /\
  gav1CheckError after_decode.2 = kStatusError /\
  gav1GetErrorMessage (Some after_decode.2) = None.
Proof.
  apply (gav1Decode_EAGAIN_then_gav1CheckError busy_decoder fresh_process).
  - reflexivity.
  - reflexivity.
  - cbn. lia.
Defined.

(** [gav1GetErrorMessage] and [gav1CheckError] agree: the message is
    [None.] exactly when [gav1CheckError] returns [kStatusOk]; with a pool
    error and a decoder status of zero it is the message of that error,
    which is neither [None.] nor the text for an unrecognised code, and
    different errors have different messages; with a decoder status other
    than zero no message is defined. Without a context the message is that
    the context failed to initialise. *)
Theorem gav1GetErrorMessage_agrees_with_gav1CheckError (pr : Process) :
  gav1GetErrorMessage None = Some "Failed to initialize JNI context."%string /\
  (gav1CheckError pr = kStatusOk <->
   gav1GetErrorMessage (Some pr) = Some "None."%string) /\
  (gav1GetErrorMessage (Some pr) = None <->
   avid_status_code (context pr) <> 0) /\
  (forall message,
     gav1GetErrorMessage (Some pr) = Some message ->
     message <> "None."%string ->
     message = GetJniErrorMessage (jni_status_code (context pr)) /\
     message <> "Unrecognized error code."%string /\
     gav1CheckError pr = kStatusError) /\
  (forall code code',
     GetJniErrorMessage code = GetJniErrorMessage code' -> code = code').
Proof.
  split; [done|].
  unfold gav1CheckError, gav1GetErrorMessage.
  destruct (Z.eqb_spec (avid_status_code (context pr)) 0) as [Ha|Ha];
    cbn [negb orb].
  - split; [|split; [|split]].
    + destruct (jni_status_code (context pr)); cbn; split; done.
    + destruct (jni_status_code (context pr)); cbn; split; done.
    + intros message H Hne.
      destruct (jni_status_code (context pr)); cbn in *;
        simplify_eq; done.
    + intros code code' H. destruct code, code'; done.
  - split; [|split; [|split]].
    + split; done.
    + split; done.
    + intros message H. done.
    + intros code code' H. destruct code, code'; done.
Qed.

(** ** The pool through a decoding session *)



(** ** The copies into the byte buffer *)

(** What [CopyFrameToDataBuffer] puts into the byte buffer, for every
    picture: of each plane the first [sizeof_pointer] bytes, one plane after
    the other, and three lines in the log; the rest of the memory is as it
    was, however large the planes are. The planes are taken to lie outside
    the bytes written. *)
Theorem CopyFrameToDataBuffer_copies_plane_heads (sizeof_pointer : Z)
    (decoder_buffer : Dav1dPicture) (data : Z) (mem mem' : Memory)
    (lg lg' : list LogLine) :
  CopyFrameToDataBuffer sizeof_pointer decoder_buffer data mem lg
    = Some (mem', lg') ->
  (forall source k,
     source ∈ [elt3_0 (DAV1D_API.data decoder_buffer);
               elt3_1 (DAV1D_API.data decoder_buffer);
               elt3_2 (DAV1D_API.data decoder_buffer)] ->
     0 <= k < sizeof_pointer ->
     ~ (data <= source + k < data + 3 * sizeof_pointer)) ->
  (forall k, 0 <= k < sizeof_pointer ->
     read8 mem' (data + k)
     = read8 mem (elt3_0 (DAV1D_API.data decoder_buffer) + k) /\
     read8 mem' (data + sizeof_pointer + k)
     = read8 mem (elt3_1 (DAV1D_API.data decoder_buffer) + k) /\
     read8 mem' (data + 2 * sizeof_pointer + k)
     = read8 mem (elt3_2 (DAV1D_API.data decoder_buffer) + k)) /\
  (forall a, ~ (data <= a < data + 3 * sizeof_pointer) ->
     read8 mem' a = read8 mem a) /\
  lg' = lg ++ replicate 3
                (LOGI "CopyFrameToDataBuffer %lu" [IntArg sizeof_pointer]).
Proof.
  intros H Hout.
  pose proof (CopyFrameToDataBuffer_writes _ _ _ _ _ _ _ H) as Hframe.
  unfold CopyFrameToDataBuffer in H.
  destruct (for_loop 3 _ _ _) as [c|] eqn:Hloop; [|done].
  cbn [mbind option_bind] in H. injection H as <- <-.
  apply for_loop_3 in Hloop as (c1 & c2 & H1 & H2 & H3).
  unfold CopyFrameToDataBuffer_plane, kPlaneY in H1, H2, H3.
  change (0 + 1 + 1) with 2 in H3. change (0 + 1) with 1 in H2.
  cbn [get3 Z.eqb Z.add Pos.eqb Pos.add mbind option_bind cursor_data
       cursor_memory cursor_log] in H1, H2, H3.
  destruct (memcpy data _ _ mem) as [m1|] eqn:Hc1; [|done].
  cbn [mbind option_bind] in H1. injection H1 as <-.
  cbn [cursor_data cursor_memory cursor_log] in H2.
  destruct (memcpy _ _ _ m1) as [m2|] eqn:Hc2; [|done].
  cbn [mbind option_bind] in H2. injection H2 as <-.
  cbn [cursor_data cursor_memory cursor_log] in H3.
  destruct (memcpy _ _ _ m2) as [m3|] eqn:Hc3; [|done].
  cbn [mbind option_bind] in H3. injection H3 as <-.
  cbn [cursor_memory cursor_log] in *.
  apply memcpy_Some in Hc1 as (Hsz & Hm1).
  apply memcpy_Some in Hc2 as (_ & Hm2).
  apply memcpy_Some in Hc3 as (_ & Hm3).
  pose proof (fun k => Hout (elt3_0 (DAV1D_API.data decoder_buffer)) k
                         ltac:(set_solver)) as Hout0.
  pose proof (fun k => Hout (elt3_1 (DAV1D_API.data decoder_buffer)) k
                         ltac:(set_solver)) as Hout1.
  pose proof (fun k => Hout (elt3_2 (DAV1D_API.data decoder_buffer)) k
                         ltac:(set_solver)) as Hout2.
  assert (forall a, read8 m1 a
            = if (data <=? a) && (a <? data + sizeof_pointer)
              then read8 mem
                     (elt3_0 (DAV1D_API.data decoder_buffer) + (a - data))
              else read8 mem a) as Hr1 by exact Hm1.
  assert (forall a, ~ (data <= a < data + sizeof_pointer) ->
            read8 m1 a = read8 mem a) as Hk1.
  { intros a Ha. rewrite Hm1.
    destruct (Z.leb_spec data a); [|done].
    destruct (Z.ltb_spec a (data + sizeof_pointer)); [lia|done]. }
  assert (forall a, ~ (data + sizeof_pointer <= a
                       < data + sizeof_pointer + sizeof_pointer) ->
            read8 m2 a = read8 m1 a) as Hk2.
  { intros a Ha. rewrite Hm2.
    destruct (Z.leb_spec (data + sizeof_pointer) a); [|done].
    destruct (Z.ltb_spec a (data + sizeof_pointer + sizeof_pointer));
      [lia|done]. }
  assert (forall a, ~ (data + sizeof_pointer + sizeof_pointer <= a
                       < data + sizeof_pointer + sizeof_pointer
                         + sizeof_pointer) ->
            read8 m3 a = read8 m2 a) as Hk3.
  { intros a Ha. rewrite Hm3.
    destruct (Z.leb_spec (data + sizeof_pointer + sizeof_pointer) a);
      [|done].
    destruct (Z.ltb_spec a (data + sizeof_pointer + sizeof_pointer
                            + sizeof_pointer)); [lia|done]. }
  split; [|split; [done|]].
  - intros k Hk. split; [|split].
    + rewrite Hk3, Hk2 by lia. rewrite Hm1.
      destruct (Z.leb_spec data (data + k)); [|lia].
      destruct (Z.ltb_spec (data + k) (data + sizeof_pointer)); [|lia].
      cbn [andb]. f_equal. lia.
    + rewrite Hk3 by lia. rewrite Hm2.
      destruct (Z.leb_spec (data + sizeof_pointer)
                  (data + sizeof_pointer + k)); [|lia].
      destruct (Z.ltb_spec (data + sizeof_pointer + k)
                  (data + sizeof_pointer + sizeof_pointer)); [|lia].
      cbn [andb]. rewrite Hk1.
      * f_equal. lia.
      * specialize (Hout1 k Hk). lia.
    + rewrite Hm3.
      destruct (Z.leb_spec (data + sizeof_pointer + sizeof_pointer)
                  (data + 2 * sizeof_pointer + k)); [|lia].
      destruct (Z.ltb_spec (data + 2 * sizeof_pointer + k)
                  (data + sizeof_pointer + sizeof_pointer
                   + sizeof_pointer)); [|lia].
      cbn [andb]. rewrite Hk2, Hk1.
      * f_equal. lia.
      * specialize (Hout2 k Hk). lia.
      * specialize (Hout2 k Hk). lia.
  - cbn [replicate]. rewrite <- !app_assoc. done.
Qed.

Lemma CopyFrameToDataBuffer_copies_plane_heads_witness :
  (forall k, 0 <= k < 8 ->
     read8 (memory decoded_for_yuv.1.2) (5000 + k)
     = read8 (memory fresh_process) (1000 + k) /\
     read8 (memory decoded_for_yuv.1.2) (5000 + 8 + k)
     = read8 (memory fresh_process) (2000 + k) /\
     read8 (memory decoded_for_yuv.1.2) (5000 + 2 * 8 + k)
     = read8 (memory fresh_process) (3000 + k)) /\
  (forall a, ~ (5000 <= a < 5000 + 3 * 8) ->
     read8 (memory decoded_for_yuv.1.2) a
     = read8 (memory fresh_process) a) /\
  logcat decoded_for_yuv.1.2
  = logcat fresh_process
    ++ replicate 3 (LOGI "CopyFrameToDataBuffer %lu" [IntArg 8]).
Proof.
  apply (CopyFrameToDataBuffer_copies_plane_heads 8 small_picture 5000
           (memory fresh_process) (memory decoded_for_yuv.1.2)
           (logcat fresh_process) (logcat decoded_for_yuv.1.2)).
  - vm_compute. reflexivity.
  - intros source k Hs Hk. cbn in Hs.
    apply elem_of_cons in Hs as [->|Hs]; [lia|].
    apply elem_of_cons in Hs as [->|Hs]; [lia|].
    apply list_elem_of_singleton in Hs as ->. lia.
Defined.

(** ** The 10-bit conversion *)

Lemma Convert10Bit_pixels_frame n : forall j source data sample mem a,
  ~ (data + j <= a < data + j + Z.of_nat n) ->
  read8 (Convert10Bit_pixels n j source data sample mem).2 a = read8 mem a.
Proof.
  induction n as [|n IH]; intros j source data sample mem a Ha; [done|].
  cbn [Convert10Bit_pixels dither].
  rewrite IH by lia. unfold write8, read8.
  rewrite lookup_insert_ne by lia. done.
Qed.

Lemma sum_samples_ext n : forall j source mem mem',
  (forall k, j <= k < j + Z.of_nat n ->
     read16 mem' (source + 2 * k) = read16 mem (source + 2 * k)) ->
  sum_samples n j source mem' = sum_samples n j source mem.
Proof.
  induction n as [|n IH]; intros j source mem mem' H; [done|].
  cbn [sum_samples]. rewrite H by lia. f_equal. apply IH.
  intros k Hk. apply H. lia.
Qed.

Lemma sum_bytes_ext n : forall j data mem mem',
  (forall k, j <= k < j + Z.of_nat n ->
     read8 mem' (data + k) = read8 mem (data + k)) ->
  sum_bytes n j data mem' = sum_bytes n j data mem.
Proof.
  induction n as [|n IH]; intros j data mem mem' H; [done|].
  cbn [sum_bytes]. rewrite H by lia. f_equal. apply IH.
  intros k Hk. apply H. lia.
Qed.

(** The dither keeps what it cannot store. For the pixels of one row of
    [Convert10BitFrameTo8BitDataBuffer], entered with a carry between 0 and
    3, with samples between 0 and 1020 and the bytes written lying outside
    the samples read: four times the sum of the bytes written, plus the
    carry left, is the carry brought plus the sum of the samples; and only
    the [n] bytes from [data + j] on are written. *)
Theorem Convert10Bit_pixels_conserves_samples (n : nat)
    (j source data sample : Z) (mem : Memory) :
  0 <= sample <= 3 ->
  (forall k, j <= k < j + Z.of_nat n ->
     0 <= read16 mem (source + 2 * k) <= 1020) ->
  (forall k k', j <= k < j + Z.of_nat n -> j <= k' < j + Z.of_nat n ->
     data + k <> source + 2 * k' /\ data + k <> source + 2 * k' + 1) ->
  let r := Convert10Bit_pixels n j source data sample mem in
  4 * sum_bytes n j data r.2 + r.1 = sample + sum_samples n j source mem /\
  0 <= r.1 <= 3 /\
  forall a, ~ (data + j <= a < data + j + Z.of_nat n) ->
            read8 r.2 a = read8 mem a.
Proof.
  cbn zeta. revert j sample mem.
  induction n as [|n IH]; intros j sample mem Hs Hrange Hout.
  { cbn. split; [lia|]. split; [lia|done]. }
  split; [|split].
  2:{ by apply Convert10Bit_pixels_carry. }
  2:{ intros a Ha. by apply Convert10Bit_pixels_frame. }
  cbn [Convert10Bit_pixels dither sum_bytes sum_samples].
  set (s := read16 mem (source + 2 * j)).
  assert (0 <= s <= 1020) as Hsj by (apply Hrange; lia).
  set (mem1 := write8 mem (data + j) (to_byte (Z.shiftr (sample + s) 2))).
  assert (forall k, j + 1 <= k < j + 1 + Z.of_nat n ->
            read16 mem1 (source + 2 * k) = read16 mem (source + 2 * k))
    as Hsame.
  { intros k Hk. unfold read16, read8, mem1, write8.
    destruct (Hout j k ltac:(lia) ltac:(lia)) as [Ha Hb].
    rewrite !lookup_insert_ne by lia. done. }
  destruct (IH (j + 1) (Z.land (sample + s) 3) mem1) as (Hsum & _ & _).
  { apply land_3_range. }
  { intros k Hk. rewrite Hsame by lia. apply Hrange. lia. }
  { intros k k' Hk Hk'. apply Hout; lia. }
  rewrite (sum_samples_ext n (j + 1) source mem mem1) in Hsum by exact Hsame.
  rewrite Convert10Bit_pixels_frame by lia.
  assert (read8 mem1 (data + j) = to_byte (Z.shiftr (sample + s) 2)) as ->.
  { unfold read8, mem1, write8. by rewrite lookup_insert_eq. }
  assert (to_byte (Z.shiftr (sample + s) 2) = Z.shiftr (sample + s) 2) as ->.
  { unfold to_byte. apply Z.mod_small. rewrite shiftr_2_div.
    split; [apply Z.div_pos; lia|]. apply Z.div_lt_upper_bound; lia. }
  pose proof (shiftr_land_exact (sample + s)). lia.
Qed.

Lemma Convert10Bit_pixels_conserves_samples_witness :
  let r := Convert10Bit_pixels 3 0 1000 5000 0 row_memory in
  4 * sum_bytes 3 0 5000 r.2 + r.1 = 0 + sum_samples 3 0 1000 row_memory /\
  0 <= r.1 <= 3 /\
  forall a, ~ (5000 + 0 <= a < 5000 + 0 + Z.of_nat 3) ->
            read8 r.2 a = read8 row_memory a.
Proof.
  apply (Convert10Bit_pixels_conserves_samples 3 0 1000 5000 0 row_memory).
  - lia.
  - intros k Hk.
    assert (k = 0 \/ k = 1 \/ k = 2) as [-> | [-> | ->]] by lia;
      vm_compute; split; discriminate.
  - intros k k' Hk Hk'. lia.
Defined.

Lemma Convert10BitFrameTo8BitDataBuffer_eq pic data mem lg :
  Convert10BitFrameTo8BitDataBuffer pic data mem lg
  = (if 0 <? DAV1D_API.h (DAV1D_API.p pic) then None
     else Some (mem, lg ++ [LOGI "Convert10BitFrameTo8BitDataBuffer" []])).
Proof.
  unfold Convert10BitFrameTo8BitDataBuffer, Convert10Bit_plane, kPlaneY.
  cbn [for_loop]. change (0 + 1 + 1) with 2. change (0 + 1) with 1.
  cbn [get3 Z.eqb Pos.eqb mbind option_bind].
  destruct (Z.ltb_spec 0 (DAV1D_API.h (DAV1D_API.p pic))) as [Hh|Hh].
  - destruct (Z.to_nat (DAV1D_API.h (DAV1D_API.p pic)))
      as [|rows] eqn:Hrows; [lia|].
    cbn [Convert10Bit_rows].
    repeat (destruct (Convert10Bit_pixels _ _ _ _ _ _);
            cbn [get2 Z.eqb Pos.eqb mbind option_bind fst snd]).
    destruct (Convert10Bit_rows rows _ 0 _ _ _ _) as [[[d0 s0] m0]|];
      [|done].
    cbn [mbind option_bind fst snd].
    destruct (Convert10Bit_pixels _ _ _ _ _ _).
    destruct (Convert10Bit_rows rows _ 1 _ _ _ _) as [[[d1 s1] m1]|];
      [|done].
    cbn [mbind option_bind fst snd].
    by destruct (Convert10Bit_pixels _ _ _ _ _ _).
  - replace (Z.to_nat (DAV1D_API.h (DAV1D_API.p pic))) with 0%nat by lia.
    done.
Qed.

(** [Convert10BitFrameTo8BitDataBuffer] reads [stride[2]]. The picture's
    [stride] has the two elements 0 and 1, and at the end of every row the
    function advances [source] and [data] by [stride[plane_index]], also
    for [plane_index] 2. So the planes 0 and 1 are converted within the
    array, and every call for a picture with at least one row reads behind
    it in plane 2, which the language leaves undefined and the model
    renders as a call without result; for a picture without rows the call
    logs its line and writes nothing. *)
Theorem Convert10BitFrameTo8BitDataBuffer_needs_third_stride
    (decoder_buffer : Dav1dPicture) (data : Z) (mem : Memory)
    (lg : list LogLine) :
  get2 (DAV1D_API.stride decoder_buffer) kPlaneV = None /\
  (exists c, for_loop 2 kPlaneY (Convert10Bit_plane decoder_buffer)
               (data, mem) = Some c) /\
  Convert10BitFrameTo8BitDataBuffer decoder_buffer data mem lg
  = (if 0 <? DAV1D_API.h (DAV1D_API.p decoder_buffer) then None
     else Some (mem, lg ++ [LOGI "Convert10BitFrameTo8BitDataBuffer" []])).
Proof.
  split; [done|]. split; [|apply Convert10BitFrameTo8BitDataBuffer_eq].
  assert (forall n i source d s m,
            i = 0 \/ i = 1 ->
            exists r, Convert10Bit_rows n decoder_buffer i source d s m
                      = Some r) as Hrows.
  { induction n as [|n IH]; intros i source d s m Hi; [by eexists|].
    cbn [Convert10Bit_rows].
    destruct (Convert10Bit_pixels _ _ _ _ _ _) as [s' m'].
    destruct Hi as [-> | ->]; cbn [get2 Z.eqb Pos.eqb]; apply IH; auto. }
  unfold Convert10Bit_plane, kPlaneY. cbn [for_loop].
  change (0 + 1) with 1. cbn [get3 Z.eqb Pos.eqb mbind option_bind].
  destruct (Hrows (Z.to_nat (DAV1D_API.h (DAV1D_API.p decoder_buffer))) 0
              (elt3_0 (DAV1D_API.data decoder_buffer)) data 0 mem)
    as (r0 & ->); [by left|].
  cbn [mbind option_bind].
  destruct (Hrows (Z.to_nat (DAV1D_API.h (DAV1D_API.p decoder_buffer))) 1
              (elt3_1 (DAV1D_API.data decoder_buffer)) r0.1.1 0 r0.2)
    as (r1 & ->); [by right|].
  cbn [mbind option_bind]. by eexists.
Qed.

(** ** Edges *)

(** Rendering a released frame is undefined. [gav1ReleaseFrame] leaves -1
    in [decoderPrivate], and [gav1RenderFrame] uses that field as an index
    into [all_buffers_] without looking at it: with a negative
    [decoderPrivate] it reads in front of the array, whatever the surface
    and the state of the pool. *)
Theorem gav1RenderFrame_after_gav1ReleaseFrame (env : Env) (pr : Process)
    (jSurface : Z) (jOutputBuffer : OutputBuffer) :
  (decoderPrivate jOutputBuffer < 0 ->
   gav1RenderFrame env pr jSurface jOutputBuffer = None) /\
  forall pr' jOutputBuffer',
    gav1ReleaseFrame pr jOutputBuffer = Some (pr', jOutputBuffer') ->
    gav1RenderFrame env pr' jSurface jOutputBuffer' = None.
Proof.
  assert (forall p o, decoderPrivate o < 0 ->
            gav1RenderFrame env p jSurface o = None) as Hneg.
  { intros p o Ho. unfold gav1RenderFrame, GetBuffer_id. mrun.
    unfold array_get. by destruct (Z.leb_spec 0 (decoderPrivate o)); [lia|]. }
  split; [apply Hneg|].
  intros pr' ob' H. apply Hneg. unfold gav1ReleaseFrame in H.
  destruct (decoderPrivate jOutputBuffer <? 0); [by simplify_eq|].
  destruct (ReleaseBuffer _ _) as [[code pool']|]; [|done].
  bound H. destruct (negb _); by simplify_eq.
Qed.

Lemma GetBuffer_finish_Ok_sizes q y uv w o w' :
  GetBuffer_finish q y uv w = Some ((kJniStatusOk, o), w') ->
  0 <= to_int y /\ 0 <= to_int uv.
Proof.
  unfold GetBuffer_finish. intros H.
  apply bind_Some in H as (ok & w1 & H1 & H).
  destruct ok; cbn [negb] in H; [|unfold ret in H; by simplify_eq].
  clear H.
  unfold MaybeReallocateGav1DataPlanes, kPlaneY, kPlaneU in H1.
  apply bind_Some in H1 as (ok1 & w2 & H1 & H).
  destruct (heap w !! q) as [b|] eqn:Hb.
  2:{ unfold reallocate_plane in H1. mrun_in H1. by rewrite Hb in H1. }
  pose proof (reallocate_plane_sizes _ _ _ _ _ _ b H1 Hb)
    as (b1 & Hb1 & _ & s & s' & _ & _ & Hok1).
  destruct ok1; cbn [negb] in H; [|unfold ret in H; by simplify_eq].
  apply bind_Some in H as (ok2 & w3 & H2 & H).
  pose proof (reallocate_plane_sizes _ _ _ _ _ _ b1 H2 Hb1)
    as (b2 & Hb2 & _ & t & t' & _ & _ & Hok2).
  destruct ok2; cbn [negb] in H; [|unfold ret in H; by simplify_eq].
  lia.
Qed.

(** A size that does not fit an [int]. [GetBuffer] takes its sizes as
    [size_t] and hands them on as [int]; when one of them is negative after
    the narrowing (a [size_t] of 2^31, say) no plane can be allocated, and
    [GetBuffer] returns [kJniStatusOutOfMemory] and no buffer, whatever the
    state of the pool and the memory. If the free list was not empty, the
    buffer taken from it is not put back: one buffer less is available. *)
Theorem GetBuffer_negative_size (y_plane_min_size uv_plane_min_size : Z)
    (w w' : World) (r : JniStatusCode * option ptr) :
  to_int y_plane_min_size < 0 \/ to_int uv_plane_min_size < 0 ->
  GetBuffer y_plane_min_size uv_plane_min_size w = Some (r, w') ->
  r = (kJniStatusOutOfMemory, None) /\
  (free_buffer_count_ (manager w) <> 0 ->
   available (manager w') = available (manager w) - 1).
Proof.
  intros Hneg H. split.
  - unfold GetBuffer in H. mrun_in H.
    repeat (case_match; simplify_eq;
            cbn [manager heap allocator events all_buffers_
                 all_buffer_count_ free_buffers_ free_buffer_count_ negb]
              in * );
      try done.
    all: match goal with
         | H : GetBuffer_finish _ _ _ _ = Some (?r, _) |- _ =>
             pose proof (GetBuffer_finish_inv _ _ _ _ _ _ H)
               as (_ & _ & b0 & b1 & _ & [[-> _]|[-> _]] & _); [done|];
             apply GetBuffer_finish_Ok_sizes in H; lia
         end.
  - intros Hfree. apply GetBuffer_inv in H. cbn zeta in H.
    unfold available.
    destruct H as [(_ & q & b & b' & _ & _ & _ & -> & _)
                  |[(? & _)|(? & _)]]; [cbn; lia|done|done].
Qed.

Lemma GetBuffer_negative_size_witness :
  (kJniStatusOutOfMemory, None) = (kJniStatusOutOfMemory, @None ptr) /\
  (free_buffer_count_ (manager released_world) <> 0 ->
   available (manager oversized_world)
   = available (manager released_world) - 1).
Proof.
  apply (GetBuffer_negative_size (2 ^ 31) 32 released_world
           oversized_world).
  - left. vm_compute. reflexivity.
  - vm_compute. reflexivity.
Defined.
